(** * 3D-Farm: the job / printer / spool coordinator

    A shallow embedding of [app/services/job_service.py],
    [app/services/inventory_service.py] and
    [app/services/failure_detection.py], with the SQLAlchemy models of
    [app/models] as records.

    Conventions of the embedding.
    - A Python [float] is an exact rational ([Q]); rounding of IEEE doubles is
      not modelled.  Numeric results are compared with [==].
    - A [datetime] is a number of microseconds ([Z]); [datetime.now] is an
      explicit argument [now] of the operations that read the clock.
    - A table is the list of its rows; [query(...).filter(...).first()] is
      [find], and a write through the returned ORM object rewrites the first
      row the same filter selects.
    - The SQLAlchemy session is a pair of stores: what is committed and what
      the session currently sees.  Queries read the session view (pending
      writes are flushed before a query), [commit] publishes it and
      [rollback] discards it.
    - Free-text columns (messages, descriptions, part names other than
      [part_name]) carry no behaviour and are left out.  So are the
      timestamps the database sets itself ([created_at], [updated_at],
      [detected_at]) and the surrogate keys other than [print_jobs.id]: an
      equality of two stores speaks of the columns that are modelled, and an
      UPDATE still rewrites [updated_at].
    - An [Integer] column holds 32 bits, as in the PostgreSQL database of
      [app/core/config.py]; a statement that writes a larger value is
      refused. *)

From Stdlib Require Import ZArith QArith List String Bool Lia Lqa.
Import ListNotations.

Local Open Scope string_scope.
Local Open Scope list_scope.
Local Open Scope Z_scope.
Local Open Scope Q_scope.

(** ** Python built-ins on numbers *)

Definition Qltb (x y : Q) : bool := negb (Qle_bool y x).

(** [max(a, b)]: the first argument unless the second is strictly larger. *)
Definition py_max (a b : Q) : Q := if Qltb a b then b else a.

(** [min(a, b)]: the first argument unless the second is strictly smaller. *)
Definition py_min (a b : Q) : Q := if Qltb b a then b else a.

(** [x or 0.0] on a nullable float column. *)
Definition or_zero (x : option Q) : Q :=
  match x with
  | Some q => if Qeq_bool q 0 then 0 else q
  | None => 0
  end.

(** Truth value of a nullable float: [None] and [0.0] are false. *)
Definition truthy_float (x : option Q) : bool :=
  match x with
  | Some q => negb (Qeq_bool q 0)
  | None => false
  end.

(** Truth value of a nullable string: [None] and the empty string are false. *)
Definition truthy_str (x : option string) : bool :=
  match x with
  | Some s => negb (String.eqb s "")
  | None => false
  end.

(** [x or d] on a nullable integer. *)
Definition or_int (x : option Z) (d : Z) : Z :=
  match x with
  | Some z => if Z.eqb z 0 then d else z
  | None => d
  end.

Definition Z_max (a b : Z) : Z := if Z.ltb a b then b else a.
Definition Z_min (a b : Z) : Z := if Z.ltb b a then b else a.

(** ** Column types *)

(** An [Integer] column of the PostgreSQL database the application is
    configured for holds 32 bits; a Python [int] has no bound.  A value
    outside the range is refused when the statement that writes it is
    executed. *)
Definition fits_integer (z : Z) : bool :=
  Z.leb (-2147483648) z && Z.leb z 2147483647.

(** The same for a nullable column: [None] is stored as NULL. *)
Definition fits_integer_opt (x : option Z) : bool :=
  match x with
  | Some z => fits_integer z
  | None => true
  end.

(** ** Tables *)

(** Write through the object returned by [.first()]. *)
Fixpoint update_first {A : Type} (p : A -> bool) (f : A -> A) (l : list A)
  : list A :=
  match l with
  | [] => []
  | x :: r => if p x then f x :: r else x :: update_first p f r
  end.

(** [session.delete(obj)] for the object returned by [.first()]. *)
Fixpoint delete_first {A : Type} (p : A -> bool) (l : list A) : list A :=
  match l with
  | [] => []
  | x :: r => if p x then r else x :: delete_first p r
  end.

(** ** Models *)

Inductive PrinterStatus := idle | printing | error | maintenance.

Definition PrinterStatus_eqb (a b : PrinterStatus) : bool :=
  match a, b with
  | idle, idle | printing, printing | error, error
  | maintenance, maintenance => true
  | _, _ => false
  end.

Module Printer.
Record t := mk {
  id : Z;
  status : PrinterStatus;
  is_active : bool
}.
Definition set_status (v : PrinterStatus) (p : t) : t :=
  mk (id p) v (is_active p).
End Printer.

Module Spool.
Record t := mk {
  spool_id : string;
  material_type : string;
  total_weight_g : Q;
  remaining_weight_g : Q;
  usage_percentage : Q;
  is_active : bool;
  is_low_inventory : bool
}.
Definition set_usage (remaining usage : Q) (low : bool) (s : t) : t :=
  mk (spool_id s) (material_type s) (total_weight_g s) remaining usage
     (is_active s) low.
Definition set_is_active (v : bool) (s : t) : t :=
  mk (spool_id s) (material_type s) (total_weight_g s)
     (remaining_weight_g s) (usage_percentage s) v (is_low_inventory s).
End Spool.

Inductive AlertType := low_inventory | insufficient_material.

Definition AlertType_eqb (a b : AlertType) : bool :=
  match a, b with
  | low_inventory, low_inventory => true
  | insufficient_material, insufficient_material => true
  | _, _ => false
  end.

Module InventoryAlert.
Record t := mk {
  spool_id : string;
  alert_type : AlertType;
  threshold_percentage : Q;
  current_percentage : Q;
  is_resolved : bool
}.
End InventoryAlert.

Inductive JobStatus := queued | job_printing | completed | failed | cancelled.

Definition JobStatus_eqb (a b : JobStatus) : bool :=
  match a, b with
  | queued, queued | job_printing, job_printing | completed, completed
  | failed, failed | cancelled, cancelled => true
  | _, _ => false
  end.

Module PrintJob.
Record t := mk {
  id : Z;
  job_id : string;
  printer_id : Z;
  part_name : string;
  status : JobStatus;
  start_time : option Z;
  end_time : option Z;
  estimated_time_min : option Z;
  actual_time_min : option Z;
  material_g : option Q;
  spool_id : option string;
  progress_percentage : option Q;
  current_layer : option Z;
  total_layers : option Z
}.
Definition set_status (v : JobStatus) (j : t) : t :=
  mk (id j) (job_id j) (printer_id j) (part_name j) v (start_time j)
     (end_time j) (estimated_time_min j) (actual_time_min j) (material_g j)
     (spool_id j) (progress_percentage j) (current_layer j) (total_layers j).
Definition set_start_time (v : option Z) (j : t) : t :=
  mk (id j) (job_id j) (printer_id j) (part_name j) (status j) v
     (end_time j) (estimated_time_min j) (actual_time_min j) (material_g j)
     (spool_id j) (progress_percentage j) (current_layer j) (total_layers j).
Definition set_end_time (v : option Z) (j : t) : t :=
  mk (id j) (job_id j) (printer_id j) (part_name j) (status j)
     (start_time j) v (estimated_time_min j) (actual_time_min j)
     (material_g j) (spool_id j) (progress_percentage j) (current_layer j)
     (total_layers j).
Definition set_actual_time_min (v : option Z) (j : t) : t :=
  mk (id j) (job_id j) (printer_id j) (part_name j) (status j)
     (start_time j) (end_time j) (estimated_time_min j) v (material_g j)
     (spool_id j) (progress_percentage j) (current_layer j) (total_layers j).
Definition set_progress_percentage (v : option Q) (j : t) : t :=
  mk (id j) (job_id j) (printer_id j) (part_name j) (status j)
     (start_time j) (end_time j) (estimated_time_min j) (actual_time_min j)
     (material_g j) (spool_id j) v (current_layer j) (total_layers j).
Definition set_current_layer (v : option Z) (j : t) : t :=
  mk (id j) (job_id j) (printer_id j) (part_name j) (status j)
     (start_time j) (end_time j) (estimated_time_min j) (actual_time_min j)
     (material_g j) (spool_id j) (progress_percentage j) v (total_layers j).
End PrintJob.

Module FailureEvent.
Record t := mk {
  job_id : Z;
  failure_type : string;
  confidence_score : Q;
  image_path : string;
  resolved : bool
}.
End FailureEvent.

(** ** The database and the session *)

Record Store := mkStore {
  printers : list Printer.t;
  spools : list Spool.t;
  print_jobs : list PrintJob.t;
  inventory_alerts : list InventoryAlert.t;
  failure_events : list FailureEvent.t;
  print_jobs_seq : Z
}.

Record Session := mkSession {
  committed : Store;
  pending : Store
}.

Definition begin (db : Store) : Session := mkSession db db.
Definition commit (s : Session) : Session := mkSession (pending s) (pending s).
Definition rollback (s : Session) : Session :=
  mkSession (committed s) (committed s).
Definition write (f : Store -> Store) (s : Session) : Session :=
  mkSession (committed s) (f (pending s)).

Definition with_printers (f : list Printer.t -> list Printer.t) (d : Store) :=
  mkStore (f (printers d)) (spools d) (print_jobs d) (inventory_alerts d)
          (failure_events d) (print_jobs_seq d).
Definition with_spools (f : list Spool.t -> list Spool.t) (d : Store) :=
  mkStore (printers d) (f (spools d)) (print_jobs d) (inventory_alerts d)
          (failure_events d) (print_jobs_seq d).
Definition with_print_jobs (f : list PrintJob.t -> list PrintJob.t)
  (d : Store) :=
  mkStore (printers d) (spools d) (f (print_jobs d)) (inventory_alerts d)
          (failure_events d) (print_jobs_seq d).
Definition with_inventory_alerts
  (f : list InventoryAlert.t -> list InventoryAlert.t) (d : Store) :=
  mkStore (printers d) (spools d) (print_jobs d) (f (inventory_alerts d))
          (failure_events d) (print_jobs_seq d).
Definition with_failure_events
  (f : list FailureEvent.t -> list FailureEvent.t) (d : Store) :=
  mkStore (printers d) (spools d) (print_jobs d) (inventory_alerts d)
          (f (failure_events d)) (print_jobs_seq d).
Definition bump_print_jobs_seq (d : Store) :=
  mkStore (printers d) (spools d) (print_jobs d) (inventory_alerts d)
          (failure_events d) (print_jobs_seq d + 1)%Z.

(** The sequence behind the primary key of [print_jobs] is not
    transactional: an INSERT draws its key when it is executed, and a key
    drawn for a row that is then refused is not given back by the
    rollback. *)
Definition draw_print_jobs_key (s : Session) : Session :=
  mkSession (bump_print_jobs_seq (committed s))
            (bump_print_jobs_seq (pending s)).

(** Filters of the queries. *)
Definition is_printer (pid : Z) (p : Printer.t) : bool :=
  Z.eqb (Printer.id p) pid.
Definition is_spool (code : string) (s : Spool.t) : bool :=
  String.eqb (Spool.spool_id s) code.
Definition is_job (code : string) (j : PrintJob.t) : bool :=
  String.eqb (PrintJob.job_id j) code.

Definition query_printer (d : Store) (pid : Z) : option Printer.t :=
  find (is_printer pid) (printers d).
Definition query_spool (d : Store) (code : string) : option Spool.t :=
  find (is_spool code) (spools d).
Definition query_job (d : Store) (code : string) : option PrintJob.t :=
  find (is_job code) (print_jobs d).

(** [PrintJob.spool_id == code, PrintJob.status == "printing"]. *)
Definition printing_on_spool (code : string) (j : PrintJob.t) : bool :=
  match PrintJob.spool_id j with
  | Some c =>
      String.eqb c code && JobStatus_eqb (PrintJob.status j) job_printing
  | None => false
  end.

(** [InventoryAlert.spool_id == code, alert_type == ty,
    is_resolved == False]. *)
Definition unresolved_alert (code : string) (ty : AlertType)
  (a : InventoryAlert.t) : bool :=
  String.eqb (InventoryAlert.spool_id a) code
  && AlertType_eqb (InventoryAlert.alert_type a) ty
  && negb (InventoryAlert.is_resolved a).

(** ** Settings ([app/core/config.py]) *)

Record Settings := mkSettings {
  failure_detection_threshold : Q;
  inventory_alert_threshold : Q
}.

Definition default_settings : Settings := mkSettings 0.7 0.15.

Section Services.

Variable settings : Settings.

(** ** InventoryService ([app/services/inventory_service.py]) *)

Definition alert_threshold : Q := inventory_alert_threshold settings.

Definition _create_inventory_alert (spool : Spool.t) (remaining_percentage : Q)
  (db : Session) : Session :=
  let alert :=
    InventoryAlert.mk (Spool.spool_id spool) low_inventory alert_threshold
                      remaining_percentage false in
  write (with_inventory_alerts (fun l => l ++ [alert])) db.

Definition ensure_alert (spool_id : string) (alert_type : AlertType)
  (threshold_percentage current_percentage : option Q) (db : Session)
  : Session :=
  match find (unresolved_alert spool_id alert_type)
             (inventory_alerts (pending db)) with
  | Some _ => db
  | None =>
      let alert :=
        InventoryAlert.mk spool_id alert_type (or_zero threshold_percentage)
                          (or_zero current_percentage) false in
      write (with_inventory_alerts (fun l => l ++ [alert])) db
  end.

(** Body of the [for job in active_jobs] loop of [update_spool_usage]. *)
Definition check_active_job (spool_id : string) (remaining_weight_g : Q)
  (db : Session) (job : PrintJob.t) : Session :=
  match PrintJob.material_g job with
  | None => db
  | Some material_g =>
      let progress := or_zero (PrintJob.progress_percentage job) in
      let remaining_needed := py_max 0 (material_g * (1 - progress / 100)) in
      if Qltb remaining_weight_g remaining_needed
      then ensure_alert spool_id insufficient_material None None db
      else db
  end.

(** The division by [total_weight_g] raises [ZeroDivisionError] on a spool of
    total weight 0; the handler rolls the session back and returns [False]. *)
Definition update_spool_usage (spool_id : string) (material_used_g : Q)
  (db : Session) : bool * Session :=
  match query_spool (pending db) spool_id with
  | None => (false, db)
  | Some spool =>
      let total := Spool.total_weight_g spool in
      let remaining :=
        py_max 0 (Spool.remaining_weight_g spool - material_used_g) in
      if Qeq_bool total 0 then (false, rollback db)
      else
        let usage := (total - remaining) / total in
        let remaining_percentage := remaining / total in
        let was_low := Spool.is_low_inventory spool in
        let low := Qle_bool remaining_percentage alert_threshold in
        let spool' := Spool.set_usage remaining usage low spool in
        let db1 :=
          write (with_spools
                   (update_first (is_spool spool_id)
                                 (Spool.set_usage remaining usage low))) db in
        let db2 :=
          if low && negb was_low
          then _create_inventory_alert spool' remaining_percentage db1
          else db1 in
        let active_jobs :=
          filter (printing_on_spool (Spool.spool_id spool'))
                 (print_jobs (pending db2)) in
        let db3 :=
          fold_left (check_active_job (Spool.spool_id spool') remaining)
                    active_jobs db2 in
        (true, commit db3)
  end.

(** ** FailureDetector ([app/services/failure_detection.py]) *)

(** What [cv2.imread] and the four detectors of [detection_utils] make of a
    frame: nothing when the image cannot be loaded, otherwise the four
    confidences. *)
Record Scores := mkScores {
  stringing : Q;
  layer_separation : Q;
  warping : Q;
  blob : Q
}.

Definition results_of (sc : Scores) : list (string * Q) :=
  [ ("stringing", stringing sc);
    ("layer_separation", layer_separation sc);
    ("warping", warping sc);
    ("blob", blob sc) ].

(** Body of the loop that keeps the highest confidence. *)
Definition keep_highest (acc : Q * string) (r : string * Q) : Q * string :=
  if Qltb (fst acc) (snd r) then (snd r, fst r) else acc.

Definition threshold : Q := failure_detection_threshold settings.

Definition detect_failure (image : option Scores) : bool * Q * string :=
  match image with
  | None => (false, 0, "image_load_error")
  | Some sc =>
      let results := results_of sc in
      let best := fold_left keep_highest results (0, "none") in
      let max_confidence := fst best in
      let failure_type := snd best in
      let is_failure := Qltb threshold max_confidence in
      (is_failure, max_confidence, failure_type)
  end.

(** ** JobService ([app/services/job_service.py]) *)

(** The messages [_set_error] can record. *)
Inductive ErrorMsg :=
| Printer_not_found
| Printer_not_available
| Spool_not_found
| Job_not_found
| Job_not_queued
| Printer_occupied
| Spool_not_found_or_inactive
| Spool_insufficient_material
| Spool_in_use
| Only_queued_deleted
| Error_deleting_job.

Record JobService := mkJobService {
  db : Session;
  last_error_message : option ErrorMsg
}.

Definition _set_error (message : ErrorMsg) (self : JobService) : JobService :=
  mkJobService (db self) (Some message).

Definition set_db (s : Session) (self : JobService) : JobService :=
  mkJobService s (last_error_message self).

Definition _get_job (self : JobService) (job_id : string) : option PrintJob.t :=
  query_job (pending (db self)) job_id.

Definition _get_spool (self : JobService) (spool_id : string)
  : option Spool.t :=
  query_spool (pending (db self)) spool_id.

(** [hex8] stands for [uuid.uuid4().hex[:8].upper()].  The INSERT is refused
    at commit when the job code is already taken (unique index) or when
    [estimated_time_min] or [total_layers] does not fit its [Integer] column:
    the handler rolls back and returns [None], without recording a message.
    The primary key drawn for the refused row is spent. *)
Definition create_job (hex8 : string) (printer_id : Z) (part_name : string)
  (estimated_time_min : option Z) (material_g : option Q)
  (spool_id : option string) (total_layers : option Z) (self : JobService)
  : option PrintJob.t * JobService :=
  match query_printer (pending (db self)) printer_id with
  | None => (None, _set_error Printer_not_found self)
  | Some printer =>
      if negb (PrinterStatus_eqb (Printer.status printer) idle)
         || negb (Printer.is_active printer)
      then (None, _set_error Printer_not_available self)
      else
        let missing_spool :=
          match spool_id with
          | Some code =>
              negb (String.eqb code "")
              && match _get_spool self code with
                 | None => true
                 | Some _ => false
                 end
          | None => false
          end in
        if missing_spool then (None, _set_error Spool_not_found self)
        else
          let job_id := String.append "JOB_" hex8 in
          let pk := (print_jobs_seq (pending (db self)) + 1)%Z in
          let job :=
            PrintJob.mk pk job_id printer_id part_name queued None None
                        estimated_time_min None material_g spool_id
                        (Some 0) (Some 0%Z) total_layers in
          if existsb (is_job job_id) (print_jobs (pending (db self)))
             || negb (fits_integer_opt estimated_time_min
                      && fits_integer_opt total_layers)
          then (None, set_db (rollback (draw_print_jobs_key (db self))) self)
          else
            let db1 :=
              write (fun d => bump_print_jobs_seq
                                (with_print_jobs (fun l => l ++ [job]) d))
                    (db self) in
            (Some job, set_db (commit db1) self)
  end.

(** The spool checks of [start_job], for a job whose [spool_id] is set:
    [inl db'] when one of them fails (with the message and the session after
    the alert, if any, was committed), [inr tt] when the spool is usable. *)
Definition validate_spool (job : PrintJob.t) (code : string)
  (self : JobService) : (ErrorMsg * Session) + unit :=
  match find (fun s => is_spool code s && Spool.is_active s)
             (spools (pending (db self))) with
  | None => inl (Spool_not_found_or_inactive, db self)
  | Some spool =>
      let insufficient :=
        match PrintJob.material_g job with
        | Some material_g => Qltb (Spool.remaining_weight_g spool) material_g
        | None => false
        end in
      if insufficient
      then
        let db1 :=
          ensure_alert code insufficient_material None None (db self) in
        inl (Spool_insufficient_material, commit db1)
      else
        match find (printing_on_spool code)
                   (print_jobs (pending (db self))) with
        | Some in_use => inl (Spool_in_use, db self)
        | None => inr tt
        end
  end.

Definition start_job (now : Z) (job_id : string) (self : JobService)
  : bool * JobService :=
  match _get_job self job_id with
  | None => (false, _set_error Job_not_found self)
  | Some job =>
      if negb (JobStatus_eqb (PrintJob.status job) queued)
      then (false, _set_error Job_not_queued self)
      else
        match query_printer (pending (db self)) (PrintJob.printer_id job) with
        | None => (false, _set_error Printer_not_found self)
        | Some printer =>
            if PrinterStatus_eqb (Printer.status printer) printing
            then (false, _set_error Printer_occupied self)
            else
              let spool_check :=
                match PrintJob.spool_id job with
                | Some code =>
                    if negb (String.eqb code "")
                    then validate_spool job code self
                    else inr tt
                | None => inr tt
                end in
              match spool_check with
              | inl (message, db') =>
                  (false, _set_error message (set_db db' self))
              | inr _ =>
                  let db1 :=
                    write (with_print_jobs
                             (update_first (is_job job_id)
                                (fun j =>
                                   PrintJob.set_start_time (Some now)
                                     (PrintJob.set_status job_printing j))))
                          (db self) in
                  let db2 :=
                    write (with_printers
                             (update_first
                                (is_printer (PrintJob.printer_id job))
                                (Printer.set_status printing))) db1 in
                  let db3 :=
                    match PrintJob.spool_id job, PrintJob.material_g job with
                    | Some code, Some material_g =>
                        if negb (String.eqb code "")
                           && negb (Qeq_bool material_g 0)
                        then
                          match query_spool (pending db2) code with
                          | Some spool =>
                              if Qltb (Spool.remaining_weight_g spool)
                                      material_g
                              then ensure_alert code insufficient_material
                                                None None db2
                              else db2
                          | None => db2
                          end
                        else db2
                    | _, _ => db2
                    end in
                  (true, set_db (commit db3) self)
              end
        end
  end.

(** [max(0.0, min(100.0, progress_percentage))]. *)
Definition clamp_progress (progress_percentage : Q) : Q :=
  py_max 0 (py_min 100 progress_percentage).

(** [current_layer] is written to an [Integer] column.  When it does not
    fit, the UPDATE of the job row is refused at the final commit: the handler
    rolls back, which discards the progress, the layer and an alert that was
    only pending, and returns [False].  What [update_spool_usage] booked
    before was committed by its own commit and stays. *)
Definition update_job_progress (job_id : string) (progress_percentage : Q)
  (current_layer : option Z) (self : JobService) : bool * JobService :=
  match _get_job self job_id with
  | None => (false, self)
  | Some job =>
      let previous_progress := or_zero (PrintJob.progress_percentage job) in
      let new_progress := clamp_progress progress_percentage in
      let delta := new_progress - previous_progress in
      let db1 :=
        match PrintJob.spool_id job, PrintJob.material_g job with
        | Some code, Some material_g =>
            if Qltb 0 delta && negb (String.eqb code "")
               && negb (Qeq_bool material_g 0)
            then
              let material_used_delta := material_g * (delta / 100) in
              let db' :=
                snd (update_spool_usage code material_used_delta (db self)) in
              match query_spool (pending db') code with
              | Some spool =>
                  let remaining_needed :=
                    py_max 0 (material_g * (1 - new_progress / 100)) in
                  if Qltb (Spool.remaining_weight_g spool) remaining_needed
                  then ensure_alert code insufficient_material None None db'
                  else db'
              | None => db'
              end
            else db self
        | _, _ => db self
        end in
      let db2 :=
        write (with_print_jobs
                 (update_first (is_job job_id)
                    (PrintJob.set_progress_percentage (Some new_progress))))
              db1 in
      let db3 :=
        match current_layer with
        | Some layer =>
            write (with_print_jobs
                     (update_first (is_job job_id)
                        (PrintJob.set_current_layer (Some layer)))) db2
        | None => db2
        end in
      if fits_integer_opt current_layer
      then (true, set_db (commit db3) self)
      else (false, set_db (rollback db3) self)
  end.

(** [int(duration.total_seconds() / 60)] for a duration in microseconds:
    [int] truncates toward zero. *)
Definition minutes_of (duration : Z) : Z := Z.quot duration 60000000.

(** [int(duration.total_seconds())]. *)
Definition seconds_of (duration : Z) : Z := Z.quot duration 1000000.

Definition complete_job (now : Z) (job_id : string) (success : bool)
  (self : JobService) : bool * JobService :=
  match _get_job self job_id with
  | None => (false, self)
  | Some job =>
      let end_time := now in
      let db1 :=
        write (with_print_jobs
                 (update_first (is_job job_id)
                    (fun j => PrintJob.set_end_time (Some end_time)
                                (PrintJob.set_status
                                   (if success then completed else failed) j))))
              (db self) in
      let db2 :=
        match PrintJob.start_time job with
        | Some start_time =>
            let duration := (end_time - start_time)%Z in
            write (with_print_jobs
                     (update_first (is_job job_id)
                        (PrintJob.set_actual_time_min
                           (Some (minutes_of duration))))) db1
        | None => db1
        end in
      let db3 :=
        write (with_printers
                 (update_first (is_printer (PrintJob.printer_id job))
                               (Printer.set_status idle))) db2 in
      let db4 :=
        match PrintJob.spool_id job, PrintJob.material_g job with
        | Some code, Some material_g =>
            if success && negb (String.eqb code "")
               && negb (Qeq_bool material_g 0)
            then
              let used_so_far :=
                or_zero (PrintJob.progress_percentage job) / 100 * material_g in
              let remaining := py_max 0 (material_g - used_so_far) in
              if Qltb 0 remaining
              then snd (update_spool_usage code remaining db3)
              else db3
            else db3
        | _, _ => db3
        end in
      (true, set_db (commit db4) self)
  end.

Definition detect_failure_from_image (now : Z) (job_id : string)
  (image_path : string) (image : option Scores) (self : JobService)
  : option FailureEvent.t * JobService :=
  match _get_job self job_id with
  | None => (None, self)
  | Some job =>
      let '(is_failure, confidence, failure_type) := detect_failure image in
      if is_failure
      then
        let db1 :=
          match PrintJob.spool_id job, PrintJob.material_g job with
          | Some code, Some material_g =>
              if negb (String.eqb code "") && negb (Qeq_bool material_g 0)
              then
                let total_minutes :=
                  or_int (PrintJob.estimated_time_min job) 60 in
                let seconds_total := Z_max (total_minutes * 60) 1 in
                let elapsed_s :=
                  match PrintJob.start_time job with
                  | Some start_time => seconds_of (now - start_time)
                  | None => 30%Z
                  end in
                let window_s := Z_min 30 (Z_max elapsed_s 0) in
                let used_g :=
                  (material_g * inject_Z window_s) / inject_Z seconds_total in
                if Qltb 0 used_g
                then snd (update_spool_usage code used_g (db self))
                else db self
              else db self
          | _, _ => db self
          end in
        let failure_event :=
          FailureEvent.mk (PrintJob.id job) failure_type confidence image_path
                          false in
        let db2 :=
          write (with_failure_events (fun l => l ++ [failure_event])) db1 in
        let db3 :=
          write (with_print_jobs
                   (update_first (is_job job_id)
                      (fun j => PrintJob.set_end_time (Some now)
                                  (PrintJob.set_status failed j)))) db2 in
        let db4 :=
          write (with_printers
                   (update_first (is_printer (PrintJob.printer_id job))
                                 (Printer.set_status error))) db3 in
        let db5 :=
          match PrintJob.spool_id job with
          | Some code =>
              if negb (String.eqb code "")
              then write (with_spools
                            (update_first (is_spool code)
                                          (Spool.set_is_active false))) db4
              else db4
          | None => db4
          end in
        (Some failure_event, set_db (commit db5) self)
      else (None, self)
  end.

(** Deleting a job that failure events still reference breaks their
    non-null foreign key at commit; the handler records the error and rolls
    back. *)
Definition delete_job (job_id : string) (self : JobService)
  : bool * JobService :=
  match query_job (pending (db self)) job_id with
  | None => (false, _set_error Job_not_found self)
  | Some job =>
      if negb (JobStatus_eqb (PrintJob.status job) queued)
      then (false, _set_error Only_queued_deleted self)
      else if existsb (fun e => Z.eqb (FailureEvent.job_id e) (PrintJob.id job))
                      (failure_events (pending (db self)))
      then (false,
            _set_error Error_deleting_job (set_db (rollback (db self)) self))
      else
        let db1 :=
          write (with_print_jobs (delete_first (is_job job_id))) (db self) in
        (true, set_db (commit db1) self)
  end.

(** A request: a fresh session on the database and a fresh service, one
    operation, and what is left committed when the session is dropped. *)
Definition request {R : Type} (op : JobService -> R * JobService) (d : Store)
  : R * option ErrorMsg * Store :=
  let '(r, self) := op (mkJobService (begin d) None) in
  (r, last_error_message self, committed (db self)).

(** The same for a direct call of the inventory service. *)
Definition inventory_request {R : Type} (op : Session -> R * Session)
  (d : Store) : R * Store :=
  let '(r, s) := op (begin d) in
  (r, committed s).

End Services.

(** * Vocabulary of the properties and example data *)

(** Two sessions that differ at most in the alerts the session sees. *)
Definition alerts_only (s s' : Session) : Prop :=
  committed s' = committed s
  /\ printers (pending s') = printers (pending s)
  /\ spools (pending s') = spools (pending s)
  /\ print_jobs (pending s') = print_jobs (pending s)
  /\ failure_events (pending s') = failure_events (pending s)
  /\ print_jobs_seq (pending s') = print_jobs_seq (pending s).

(** A fresh spool of 1000 g, as [create_spool] makes it. *)
Definition spool_S : Spool.t :=
  Spool.mk "S" "PLA" 1000 1000 0 true false.

(** An idle, active printer. *)
Definition printer_P : Printer.t := Printer.mk 1 idle true.

(** A farm with that printer and that spool, and nothing else. *)
Definition farm0 : Store := mkStore [printer_P] [spool_S] [] [] [] 0.

(** Number of unresolved alerts of a (spool code, alert type) pair. *)
Definition unresolved_count (code : string) (ty : AlertType)
  (l : list InventoryAlert.t) : nat :=
  List.length (filter (unresolved_alert code ty) l).

(** At most one unresolved alert per (spool code, alert type). *)
Definition deduplicated (l : list InventoryAlert.t) : Prop :=
  forall code ty, (unresolved_count code ty l <= 1)%nat.

(** The committed database after a direct [update_spool_usage] request. *)
Definition consume (settings : Settings) (code : string) (grams : Q)
  (d : Store) : Store :=
  snd (inventory_request (update_spool_usage settings code grams) d).

(** Spool S after 900 g were used and 500 g were booked back: its low flag
    is clear again while the alert of the first call is still unresolved. *)
Definition farm_refilled : Store :=
  consume default_settings "S" (-500) (consume default_settings "S" 900 farm0).

(** The tables [update_spool_usage] and [ensure_alert] never write. *)
Definition kept (d : Store) (s : Session) : Prop :=
  print_jobs (pending s) = print_jobs d
  /\ printers (pending s) = printers d
  /\ failure_events (pending s) = failure_events d
  /\ print_jobs_seq (pending s) = print_jobs_seq d.

(** Whether [update_job_progress] calls the inventory service: a positive
    delta, a spool code and a material requirement that are set. *)
Definition consumes (job : PrintJob.t) (new_progress : Q) : bool :=
  match PrintJob.spool_id job, PrintJob.material_g job with
  | Some code, Some material_g =>
      Qltb 0 (new_progress - or_zero (PrintJob.progress_percentage job))
      && negb (String.eqb code "") && negb (Qeq_bool material_g 0)
  | _, _ => false
  end.

(** The session after the inventory part of [update_job_progress]: the
    booking of the delta and the insufficient-material check that follows
    it. *)
Definition progress_booking (settings : Settings) (job : PrintJob.t)
  (new_progress : Q) (s : Session) : Session :=
  let delta := new_progress - or_zero (PrintJob.progress_percentage job) in
  match PrintJob.spool_id job, PrintJob.material_g job with
  | Some code, Some material_g =>
      if Qltb 0 delta && negb (String.eqb code "")
         && negb (Qeq_bool material_g 0)
      then
        let material_used_delta := material_g * (delta / 100) in
        let db' :=
          snd (update_spool_usage settings code material_used_delta s) in
        match query_spool (pending db') code with
        | Some spool =>
            let remaining_needed :=
              py_max 0 (material_g * (1 - new_progress / 100)) in
            if Qltb (Spool.remaining_weight_g spool) remaining_needed
            then ensure_alert code insufficient_material None None db'
            else db'
        | None => db'
        end
      else s
  | _, _ => s
  end.

(** A job created on the idle printer, still queued, that needs 900 g of
    spool S. *)
Definition farm_queued : Store :=
  snd (request (create_job "0A1B2C3D" 1 "bracket" None (Some 900) (Some "S")
                           None) farm0).

(** The rows [complete_job] writes before it turns to the inventory. *)
Definition close_job (now : Z) (code : string) (success : bool)
  (job : PrintJob.t) (d : Store) : Store :=
  let d1 :=
    with_print_jobs
      (update_first (is_job code)
         (fun j => PrintJob.set_end_time (Some now)
                     (PrintJob.set_status
                        (if success then completed else failed) j))) d in
  let d2 :=
    match PrintJob.start_time job with
    | Some start_time =>
        with_print_jobs
          (update_first (is_job code)
             (PrintJob.set_actual_time_min
                (Some (minutes_of (now - start_time))))) d1
    | None => d1
    end in
  with_printers
    (update_first (is_printer (PrintJob.printer_id job))
                  (Printer.set_status idle)) d2.

(** The spool and the amount [complete_job] books, if it books any. *)
Definition settles (job : PrintJob.t) (success : bool)
  : option (string * Q) :=
  match PrintJob.spool_id job, PrintJob.material_g job with
  | Some code, Some material_g =>
      if success && negb (String.eqb code "") && negb (Qeq_bool material_g 0)
      then
        let remaining :=
          py_max 0 (material_g
                    - or_zero (PrintJob.progress_percentage job) / 100
                      * material_g) in
        if Qltb 0 remaining then Some (code, remaining) else None
      else None
  | _, _ => None
  end.

(** The queued job of [farm_queued], started at time 0. *)
Definition farm_printing : Store :=
  snd (request (start_job 0 "JOB_0A1B2C3D") farm_queued).

(** The farm of [farm_queued] after the printer row was given another
    status or activity flag (through the printers API). *)
Definition farm_with_printer (status : PrinterStatus) (is_active : bool)
  : Store :=
  with_printers (fun _ => [Printer.mk 1 status is_active]) farm_queued.

(** What a request of [start_job] on the queued job answers and leaves as
    the status of job and printer. *)
Definition start_outcome (d : Store)
  : bool * option ErrorMsg * option JobStatus * option PrinterStatus :=
  let r := request (start_job 0 "JOB_0A1B2C3D") d in
  (fst (fst r), snd (fst r),
   option_map PrintJob.status (query_job (snd r) "JOB_0A1B2C3D"),
   option_map Printer.status (query_printer (snd r) 1)).

(** The coordinator operations, as requests. *)
Inductive Op :=
| Create (hex8 : string) (printer_id : Z) (material_g : option Q)
         (spool_id : option string)
| Start (now : Z) (job_id : string)
| Complete (now : Z) (job_id : string) (success : bool)
| Detect (now : Z) (job_id : string) (image : option Scores)
| Delete (job_id : string).

Definition step (settings : Settings) (d : Store) (o : Op) : Store :=
  match o with
  | Create hex8 printer_id material_g spool_id =>
      snd (request (create_job hex8 printer_id "part" None material_g
                               spool_id None) d)
  | Start now job_id => snd (request (start_job now job_id) d)
  | Complete now job_id success =>
      snd (request (complete_job settings now job_id success) d)
  | Detect now job_id image =>
      snd (request (detect_failure_from_image settings now job_id "frame.jpg"
                                              image) d)
  | Delete job_id => snd (request (delete_job job_id) d)
  end.

Definition run (settings : Settings) (ops : list Op) (d : Store) : Store :=
  fold_left (step settings) ops d.

(** Number of jobs with status printing that reference a printer. *)
Definition printing_jobs_on (d : Store) (printer_id : Z) : nat :=
  List.length
    (filter (fun j => Z.eqb (PrintJob.printer_id j) printer_id
                      && JobStatus_eqb (PrintJob.status j) job_printing)
            (print_jobs d)).

(** A printer's status is printing iff exactly one printing job references
    it. *)
Definition exclusive (d : Store) : Prop :=
  forall p, In p (printers d) ->
            (Printer.status p = printing <->
             printing_jobs_on d (Printer.id p) = 1%nat).

(** Two jobs are queued on the idle printer; the first is started; then the
    second, still queued, is completed. *)
Definition trace_free_busy_printer : list Op :=
  [ Create "0000000A" 1 None None;
    Create "0000000B" 1 None None;
    Start 0 "JOB_0000000A";
    Complete 1000000 "JOB_0000000B" true ].

(** A third job is then queued on the printer and started. *)
Definition trace_double_booking : list Op :=
  trace_free_busy_printer
  ++ [ Create "0000000C" 1 None None; Start 2000000 "JOB_0000000C" ].





(** A frame on which layer separation scores 0.9. *)
Definition frame_separated : Scores := mkScores 0.2 0.9 0.1 0.

(** * The rest of the services *)

(** ** InventoryService: creation and queries *)

(** [create_spool].  Colour and brand are free text and left out.  A spool
    code that is already taken breaks the unique index at commit: the handler
    rolls back and returns [False]. *)
Definition create_spool (spool_id material_type : string)
  (total_weight_g : Q) (db : Session) : bool * Session :=
  let spool :=
    Spool.mk spool_id material_type total_weight_g total_weight_g 0 true
             false in
  if existsb (is_spool spool_id) (spools (pending db))
  then (false, rollback db)
  else (true, commit (write (with_spools (fun l => l ++ [spool])) db)).

Definition get_spool_by_id (db : Session) (spool_id : string)
  : option Spool.t :=
  query_spool (pending db) spool_id.

Definition get_all_spools (db : Session) : list Spool.t :=
  filter Spool.is_active (spools (pending db)).

Definition get_all_spools_including_inactive (db : Session) : list Spool.t :=
  spools (pending db).

Definition get_low_inventory_spools (db : Session) : list Spool.t :=
  filter Spool.is_low_inventory (spools (pending db)).


(** ** The spool and printer switches of the API
    ([app/api/v1/endpoints/inventory.py], [printers.py]) *)

(** [activate_spool] and [deactivate_spool]: [false] stands for the 404
    answer on an unknown spool code. *)
Definition activate_spool (spool_id : string) (db : Session)
  : bool * Session :=
  match get_spool_by_id db spool_id with
  | None => (false, db)
  | Some _ =>
      (true,
       commit (write (with_spools
                        (update_first (is_spool spool_id)
                                      (Spool.set_is_active true))) db))
  end.

Definition deactivate_spool (spool_id : string) (db : Session)
  : bool * Session :=
  match get_spool_by_id db spool_id with
  | None => (false, db)
  | Some _ =>
      (true,
       commit (write (with_spools
                        (update_first (is_spool spool_id)
                                      (Spool.set_is_active false))) db))
  end.

(** [activate_printer]: sets the printer back to idle. *)
Definition activate_printer (printer_id : Z) (db : Session)
  : bool * Session :=
  match query_printer (pending db) printer_id with
  | None => (false, db)
  | Some _ =>
      (true,
       commit (write (with_printers
                        (update_first (is_printer printer_id)
                                      (Printer.set_status idle))) db))
  end.

(** ** JobService: queries *)

Definition get_job_by_id (self : JobService) (job_id : string)
  : option PrintJob.t :=
  query_job (pending (db self)) job_id.

(** [PrintJob.status.in_(["queued", "printing"])]. *)
Definition is_active_job (j : PrintJob.t) : bool :=
  JobStatus_eqb (PrintJob.status j) queued
  || JobStatus_eqb (PrintJob.status j) job_printing.

Definition get_active_jobs (self : JobService) : list PrintJob.t :=
  filter is_active_job (print_jobs (pending (db self))).

Definition get_jobs_by_printer (self : JobService) (printer_id : Z)
  : list PrintJob.t :=
  filter (fun j => Z.eqb (PrintJob.printer_id j) printer_id)
         (print_jobs (pending (db self))).

(** [get_failure_events]: the filter is applied only when a job code is
    given and a job of that code exists. *)
Definition get_failure_events (self : JobService) (job_id : option string)
  : list FailureEvent.t :=
  let all := failure_events (pending (db self)) in
  match job_id with
  | Some code =>
      if negb (String.eqb code "")
      then
        match query_job (pending (db self)) code with
        | Some job =>
            filter (fun e => Z.eqb (FailureEvent.job_id e) (PrintJob.id job))
                   all
        | None => all
        end
      else all
  | None => all
  end.

(** A service on a fresh session over a database, for the queries. *)
Definition service_on (d : Store) : JobService :=
  mkJobService (begin d) None.

(** ** Job utilities ([app/services/utils/job_utils.py]) *)

Definition compute_material_delta (total_material_g : option Q)
  (previous_progress new_progress : Q) : Q :=
  let delta :=
    py_max 0 (py_min 100 new_progress)
    - py_max 0 (py_min 100 previous_progress) in
  py_max 0 (or_zero total_material_g * (delta / 100)).

Definition compute_remaining_needed (total_material_g : option Q)
  (progress : Q) : Q :=
  py_max 0
    (or_zero total_material_g * (1 - py_max 0 (py_min 100 progress) / 100)).

Definition estimate_used_on_failure_window (now : Z)
  (total_material_g : option Q) (estimated_time_min : option Z)
  (start_time : option Z) (window_seconds : Z) : Q :=
  let total_seconds := Z_max (or_int estimated_time_min 60 * 60) 1 in
  let window_s :=
    match start_time with
    | Some start_time =>
        let elapsed_s := seconds_of (now - start_time) in
        Z_min window_seconds (Z_max elapsed_s 0)
    | None => window_seconds
    end in
  py_max 0
    (or_zero total_material_g * (inject_Z window_s / inject_Z total_seconds)).

(** ** Vocabulary of the further properties *)

(** Every printer id, spool code and job code is taken once: the primary
    key and the unique indexes of the tables. *)
Definition unique_keys (d : Store) : Prop :=
  NoDup (map Printer.id (printers d))
  /\ NoDup (map Spool.spool_id (spools d))
  /\ NoDup (map PrintJob.job_id (print_jobs d)).

(** Printer exclusivity in the form that is kept step by step: a printing
    printer has exactly one printing job, any other printer has none. *)
Definition exclusive_strict (d : Store) : Prop :=
  NoDup (map Printer.id (printers d))
  /\ forall p, In p (printers d) ->
       (Printer.status p = printing ->
        printing_jobs_on d (Printer.id p) = 1%nat)
       /\ (Printer.status p <> printing ->
           printing_jobs_on d (Printer.id p) = 0%nat).

(** Number of printing jobs on a spool code. *)
Definition printing_jobs_on_spool (d : Store) (code : string) : nat :=
  List.length (filter (printing_on_spool code) (print_jobs d)).

(** What [start_job] asks of the spool of a job: nothing when no code is set;
    otherwise an active spool of that code that holds the declared material,
    and no job printing on that code. *)
Definition spool_clear (d : Store) (job : PrintJob.t) : Prop :=
  forall c,
    PrintJob.spool_id job = Some c -> c <> "" ->
    (exists sp,
        find (fun s => is_spool c s && Spool.is_active s) (spools d) = Some sp
        /\ (forall m, PrintJob.material_g job = Some m ->
                      m <= Spool.remaining_weight_g sp))
    /\ find (printing_on_spool c) (print_jobs d) = None.

(** The rows [start_job] writes on success. *)
Definition started (now : Z) (code : string) (job : PrintJob.t) (d : Store)
  : Store :=
  with_printers
    (update_first (is_printer (PrintJob.printer_id job))
                  (Printer.set_status printing))
    (with_print_jobs
       (update_first (is_job code)
          (fun j => PrintJob.set_start_time (Some now)
                      (PrintJob.set_status job_printing j))) d).

(** An operation that respects the job state machine: completion and
    failure detection are only asked for a job that is printing. *)
Definition guarded (d : Store) (o : Op) : Prop :=
  match o with
  | Complete _ job_id _ | Detect _ job_id _ =>
      forall job, query_job d job_id = Some job ->
                  PrintJob.status job = job_printing
  | _ => True
  end.

(** A sequence of operations, each guarded in the state it is run in. *)
Fixpoint guarded_run (settings : Settings) (ops : list Op) (d : Store)
  : Prop :=
  match ops with
  | [] => True
  | o :: rest => guarded d o /\ guarded_run settings rest (step settings d o)
  end.

(** The filter behind [printing_jobs_on]. *)
Definition prints_on (printer_id : Z) (j : PrintJob.t) : bool :=
  Z.eqb (PrintJob.printer_id j) printer_id
  && JobStatus_eqb (PrintJob.status j) job_printing.

(** * Properties *)

(** ** Numbers *)

Lemma Qltb_true (x y : Q) : Qltb x y = true <-> x < y.
Proof.
  unfold Qltb. rewrite negb_true_iff. split; intro H.
  - apply Qnot_le_lt. intro L. apply Qle_bool_iff in L. congruence.
  - destruct (Qle_bool y x) eqn:E; [|reflexivity].
    apply Qle_bool_iff in E. exfalso. apply (Qlt_not_le _ _ H E).
Qed.

Lemma Qltb_false (x y : Q) : Qltb x y = false <-> y <= x.
Proof.
  unfold Qltb. rewrite negb_false_iff. apply Qle_bool_iff.
Qed.

Lemma Qeq_bool_false (x y : Q) : Qeq_bool x y = false <-> ~ x == y.
Proof.
  split; intro H.
  - now apply Qeq_bool_neq.
  - destruct (Qeq_bool x y) eqn:E; [|reflexivity].
    apply Qeq_bool_iff in E. contradiction.
Qed.

Ltac qcases :=
  repeat match goal with
  | H : Qltb _ _ = true |- _ => apply Qltb_true in H
  | H : Qltb _ _ = false |- _ => apply Qltb_false in H
  | H : Qeq_bool _ _ = true |- _ => apply Qeq_bool_iff in H
  | H : Qeq_bool _ _ = false |- _ => apply Qeq_bool_false in H
  | H : Qle_bool _ _ = true |- _ => apply Qle_bool_iff in H
  end.

Lemma py_max_0_nonneg (x : Q) : 0 <= py_max 0 x.
Proof. unfold py_max. destruct (Qltb 0 x) eqn:E; qcases; lra. Qed.

Lemma py_max_0_le (x y : Q) : 0 <= y -> x <= y -> py_max 0 x <= y.
Proof. unfold py_max. destruct (Qltb 0 x) eqn:E; qcases; lra. Qed.

Lemma py_max_0_id (x : Q) : 0 <= x -> py_max 0 x == x.
Proof. unfold py_max. destruct (Qltb 0 x) eqn:E; qcases; lra. Qed.

Lemma clamp_progress_bounds (p : Q) :
  0 <= clamp_progress p /\ clamp_progress p <= 100.
Proof.
  unfold clamp_progress, py_max, py_min.
  destruct (Qltb p 100) eqn:E1; destruct (Qltb 0 _) eqn:E2; qcases; lra.
Qed.

Lemma clamp_progress_id (p : Q) : 0 <= p <= 100 -> clamp_progress p == p.
Proof.
  unfold clamp_progress, py_max, py_min. intros [H0 H1].
  destruct (Qltb p 100) eqn:E1; destruct (Qltb 0 _) eqn:E2; qcases; lra.
Qed.

Lemma or_zero_eq (q : Q) : or_zero (Some q) == q.
Proof.
  unfold or_zero. destruct (Qeq_bool q 0) eqn:E; qcases; lra.
Qed.

(** ** Tables *)

Lemma find_update_first {A : Type} (p : A -> bool) (f : A -> A) (l : list A) :
  (forall x, p (f x) = p x) ->
  find p (update_first p f l) = option_map f (find p l).
Proof.
  intro Hp. induction l as [|x r IH]; simpl; [reflexivity|].
  destruct (p x) eqn:E; simpl.
  - now rewrite Hp, E.
  - now rewrite E.
Qed.

Lemma is_spool_set_usage code r u b x :
  is_spool code (Spool.set_usage r u b x) = is_spool code x.
Proof. reflexivity. Qed.

(** ** What the inventory service leaves alone *)

Lemma alerts_only_refl s : alerts_only s s.
Proof. repeat split. Qed.

Lemma alerts_only_trans s1 s2 s3 :
  alerts_only s1 s2 -> alerts_only s2 s3 -> alerts_only s1 s3.
Proof.
  unfold alerts_only.
  intros (a & b & c & d & e & f) (a' & b' & c' & d' & e' & f').
  repeat split; congruence.
Qed.

Section InventoryFacts.

Variable settings : Settings.

Lemma ensure_alert_alerts_only code ty t c s :
  alerts_only s (ensure_alert code ty t c s).
Proof.
  unfold ensure_alert.
  destruct (find _ _); [apply alerts_only_refl|]. repeat split.
Qed.

Lemma check_active_job_alerts_only code r s j :
  alerts_only s (check_active_job code r s j).
Proof.
  unfold check_active_job. destruct (PrintJob.material_g j).
  - destruct (Qltb _ _);
      [apply ensure_alert_alerts_only | apply alerts_only_refl].
  - apply alerts_only_refl.
Qed.

Lemma check_active_jobs_alerts_only code r l s :
  alerts_only s (fold_left (check_active_job code r) l s).
Proof.
  revert s. induction l as [|j l IH]; intro s; simpl.
  - apply alerts_only_refl.
  - eapply alerts_only_trans; [apply check_active_job_alerts_only | apply IH].
Qed.

(** The effect of [update_spool_usage] on a spool whose total weight is not
    zero: the first row of that code is rewritten, everything but spools and
    alerts is as the session saw it, and the result is committed. *)
Lemma update_spool_usage_effect code g s spool :
  query_spool (pending s) code = Some spool ->
  ~ Spool.total_weight_g spool == 0 ->
  let total := Spool.total_weight_g spool in
  let remaining := py_max 0 (Spool.remaining_weight_g spool - g) in
  let s' := snd (update_spool_usage settings code g s) in
  fst (update_spool_usage settings code g s) = true
  /\ committed s' = pending s'
  /\ printers (pending s') = printers (pending s)
  /\ print_jobs (pending s') = print_jobs (pending s)
  /\ failure_events (pending s') = failure_events (pending s)
  /\ print_jobs_seq (pending s') = print_jobs_seq (pending s)
  /\ spools (pending s') =
       update_first (is_spool code)
         (Spool.set_usage remaining ((total - remaining) / total)
            (Qle_bool (remaining / total) (alert_threshold settings)))
         (spools (pending s)).
Proof.
  intros Hq Ht. unfold update_spool_usage. rewrite Hq.
  apply Qeq_bool_false in Ht. rewrite Ht. cbv zeta.
  match goal with
  | |- context [fold_left ?f ?l ?d] =>
      pose proof (check_active_jobs_alerts_only
                    (Spool.spool_id
                       (Spool.set_usage
                          (py_max 0 (Spool.remaining_weight_g spool - g))
                          ((Spool.total_weight_g spool
                            - py_max 0 (Spool.remaining_weight_g spool - g))
                           / Spool.total_weight_g spool)
                          (Qle_bool
                             (py_max 0 (Spool.remaining_weight_g spool - g)
                              / Spool.total_weight_g spool)
                             (alert_threshold settings)) spool))
                    (py_max 0 (Spool.remaining_weight_g spool - g)) l d) as H;
      set (d3 := fold_left f l d) in *
  end.
  destruct H as (_ & Hp & Hs & Hj & He & Hn).
  simpl fst. simpl snd. unfold commit. simpl committed. simpl pending.
  rewrite Hp, Hs, Hj, He, Hn.
  destruct (_ && _); repeat split.
Qed.

(** The handler's rollback on a spool of total weight zero. *)
Lemma update_spool_usage_zero_total code g s spool :
  query_spool (pending s) code = Some spool ->
  Spool.total_weight_g spool == 0 ->
  update_spool_usage settings code g s = (false, rollback s).
Proof.
  intros Hq Ht. unfold update_spool_usage. rewrite Hq.
  apply Qeq_bool_iff in Ht. now rewrite Ht.
Qed.

Lemma update_spool_usage_no_spool code g s :
  query_spool (pending s) code = None ->
  update_spool_usage settings code g s = (false, s).
Proof. intro Hq. unfold update_spool_usage. now rewrite Hq. Qed.

End InventoryFacts.

(** ** Spool accounting *)

(** C5, as stated, fails on spools the services make.  [create_spool] takes
    a negative total weight: on such a spool a call with 0 grams succeeds and
    lifts the remaining weight from -5 to 0, above the total.  And once a
    negative amount was booked on spool S (1000 g), a call with 0 grams
    leaves the remaining 1500 g above the total. *)
Lemma spool_accounting_counterexample :
  let d := snd (inventory_request (create_spool "N" "PLA" (-5)) farm0) in
  let r := inventory_request (update_spool_usage default_settings "N" 0) d in
  let e := consume default_settings "S" (-500) farm0 in
  let r' := inventory_request (update_spool_usage default_settings "S" 0) e in
  (exists spool spool',
      query_spool d "N" = Some spool
      /\ fst r = true
      /\ query_spool (snd r) "N" = Some spool'
      /\ ~ Spool.remaining_weight_g spool' <= Spool.total_weight_g spool'
      /\ ~ Spool.remaining_weight_g spool' <= Spool.remaining_weight_g spool)
  /\ (exists spool',
         fst r' = true
         /\ query_spool (snd r') "S" = Some spool'
         /\ ~ Spool.remaining_weight_g spool' <= Spool.total_weight_g spool').
Proof.
  split.
  - eexists. eexists. split; [vm_compute; reflexivity|].
    split; [reflexivity|]. split; [vm_compute; reflexivity|].
    split; vm_compute; intro H; now apply H.
  - eexists. split; [reflexivity|]. split; [vm_compute; reflexivity|].
    vm_compute. intro H. now apply H.
Qed.

(** C5, amended.  For a spool of positive total weight whose remaining weight
    lies in [0, total], a call of [update_spool_usage] with [0 <= grams]
    succeeds and leaves the spool with the same total,
    [0 <= remaining <= total], a remaining weight that did not grow, and a
    usage percentage and low flag computed from the remaining weight just
    written. *)
Theorem spool_accounting_bounds (settings : Settings) (code : string)
  (grams : Q) (s : Session) (spool : Spool.t) :
  query_spool (pending s) code = Some spool ->
  0 <= grams ->
  0 < Spool.total_weight_g spool ->
  0 <= Spool.remaining_weight_g spool <= Spool.total_weight_g spool ->
  let s' := snd (update_spool_usage settings code grams s) in
  fst (update_spool_usage settings code grams s) = true
  /\ exists spool',
       query_spool (pending s') code = Some spool'
       /\ query_spool (committed s') code = Some spool'
       /\ Spool.total_weight_g spool' = Spool.total_weight_g spool
       /\ 0 <= Spool.remaining_weight_g spool'
       /\ Spool.remaining_weight_g spool' <= Spool.total_weight_g spool'
       /\ Spool.remaining_weight_g spool' <= Spool.remaining_weight_g spool
       /\ Spool.usage_percentage spool' ==
            (Spool.total_weight_g spool' - Spool.remaining_weight_g spool')
            / Spool.total_weight_g spool'
       /\ Spool.is_low_inventory spool' =
            Qle_bool (Spool.remaining_weight_g spool'
                      / Spool.total_weight_g spool')
                     (inventory_alert_threshold settings).
Proof.
  intros Hq Hg Ht [Hr0 Hr1] s'.
  assert (Hnz : ~ Spool.total_weight_g spool == 0) by lra.
  destruct (update_spool_usage_effect settings code grams s spool Hq Hnz)
    as (Hok & Hc & _ & _ & _ & _ & Hs).
  fold s' in Hc, Hs. split; [exact Hok|].
  assert (Hfind : forall st, spools st = spools (pending s') ->
            query_spool st code =
            Some (Spool.set_usage
                    (py_max 0 (Spool.remaining_weight_g spool - grams))
                    ((Spool.total_weight_g spool
                      - py_max 0 (Spool.remaining_weight_g spool - grams))
                     / Spool.total_weight_g spool)
                    (Qle_bool
                       (py_max 0 (Spool.remaining_weight_g spool - grams)
                        / Spool.total_weight_g spool)
                       (alert_threshold settings)) spool)).
  { intros st Hst. unfold query_spool. rewrite Hst, Hs.
    rewrite find_update_first by (intro; apply is_spool_set_usage).
    unfold query_spool in Hq. now rewrite Hq. }
  eexists. split; [apply Hfind; reflexivity|].
  split; [apply Hfind; now rewrite Hc|].
  simpl. split; [reflexivity|].
  split; [apply py_max_0_nonneg|].
  split; [apply py_max_0_le; lra|].
  split; [apply py_max_0_le; lra|].
  split; reflexivity.
Qed.

Lemma spool_accounting_bounds_witness :
  exists spool',
    query_spool
      (pending (snd (update_spool_usage default_settings "S" 450
                       (begin farm0)))) "S" = Some spool'
    /\ Spool.remaining_weight_g spool' == 550
    /\ Spool.usage_percentage spool' == 0.45.
Proof.
  destruct (spool_accounting_bounds default_settings "S" 450 (begin farm0)
              spool_S) as (_ & sp & Hq & _ & _ & _ & _ & _ & Hu & _).
  - reflexivity.
  - unfold Qle; simpl; lia.
  - reflexivity.
  - split; unfold Qle; simpl; lia.
  - exists sp. split; [exact Hq|].
    vm_compute in Hq. injection Hq as <-. split; reflexivity.
Defined.

(** ** Alert deduplication *)

Lemma unresolved_count_app code ty l a :
  unresolved_count code ty (l ++ [a]) =
  (unresolved_count code ty l
   + if unresolved_alert code ty a then 1 else 0)%nat.
Proof.
  unfold unresolved_count. rewrite filter_app, length_app. simpl.
  now destruct (unresolved_alert code ty a).
Qed.

Lemma unresolved_count_none code ty l :
  find (unresolved_alert code ty) l = None ->
  unresolved_count code ty l = 0%nat.
Proof.
  unfold unresolved_count. induction l as [|a l IH]; simpl; [reflexivity|].
  destruct (unresolved_alert code ty a); [discriminate|exact IH].
Qed.

Lemma unresolved_alert_new code ty code' ty' t c :
  unresolved_alert code' ty' (InventoryAlert.mk code ty t c false) = true ->
  code' = code /\ ty' = ty.
Proof.
  unfold unresolved_alert. simpl. rewrite andb_true_r.
  intro H. apply andb_true_iff in H as [H1 H2].
  apply String.eqb_eq in H1. split; [congruence|].
  destruct ty, ty'; simpl in H2; congruence.
Qed.

(** Adding an unresolved alert for a pair that has none keeps the table
    deduplicated. *)
Lemma deduplicated_add code ty t c l :
  deduplicated l ->
  find (unresolved_alert code ty) l = None ->
  deduplicated (l ++ [InventoryAlert.mk code ty t c false]).
Proof.
  intros Hd Hn code' ty'. rewrite unresolved_count_app.
  destruct (unresolved_alert code' ty' _) eqn:E.
  - apply unresolved_alert_new in E as [-> ->].
    rewrite (unresolved_count_none _ _ _ Hn). simpl. lia.
  - specialize (Hd code' ty'). lia.
Qed.

Lemma ensure_alert_deduplicated code ty t c s :
  deduplicated (inventory_alerts (pending s)) ->
  deduplicated (inventory_alerts (pending (ensure_alert code ty t c s))).
Proof.
  intro Hd. unfold ensure_alert.
  destruct (find _ _) eqn:E; [exact Hd|].
  simpl. now apply deduplicated_add.
Qed.

Lemma check_active_jobs_deduplicated code r l s :
  deduplicated (inventory_alerts (pending s)) ->
  deduplicated
    (inventory_alerts (pending (fold_left (check_active_job code r) l s))).
Proof.
  revert s. induction l as [|j l IH]; intros s Hd; simpl; [exact Hd|].
  apply IH. unfold check_active_job.
  destruct (PrintJob.material_g j); [|exact Hd].
  destruct (Qltb _ _); [now apply ensure_alert_deduplicated | exact Hd].
Qed.

(** The alert table after [update_spool_usage] stays deduplicated when the
    only unchecked insertion, the low-inventory alert, cannot meet an
    unresolved alert of its own pair. *)
Lemma update_spool_usage_deduplicated settings code g s :
  deduplicated (inventory_alerts (committed s)) ->
  deduplicated (inventory_alerts (pending s)) ->
  (forall spool,
      query_spool (pending s) code = Some spool ->
      Spool.is_low_inventory spool = false ->
      find (unresolved_alert code low_inventory)
           (inventory_alerts (pending s)) = None) ->
  let s' := snd (update_spool_usage settings code g s) in
  deduplicated (inventory_alerts (pending s'))
  /\ deduplicated (inventory_alerts (committed s')).
Proof.
  intros Hc Hp Hflag. unfold update_spool_usage.
  destruct (query_spool (pending s) code) as [spool|] eqn:Hq;
    [|simpl; now split].
  destruct (Qeq_bool (Spool.total_weight_g spool) 0);
    [simpl; now split|].
  cbv zeta. simpl snd. unfold commit. simpl pending. simpl committed.
  assert (Hcode : Spool.spool_id spool = code).
  { unfold query_spool in Hq. apply find_some in Hq as [_ Hq].
    now apply String.eqb_eq in Hq. }
  match goal with
  | |- deduplicated (inventory_alerts (pending ?d)) /\ _ =>
      assert (H : deduplicated (inventory_alerts (pending d)))
  end; [|now split].
  apply check_active_jobs_deduplicated.
  destruct (Qle_bool _ _ && negb (Spool.is_low_inventory spool)) eqn:E;
    [|exact Hp].
  apply andb_true_iff in E as [_ E]. apply negb_true_iff in E.
  simpl. rewrite Hcode. apply deduplicated_add; [exact Hp|].
  now apply (Hflag spool).
Qed.

(** C6.  The code breaks the invariant.  On the fresh spool S, 900 g are
    used and a low-inventory alert is raised; 500 g are booked back, which
    clears the low flag while the alert stays unresolved; 500 g are used
    again, and [_create_inventory_alert] inserts a second unresolved
    low-inventory alert for S.  [ensure_alert], asked for the same pair in
    that state, inserts nothing. *)
Theorem low_inventory_alert_duplicated :
  let d1 := consume default_settings "S" 900 farm0 in
  let d3 := consume default_settings "S" 500 farm_refilled in
  unresolved_count "S" low_inventory (inventory_alerts d1) = 1%nat
  /\ deduplicated (inventory_alerts farm_refilled)
  /\ option_map Spool.is_low_inventory (query_spool farm_refilled "S")
     = Some false
  /\ unresolved_count "S" low_inventory (inventory_alerts d3) = 2%nat
  /\ ~ deduplicated (inventory_alerts d3)
  /\ ensure_alert "S" low_inventory None None (begin farm_refilled)
     = begin farm_refilled.
Proof.
  split; [reflexivity|]. split; [|split; [|split; [|split]]].
  - intros code ty. unfold unresolved_count.
    etransitivity; [apply filter_length_le|].
    vm_compute. lia.
  - reflexivity.
  - vm_compute. reflexivity.
  - intro H. specialize (H "S" low_inventory).
    vm_compute in H. lia.
  - reflexivity.
Qed.

(** ** What a progress update does *)

Lemma kept_begin d : kept d (begin d).
Proof. repeat split. Qed.

Lemma kept_alerts_only d s s' : kept d s -> alerts_only s s' -> kept d s'.
Proof.
  unfold kept, alerts_only.
  intros (a & b & c & e) (_ & b' & _ & a' & c' & e').
  repeat split; congruence.
Qed.

Lemma update_spool_usage_kept settings d code g s :
  kept d s -> kept d (rollback s) ->
  kept d (snd (update_spool_usage settings code g s)).
Proof.
  intros Hk Hr.
  destruct (query_spool (pending s) code) as [spool|] eqn:Hq.
  - destruct (Qeq_bool (Spool.total_weight_g spool) 0) eqn:E.
    + apply Qeq_bool_iff in E.
      now rewrite (update_spool_usage_zero_total settings code g s spool Hq E).
    + apply Qeq_bool_false in E.
      destruct (update_spool_usage_effect settings code g s spool Hq E)
        as (_ & _ & Hp & Hj & He & Hn & _).
      destruct Hk as (a & b & c & e). repeat split; congruence.
  - now rewrite (update_spool_usage_no_spool settings code g s Hq).
Qed.

(** The inventory part of [update_job_progress] keeps the other tables, and
    leaves a session whose committed side differs from what it sees in the
    alerts at most: the booking is committed, the alert of the check that
    follows it is only pending. *)
Lemma progress_booking_kept settings job v d :
  kept d (progress_booking settings job v (begin d)).
Proof.
  unfold progress_booking.
  destruct (PrintJob.spool_id job) as [sc|]; [|apply kept_begin].
  destruct (PrintJob.material_g job) as [m|]; [|apply kept_begin].
  destruct (_ && _); [|apply kept_begin].
  cbv zeta.
  match goal with
  | |- context [update_spool_usage ?st ?c ?g ?s] =>
      assert (Hk : kept d (snd (update_spool_usage st c g s)))
        by (apply update_spool_usage_kept; apply kept_begin)
  end.
  destruct (query_spool _ sc); [|exact Hk].
  destruct (Qltb _ _); [|exact Hk].
  eapply kept_alerts_only; [exact Hk|apply ensure_alert_alerts_only].
Qed.

Lemma progress_booking_idle settings job v s :
  consumes job v = false -> progress_booking settings job v s = s.
Proof.
  unfold consumes, progress_booking.
  destruct (PrintJob.spool_id job) as [sc|]; [|reflexivity].
  destruct (PrintJob.material_g job) as [m|]; [|reflexivity].
  now intros ->.
Qed.

Lemma update_spool_usage_settled settings code g s :
  committed s = pending s ->
  committed (snd (update_spool_usage settings code g s))
  = pending (snd (update_spool_usage settings code g s)).
Proof.
  intro Hs.
  destruct (query_spool (pending s) code) as [spool|] eqn:Hq.
  - destruct (Qeq_bool (Spool.total_weight_g spool) 0) eqn:E.
    + apply Qeq_bool_iff in E.
      now rewrite (update_spool_usage_zero_total settings code g s spool Hq E).
    + apply Qeq_bool_false in E.
      now destruct (update_spool_usage_effect settings code g s spool Hq E)
        as (_ & Hc & _).
  - now rewrite (update_spool_usage_no_spool settings code g s Hq).
Qed.

Lemma progress_booking_committed settings job v d :
  let b := progress_booking settings job v (begin d) in
  printers (committed b) = printers (pending b)
  /\ spools (committed b) = spools (pending b)
  /\ print_jobs (committed b) = print_jobs (pending b)
  /\ failure_events (committed b) = failure_events (pending b)
  /\ print_jobs_seq (committed b) = print_jobs_seq (pending b).
Proof.
  unfold progress_booking.
  destruct (PrintJob.spool_id job) as [sc|]; [|repeat split].
  destruct (PrintJob.material_g job) as [m|]; [|repeat split].
  destruct (_ && _); [|repeat split].
  cbv zeta.
  match goal with
  | |- context [update_spool_usage ?st ?c ?g ?s] =>
      pose proof (update_spool_usage_settled st c g s eq_refl) as Hc;
      set (s' := snd (update_spool_usage st c g s)) in *
  end.
  destruct (query_spool _ sc); [|rewrite Hc; repeat split].
  destruct (Qltb _ _); [|rewrite Hc; repeat split].
  destruct (ensure_alert_alerts_only sc insufficient_material None None s')
    as (Ha & Hp & Hs & Hj & He & Hn).
  rewrite Ha, Hp, Hs, Hj, He, Hn, Hc. repeat split.
Qed.

(** What the inventory part writes on the spool of the job. *)
Lemma progress_booking_spools settings job v d sc m :
  PrintJob.spool_id job = Some sc ->
  PrintJob.material_g job = Some m ->
  consumes job v = true ->
  let g := m * ((v - or_zero (PrintJob.progress_percentage job)) / 100) in
  let b := progress_booking settings job v (begin d) in
  match query_spool d sc with
  | Some spool =>
      if Qeq_bool (Spool.total_weight_g spool) 0
      then spools (pending b) = spools d
      else
        let total := Spool.total_weight_g spool in
        let remaining := py_max 0 (Spool.remaining_weight_g spool - g) in
        spools (pending b) =
          update_first (is_spool sc)
            (Spool.set_usage remaining ((total - remaining) / total)
               (Qle_bool (remaining / total) (alert_threshold settings)))
            (spools d)
  | None => spools (pending b) = spools d
  end.
Proof.
  intros Hsc Hm Hc g b. unfold consumes in Hc.
  unfold b, progress_booking. rewrite Hsc, Hm in *. rewrite Hc. cbv zeta.
  fold g.
  assert (Hrest : forall s' : Session,
            spools (pending
                      match query_spool (pending s') sc with
                      | Some spool =>
                          if Qltb (Spool.remaining_weight_g spool)
                                  (py_max 0 (m * (1 - v / 100)))
                          then ensure_alert sc insufficient_material None None
                                            s'
                          else s'
                      | None => s'
                      end) = spools (pending s')).
  { intro s'. destruct (query_spool _ sc); [|reflexivity].
    destruct (Qltb (Spool.remaining_weight_g _) _); [|reflexivity].
    now destruct (ensure_alert_alerts_only sc insufficient_material None None
                    s') as (_ & _ & Hs' & _). }
  rewrite Hrest.
  destruct (query_spool d sc) as [spool|] eqn:Hq.
  - destruct (Qeq_bool (Spool.total_weight_g spool) 0) eqn:E.
    + apply Qeq_bool_iff in E.
      now rewrite (update_spool_usage_zero_total settings sc g (begin d) spool
                     Hq E).
    + apply Qeq_bool_false in E.
      now destruct (update_spool_usage_effect settings sc g (begin d) spool
                      Hq E) as (_ & _ & _ & _ & _ & _ & Hsp).
  - now rewrite (update_spool_usage_no_spool settings sc g (begin d) Hq).
Qed.

(** [update_job_progress] on an existing job, as a request.  With a layer
    that fits its column it succeeds and commits progress and layer on top of
    the inventory part; otherwise it answers [False] and leaves what the
    inventory part had committed. *)
Lemma update_job_progress_outcome settings code p layer d job :
  query_job d code = Some job ->
  let b := progress_booking settings job (clamp_progress p) (begin d) in
  request (update_job_progress settings code p layer) d =
  if fits_integer_opt layer
  then
    (true, None,
     match layer with
     | Some l =>
         with_print_jobs
           (update_first (is_job code) (PrintJob.set_current_layer (Some l)))
           (with_print_jobs
              (update_first (is_job code)
                 (PrintJob.set_progress_percentage (Some (clamp_progress p))))
              (pending b))
     | None =>
         with_print_jobs
           (update_first (is_job code)
              (PrintJob.set_progress_percentage (Some (clamp_progress p))))
           (pending b)
     end)
  else (false, None, committed b).
Proof.
  intros Hq b. unfold request, update_job_progress, _get_job.
  simpl db. simpl pending. rewrite Hq. cbv zeta.
  fold (progress_booking settings job (clamp_progress p) (begin d)). fold b.
  destruct layer as [l|]; simpl fits_integer_opt;
    [destruct (fits_integer l)|]; reflexivity.
Qed.

(** The successful case, with the session [db1] of the inventory part. *)
Lemma update_job_progress_request settings code p layer d job :
  query_job d code = Some job ->
  fits_integer_opt layer = true ->
  let r := request (update_job_progress settings code p layer) d in
  exists db1 : Session,
    kept d db1
    /\ (consumes job (clamp_progress p) = false -> db1 = begin d)
    /\ (forall sc m spool,
          PrintJob.spool_id job = Some sc ->
          PrintJob.material_g job = Some m ->
          consumes job (clamp_progress p) = true ->
          query_spool d sc = Some spool ->
          ~ Spool.total_weight_g spool == 0 ->
          let g := m * ((clamp_progress p
                         - or_zero (PrintJob.progress_percentage job)) / 100) in
          let total := Spool.total_weight_g spool in
          let remaining := py_max 0 (Spool.remaining_weight_g spool - g) in
          spools (pending db1) =
            update_first (is_spool sc)
              (Spool.set_usage remaining ((total - remaining) / total)
                 (Qle_bool (remaining / total) (alert_threshold settings)))
              (spools d))
    /\ fst (fst r) = true
    /\ snd (fst r) = None
    /\ printers (snd r) = printers (pending db1)
    /\ spools (snd r) = spools (pending db1)
    /\ inventory_alerts (snd r) = inventory_alerts (pending db1)
    /\ failure_events (snd r) = failure_events (pending db1)
    /\ print_jobs (snd r) =
         match layer with
         | Some l =>
             update_first (is_job code) (PrintJob.set_current_layer (Some l))
               (update_first (is_job code)
                  (PrintJob.set_progress_percentage (Some (clamp_progress p)))
                  (print_jobs (pending db1)))
         | None =>
             update_first (is_job code)
               (PrintJob.set_progress_percentage (Some (clamp_progress p)))
               (print_jobs (pending db1))
         end.
Proof.
  intros Hq Hfit r. unfold r.
  rewrite (update_job_progress_outcome settings code p layer d job Hq), Hfit.
  exists (progress_booking settings job (clamp_progress p) (begin d)).
  split; [apply progress_booking_kept|].
  split; [apply progress_booking_idle|].
  split.
  - intros sc m spool Hsc Hm Hc Hs Ht.
    pose proof (progress_booking_spools settings job (clamp_progress p) d sc m
                  Hsc Hm Hc) as H.
    cbv zeta in H. rewrite Hs in H.
    apply Qeq_bool_false in Ht. rewrite Ht in H. exact H.
  - destruct layer; repeat split.
Qed.

(** The refused case: nothing but the booking is left. *)
Lemma update_job_progress_refused settings code p layer d job :
  query_job d code = Some job ->
  fits_integer_opt layer = false ->
  let r := request (update_job_progress settings code p layer) d in
  let b := progress_booking settings job (clamp_progress p) (begin d) in
  fst (fst r) = false
  /\ snd (fst r) = None
  /\ printers (snd r) = printers d
  /\ print_jobs (snd r) = print_jobs d
  /\ failure_events (snd r) = failure_events d
  /\ print_jobs_seq (snd r) = print_jobs_seq d
  /\ spools (snd r) = spools (pending b)
  /\ (consumes job (clamp_progress p) = false -> snd r = d).
Proof.
  intros Hq Hfit r b. unfold r.
  rewrite (update_job_progress_outcome settings code p layer d job Hq), Hfit.
  fold b. simpl fst. simpl snd.
  destruct (progress_booking_committed settings job (clamp_progress p) d)
    as (Hp & Hs & Hj & He & Hn).
  destruct (progress_booking_kept settings job (clamp_progress p) d)
    as (Kj & Kp & Ke & Kn).
  fold b in Hp, Hs, Hj, He, Hn, Kj, Kp, Ke, Kn.
  repeat split; try congruence.
  intro Hc. unfold b.
  now rewrite (progress_booking_idle settings job (clamp_progress p) (begin d)
                 Hc).
Qed.

(** Accepted or refused, the spools are as the inventory part left them. *)
Lemma update_job_progress_spools settings code p layer d job :
  query_job d code = Some job ->
  spools (snd (request (update_job_progress settings code p layer) d))
  = spools (pending (progress_booking settings job (clamp_progress p)
                                      (begin d))).
Proof.
  intro Hq.
  rewrite (update_job_progress_outcome settings code p layer d job Hq).
  destruct (fits_integer_opt layer).
  - destruct layer; reflexivity.
  - now destruct (progress_booking_committed settings job (clamp_progress p) d)
      as (_ & Hs & _).
Qed.

Lemma query_job_after_progress code v layer jobs job :
  find (is_job code) jobs = Some job ->
  find (is_job code)
    match layer with
    | Some l =>
        update_first (is_job code) (PrintJob.set_current_layer (Some l))
          (update_first (is_job code)
             (PrintJob.set_progress_percentage (Some v)) jobs)
    | None =>
        update_first (is_job code)
          (PrintJob.set_progress_percentage (Some v)) jobs
    end
  = Some match layer with
         | Some l =>
             PrintJob.set_current_layer (Some l)
               (PrintJob.set_progress_percentage (Some v) job)
         | None => PrintJob.set_progress_percentage (Some v) job
         end.
Proof.
  intro Hq. destruct layer.
  - rewrite !find_update_first by reflexivity. now rewrite Hq.
  - rewrite find_update_first by reflexivity. now rewrite Hq.
Qed.

(** C8, as stated, fails: with a layer that does not fit the 32-bit column
    the call answers [False] and stores neither the progress, here an input
    of 50 on a stored 0, nor the layer. *)
Lemma progress_not_stored_counterexample :
  let r :=
    request (update_job_progress default_settings "JOB_0A1B2C3D" 50
               (Some 2147483648%Z)) farm_printing in
  fst (fst r) = false
  /\ exists job',
       query_job (snd r) "JOB_0A1B2C3D" = Some job'
       /\ PrintJob.progress_percentage job' = Some 0
       /\ ~ 0 == clamp_progress 50
       /\ PrintJob.current_layer job' = Some 0%Z.
Proof.
  split; [reflexivity|].
  eexists. split; [vm_compute; reflexivity|].
  split; [reflexivity|]. split; [|reflexivity].
  vm_compute. discriminate.
Qed.

(** C8, amended.  The value [update_job_progress] means to store is the input
    clamped to [0, 100], whatever the input.  On an existing job, when the
    layer is absent or fits its 32-bit column, the call succeeds and stores
    that value (and the layer when one is given), whatever the sign of the
    delta against the stored progress; when the layer does not fit, the call
    answers [False] and the job rows are as they were.  Either way, when the
    delta is not positive the spools and alerts are untouched. *)
Theorem progress_clamped_and_stored (settings : Settings) (code : string)
  (p : Q) (layer : option Z) (d : Store) (job : PrintJob.t) :
  query_job d code = Some job ->
  let r := request (update_job_progress settings code p layer) d in
  let v := clamp_progress p in
  (0 <= v /\ v <= 100)
  /\ (p < 0 -> v == 0)
  /\ (100 < p -> v == 100)
  /\ (0 <= p <= 100 -> v == p)
  /\ (fits_integer_opt layer = true ->
      fst (fst r) = true
      /\ exists job',
           query_job (snd r) code = Some job'
           /\ PrintJob.progress_percentage job' = Some v
           /\ PrintJob.current_layer job' =
                match layer with
                | Some l => Some l
                | None => PrintJob.current_layer job
                end
           /\ PrintJob.status job' = PrintJob.status job)
  /\ (fits_integer_opt layer = false ->
      fst (fst r) = false /\ print_jobs (snd r) = print_jobs d)
  /\ (v - or_zero (PrintJob.progress_percentage job) <= 0 ->
      spools (snd r) = spools d
      /\ inventory_alerts (snd r) = inventory_alerts d).
Proof.
  intros Hq r v.
  split; [apply clamp_progress_bounds|].
  split; [|split; [|split; [|split; [|split]]]].
  - intro Hp. unfold v, clamp_progress, py_max, py_min.
    destruct (Qltb p 100) eqn:E1; destruct (Qltb 0 _) eqn:E2; qcases; lra.
  - intro Hp. unfold v, clamp_progress, py_max, py_min.
    destruct (Qltb p 100) eqn:E1; destruct (Qltb 0 _) eqn:E2; qcases; lra.
  - apply clamp_progress_id.
  - intro Hfit.
    destruct (update_job_progress_request settings code p layer d job Hq Hfit)
      as (db1 & (Hkj & _) & _ & _ & Hok & _ & _ & _ & _ & _ & Hj).
    fold r in Hok, Hj. split; [exact Hok|].
    eexists. split.
    + unfold query_job. rewrite Hj, Hkj.
      apply query_job_after_progress. exact Hq.
    + destruct layer; repeat split.
  - intro Hfit.
    destruct (update_job_progress_refused settings code p layer d job Hq Hfit)
      as (Hno & _ & _ & Hj & _).
    fold r in Hno, Hj. now split.
  - intro Hd.
    assert (Hc : consumes job (clamp_progress p) = false).
    { unfold consumes.
      destruct (PrintJob.spool_id job); [|reflexivity].
      destruct (PrintJob.material_g job); [|reflexivity].
      fold v. replace (Qltb 0 _) with false; [reflexivity|].
      symmetry. now apply Qltb_false. }
    destruct (fits_integer_opt layer) eqn:Hfit.
    + destruct (update_job_progress_request settings code p layer d job Hq
                  Hfit)
        as (db1 & _ & Hno & _ & _ & _ & _ & Hs & Ha & _).
      fold r in Hs, Ha. rewrite Hs, Ha, (Hno Hc). split; reflexivity.
    + destruct (update_job_progress_refused settings code p layer d job Hq
                  Hfit) as (_ & _ & _ & _ & _ & _ & _ & Hsame).
      fold r in Hsame. rewrite (Hsame Hc). split; reflexivity.
Qed.

Lemma progress_clamped_and_stored_witness :
  exists job',
    query_job
      (snd (request (update_job_progress default_settings "JOB_0A1B2C3D" 250
                       (Some 7%Z)) farm_queued)) "JOB_0A1B2C3D" = Some job'
    /\ PrintJob.progress_percentage job' = Some (clamp_progress 250)
    /\ PrintJob.current_layer job' = Some 7%Z
    /\ clamp_progress 250 == 100.
Proof.
  destruct (progress_clamped_and_stored default_settings "JOB_0A1B2C3D" 250
              (Some 7%Z) farm_queued
              (PrintJob.mk 1 "JOB_0A1B2C3D" 1 "bracket" queued None None None
                 None (Some 900) (Some "S") (Some 0) (Some 0%Z) None))
    as (_ & _ & H100 & _ & Hstored & _ & _).
  - reflexivity.
  - destruct Hstored as (_ & j & Hj & Hp & Hl & _); [reflexivity|].
    exists j. split; [exact Hj|]. split; [exact Hp|]. split; [exact Hl|].
    apply H100. reflexivity.
Defined.

(** C10, as stated, fails: a report on a queued job with a layer below the
    range of the 32-bit column is answered [False]; progress and layer of the
    job are not updated, while the 450 g of the delta are already booked on
    the spool. *)
Lemma progress_refused_counterexample :
  let r :=
    request (update_job_progress default_settings "JOB_0A1B2C3D" 50
               (Some (-2147483649)%Z)) farm_queued in
  fst (fst r) = false
  /\ query_job (snd r) "JOB_0A1B2C3D" = query_job farm_queued "JOB_0A1B2C3D"
  /\ exists spool',
       query_spool (snd r) "S" = Some spool'
       /\ Spool.remaining_weight_g spool' == 550.
Proof.
  split; [reflexivity|]. split; [reflexivity|].
  eexists. split; [vm_compute; reflexivity|]. reflexivity.
Qed.

(** C10, amended.  [update_job_progress] never looks at the job's status: on
    every existing job, queued, printing, completed or failed, and with a
    layer that is absent or fits its 32-bit column, it succeeds without
    recording an error, stores progress and layer and leaves the status as it
    was.  When the delta is positive and spool code and material requirement
    are set, the spool of that code loses [material_g * delta / 100], floored
    at zero, if it exists with a total weight other than 0; if no spool has
    the code, or its total weight is 0, every spool is left as it was. *)
Theorem progress_has_no_state_precondition (settings : Settings)
  (code : string) (p : Q) (layer : option Z) (d : Store) (job : PrintJob.t)
  (sc : string) (m : Q) :
  query_job d code = Some job ->
  fits_integer_opt layer = true ->
  let r := request (update_job_progress settings code p layer) d in
  let delta := clamp_progress p - or_zero (PrintJob.progress_percentage job) in
  fst (fst r) = true
  /\ snd (fst r) = None
  /\ (exists job',
        query_job (snd r) code = Some job'
        /\ PrintJob.progress_percentage job' = Some (clamp_progress p)
        /\ PrintJob.current_layer job' =
             match layer with
             | Some l => Some l
             | None => PrintJob.current_layer job
             end
        /\ PrintJob.status job' = PrintJob.status job)
  /\ (PrintJob.spool_id job = Some sc -> sc <> "" ->
      PrintJob.material_g job = Some m -> ~ m == 0 ->
      0 < delta ->
      match query_spool d sc with
      | Some spool =>
          if Qeq_bool (Spool.total_weight_g spool) 0
          then spools (snd r) = spools d
          else
            exists spool',
              query_spool (snd r) sc = Some spool'
              /\ Spool.remaining_weight_g spool' =
                   py_max 0 (Spool.remaining_weight_g spool
                             - m * (delta / 100))
      | None => spools (snd r) = spools d
      end).
Proof.
  intros Hq Hfit r delta.
  destruct (update_job_progress_request settings code p layer d job Hq Hfit)
    as (db1 & (Hkj & _) & _ & _ & Hok & Herr & _ & _ & _ & _ & Hj).
  fold r in Hok, Herr, Hj.
  split; [exact Hok|]. split; [exact Herr|]. split.
  - eexists. split.
    + unfold query_job. rewrite Hj, Hkj.
      apply query_job_after_progress. exact Hq.
    + destruct layer; repeat split.
  - intros Hsc Hne Hm Hm0 Hd.
    assert (Hc : consumes job (clamp_progress p) = true).
    { unfold consumes. rewrite Hsc, Hm.
      apply andb_true_iff. split; [apply andb_true_iff; split|].
      - now apply Qltb_true.
      - apply negb_true_iff. now apply String.eqb_neq.
      - apply negb_true_iff. now apply Qeq_bool_false. }
    pose proof (progress_booking_spools settings job (clamp_progress p) d sc m
                  Hsc Hm Hc) as Hb.
    cbv zeta in Hb.
    assert (Hs : spools (snd r) =
                 spools (pending (progress_booking settings job
                                    (clamp_progress p) (begin d)))).
    { unfold r.
      rewrite (update_job_progress_outcome settings code p layer d job Hq),
        Hfit.
      destruct layer; reflexivity. }
    destruct (query_spool d sc) as [spool|] eqn:Hsp; [|congruence].
    destruct (Qeq_bool (Spool.total_weight_g spool) 0); [congruence|].
    eexists. split.
    + unfold query_spool. rewrite Hs, Hb.
      rewrite find_update_first by (intro; apply is_spool_set_usage).
      unfold query_spool in Hsp. rewrite Hsp. reflexivity.
    + reflexivity.
Qed.

Lemma progress_has_no_state_precondition_witness :
  exists job' spool',
    query_job
      (snd (request (update_job_progress default_settings "JOB_0A1B2C3D" 50
                       None) farm_queued)) "JOB_0A1B2C3D" = Some job'
    /\ PrintJob.status job' = queued
    /\ PrintJob.progress_percentage job' = Some (clamp_progress 50)
    /\ query_spool
         (snd (request (update_job_progress default_settings "JOB_0A1B2C3D" 50
                          None) farm_queued)) "S" = Some spool'
    /\ Spool.remaining_weight_g spool' == 550.
Proof.
  destruct (progress_has_no_state_precondition default_settings
              "JOB_0A1B2C3D" 50 None farm_queued
              (PrintJob.mk 1 "JOB_0A1B2C3D" 1 "bracket" queued None None None
                 None (Some 900) (Some "S") (Some 0) (Some 0%Z) None)
              "S" 900)
    as (_ & _ & (j & Hj & Hp & _ & Hst) & Hsp).
  - reflexivity.
  - reflexivity.
  - destruct Hsp as (sp & Hq & Hr).
    + reflexivity.
    + discriminate.
    + reflexivity.
    + discriminate.
    + reflexivity.
    + exists j, sp. split; [exact Hj|]. split; [exact Hst|].
      split; [exact Hp|]. split; [exact Hq|].
      rewrite Hr. reflexivity.
Defined.

(** ** What completing a job does *)

(** [complete_job] on an existing job, as a request.  It always reports
    success.  Its writes are committed, unless the final inventory booking
    hits a spool of total weight zero: the booking's handler then rolls the
    whole session back. *)
Lemma complete_job_request settings now code success d job :
  query_job d code = Some job ->
  let r := request (complete_job settings now code success) d in
  let d3 := close_job now code success job d in
  fst (fst r) = true
  /\ snd (fst r) = None
  /\ match settles job success with
     | None => snd r = d3
     | Some (sc, g) =>
         match query_spool d sc with
         | None => snd r = d3
         | Some spool =>
             if Qeq_bool (Spool.total_weight_g spool) 0 then snd r = d
             else
               let total := Spool.total_weight_g spool in
               let remaining :=
                 py_max 0 (Spool.remaining_weight_g spool - g) in
               printers (snd r) = printers d3
               /\ print_jobs (snd r) = print_jobs d3
               /\ failure_events (snd r) = failure_events d3
               /\ spools (snd r) =
                    update_first (is_spool sc)
                      (Spool.set_usage remaining ((total - remaining) / total)
                         (Qle_bool (remaining / total)
                                   (alert_threshold settings)))
                      (spools d)
         end
     end.
Proof.
  intros Hq r d3. unfold r, request, complete_job, _get_job.
  simpl db. simpl pending. rewrite Hq. cbv zeta.
  split; [reflexivity|]. split; [reflexivity|].
  unfold settles.
  assert (Hsp : spools d3 = spools d)
    by (unfold d3, close_job; destruct (PrintJob.start_time job); reflexivity).
  match goal with
  | |- context [update_spool_usage _ _ _ ?s] =>
      assert (Hs3 : s = mkSession d d3)
        by (unfold d3, close_job;
            destruct (PrintJob.start_time job); reflexivity);
      rewrite Hs3
  end.
  clearbody d3. clear Hs3.
  destruct (PrintJob.spool_id job) as [sc|]; [|reflexivity].
  destruct (PrintJob.material_g job) as [m|]; [|reflexivity].
  destruct (success && _ && _); [|reflexivity].
  destruct (Qltb 0 _); [|reflexivity].
  assert (Hqs : query_spool (pending (mkSession d d3)) sc = query_spool d sc)
    by (unfold query_spool; simpl; now rewrite Hsp).
  destruct (query_spool d sc) as [spool|] eqn:Hsc.
  - destruct (Qeq_bool (Spool.total_weight_g spool) 0) eqn:E.
    + apply Qeq_bool_iff in E.
      now rewrite (update_spool_usage_zero_total settings sc _ _ spool Hqs E).
    + apply Qeq_bool_false in E.
      match goal with
      | |- context [update_spool_usage _ _ ?g _] =>
          destruct (update_spool_usage_effect settings sc g _ spool Hqs E)
            as (_ & _ & Hp & Hj & He & _ & Hs)
      end.
      simpl in *. rewrite Hp, Hj, He, Hs, Hsp.
      repeat split.
  - now rewrite (update_spool_usage_no_spool settings sc _ _ Hqs).
Qed.

Lemma query_job_close_job now code success job d :
  query_job d code = Some job ->
  query_job (close_job now code success job d) code =
  Some (let j1 :=
          PrintJob.set_end_time (Some now)
            (PrintJob.set_status (if success then completed else failed) job) in
        match PrintJob.start_time job with
        | Some start_time =>
            PrintJob.set_actual_time_min
              (Some (minutes_of (now - start_time))) j1
        | None => j1
        end).
Proof.
  intro Hq. unfold query_job, close_job in *. cbv zeta.
  destruct (PrintJob.start_time job); simpl.
  - rewrite !find_update_first by reflexivity. now rewrite Hq.
  - rewrite find_update_first by reflexivity. now rewrite Hq.
Qed.

(** ** Completion has no state guard *)

(** C2, at the failing input: [complete_job] on a job that is still queued
    reports success, records no error, marks the job completed with an end
    time, and books the whole material requirement on its spool. *)
Theorem complete_job_accepts_queued_job :
  let r := request (complete_job default_settings 60000000 "JOB_0A1B2C3D"
                                 true) farm_queued in
  option_map PrintJob.status (query_job farm_queued "JOB_0A1B2C3D")
    = Some queued
  /\ fst (fst r) = true
  /\ snd (fst r) = None
  /\ option_map PrintJob.status (query_job (snd r) "JOB_0A1B2C3D")
     = Some completed
  /\ option_map PrintJob.end_time (query_job (snd r) "JOB_0A1B2C3D")
     = Some (Some 60000000%Z)
  /\ option_map Spool.remaining_weight_g (query_spool farm_queued "S")
     = Some 1000
  /\ option_map (fun s => Qred (Spool.remaining_weight_g s))
       (query_spool (snd r) "S") = Some 100.
Proof. cbv zeta. repeat split; reflexivity. Qed.

(** ** Actual duration *)

(** C9, as stated, fails: a job started at time 0 and completed 90 seconds
    (or 100 seconds) later gets an actual time of 1 minute, not 2. *)
Lemma actual_time_counterexample :
  option_map PrintJob.actual_time_min
    (query_job
       (snd (request (complete_job default_settings 90000000 "JOB_0A1B2C3D"
                                   true) farm_printing)) "JOB_0A1B2C3D")
  = Some (Some 1%Z)
  /\ option_map PrintJob.actual_time_min
       (query_job
          (snd (request (complete_job default_settings 100000000
                                      "JOB_0A1B2C3D" true) farm_printing))
          "JOB_0A1B2C3D")
     = Some (Some 1%Z).
Proof. split; reflexivity. Qed.

(** C9, amended.  When [complete_job] runs on a job with a start time (and
    its writes are not rolled back by an inventory booking on a spool of
    total weight zero), the actual time is the duration in whole minutes,
    truncated toward zero: for a duration that is not negative, the largest
    integer number of minutes that fits. *)
Theorem actual_time_truncated (settings : Settings) (now : Z) (code : string)
  (success : bool) (d : Store) (job : PrintJob.t) (start_time : Z) :
  query_job d code = Some job ->
  PrintJob.start_time job = Some start_time ->
  (forall sc g spool,
      settles job success = Some (sc, g) ->
      query_spool d sc = Some spool ->
      ~ Spool.total_weight_g spool == 0) ->
  let r := request (complete_job settings now code success) d in
  let minutes := Z.quot (now - start_time) 60000000 in
  exists job',
    query_job (snd r) code = Some job'
    /\ PrintJob.actual_time_min job' = Some minutes
    /\ PrintJob.end_time job' = Some now
    /\ ((start_time <= now)%Z ->
        (60000000 * minutes <= now - start_time
         < 60000000 * (minutes + 1))%Z).
Proof.
  intros Hq Hst Hsafe r minutes.
  destruct (complete_job_request settings now code success d job Hq)
    as (_ & _ & H). fold r in H.
  pose proof (query_job_close_job now code success job d Hq) as Hc.
  rewrite Hst in Hc.
  assert (Hj : print_jobs (snd r)
               = print_jobs (close_job now code success job d)).
  { destruct (settles job success) as [[sc g]|] eqn:Es; [|now rewrite H].
    destruct (query_spool d sc) as [spool|] eqn:Esp; [|now rewrite H].
    specialize (Hsafe sc g spool eq_refl Esp).
    apply Qeq_bool_false in Hsafe. rewrite Hsafe in H.
    now destruct H as (_ & Hj & _). }
  eexists. split; [unfold query_job in *; rewrite Hj; exact Hc|].
  split; [reflexivity|]. split; [reflexivity|].
  intro Hle. unfold minutes.
  pose proof (Z.quot_rem' (now - start_time) 60000000) as Hqr.
  pose proof (Z.rem_bound_pos (now - start_time) 60000000) as Hb.
  lia.
Qed.

Lemma actual_time_truncated_witness :
  exists job',
    query_job
      (snd (request (complete_job default_settings 90000000 "JOB_0A1B2C3D"
                                  true) farm_printing)) "JOB_0A1B2C3D"
    = Some job'
    /\ PrintJob.actual_time_min job' = Some 1%Z.
Proof.
  destruct (actual_time_truncated default_settings 90000000 "JOB_0A1B2C3D"
              true farm_printing
              (PrintJob.mk 1 "JOB_0A1B2C3D" 1 "bracket" job_printing
                 (Some 0%Z) None None None (Some 900) (Some "S") (Some 0)
                 (Some 0%Z) None) 0)
    as (j & Hj & Ha & _).
  - reflexivity.
  - reflexivity.
  - intros sc g spool Hs Hsp. vm_compute in Hs. injection Hs as <- <-.
    vm_compute in Hsp. injection Hsp as <-. discriminate.
  - exists j. split; [exact Hj|exact Ha].
Defined.

(** ** Starting a job on a printer that is not available *)

(** C4, at the failing inputs: [start_job] turns away only a printer whose
    status is printing.  On a printer in error, in maintenance, or idle but
    inactive, it succeeds and sets job and printer to printing. *)
Theorem start_job_accepts_unavailable_printer :
  start_outcome (farm_with_printer printing true)
    = (false, Some Printer_occupied, Some queued, Some printing)
  /\ start_outcome (farm_with_printer error true)
     = (true, None, Some job_printing, Some printing)
  /\ start_outcome (farm_with_printer maintenance true)
     = (true, None, Some job_printing, Some printing)
  /\ start_outcome (farm_with_printer idle false)
     = (true, None, Some job_printing, Some printing).
Proof. repeat split; reflexivity. Qed.

(** ** Printer exclusivity *)

(** C1, at the failing input: after [trace_free_busy_printer] the printer is
    idle while the job started on it is still printing, and after
    [trace_double_booking] two printing jobs reference the printer. *)
Theorem exclusivity_broken_by_unguarded_completion :
  exclusive farm0
  /\ (let d := run default_settings trace_free_busy_printer farm0 in
      option_map Printer.status (query_printer d 1) = Some idle
      /\ printing_jobs_on d 1 = 1%nat
      /\ ~ exclusive d)
  /\ (let d := run default_settings trace_double_booking farm0 in
      option_map Printer.status (query_printer d 1) = Some printing
      /\ printing_jobs_on d 1 = 2%nat
      /\ ~ exclusive d).
Proof.
  split; [|split].
  - intros p [<-|[]]. vm_compute. split; discriminate.
  - cbv zeta. split; [reflexivity|]. split; [reflexivity|].
    intro H. specialize (H (Printer.mk 1 idle true)).
    destruct H as [_ H]; [vm_compute; auto|].
    specialize (H eq_refl). discriminate.
  - cbv zeta. split; [reflexivity|]. split; [reflexivity|].
    intro H. specialize (H (Printer.mk 1 printing true)).
    destruct H as [H _]; [vm_compute; auto|].
    specialize (H eq_refl). vm_compute in H. discriminate.
Qed.

(** ** Material conservation *)

(** Linear arithmetic after division by a numeral is written as a product. *)
Ltac qlra := unfold Qdiv in *; change (/ 100) with (1 # 100) in *; lra.

Section Conservation.

Variable settings : Settings.
Variable code sc : string.
Variable m : Q.
Hypothesis sc_set : sc <> "".
Hypothesis m_pos : 0 < m.






End Conservation.




(** ** The failure monitor *)

(** The loop of [detect_failure] returns an upper bound of what it has seen,
    and either its starting value or one of the results. *)
Lemma keep_highest_fold (l : list (string * Q)) :
  forall acc,
    let r := fold_left keep_highest l acc in
    fst acc <= fst r
    /\ (forall n c, In (n, c) l -> c <= fst r)
    /\ (r = acc \/ In (snd r, fst r) l).
Proof.
  induction l as [|[n c] l IH]; intro acc; simpl.
  - split; [lra|]. split; [intros ? ? []|now left].
  - destruct (IH (keep_highest acc (n, c))) as (Hle & Hub & Hin).
    unfold keep_highest in *. simpl in *.
    destruct (Qltb (fst acc) c) eqn:E; qcases; simpl in *.
    + split; [lra|]. split.
      * intros n' c' [Heq|Hin']; [injection Heq as <- <-; exact Hle|].
        now apply (Hub n').
      * right. destruct Hin as [->|Hin]; [now left|now right].
    + split; [exact Hle|]. split.
      * intros n' c' [Heq|Hin']; [injection Heq as <- <-; lra|].
        now apply (Hub n').
      * destruct Hin as [Hin|Hin]; [now left|right; now right].
Qed.

(** On scores that are not negative, [detect_failure] returns the maximum
    confidence and flags a failure iff it exceeds the threshold. *)
Lemma detect_failure_max settings sc :
  0 <= stringing sc -> 0 <= layer_separation sc ->
  0 <= warping sc -> 0 <= blob sc ->
  exists m ty,
    detect_failure settings (Some sc)
    = (Qltb (failure_detection_threshold settings) m, m, ty)
    /\ (forall n c, In (n, c) (results_of sc) -> c <= m)
    /\ (exists n c, In (n, c) (results_of sc) /\ c == m).
Proof.
  intros H1 H2 H3 H4. unfold detect_failure.
  destruct (keep_highest_fold (results_of sc) (0, "none"))
    as (Hle & Hub & Hin).
  set (best := fold_left keep_highest (results_of sc) (0, "none")) in *.
  exists (fst best), (snd best). split; [reflexivity|]. split; [exact Hub|].
  destruct Hin as [Heq|Hin].
  - exists "stringing", (stringing sc). split; [now left|].
    rewrite Heq in *. simpl in *.
    specialize (Hub "stringing" (stringing sc) (or_introl eq_refl)). lra.
  - exists (snd best), (fst best). split; [exact Hin|reflexivity].
Qed.

(** The inventory booking made first thing by [detect_failure_from_image]
    keeps the job's spool in the table. *)
Lemma update_spool_usage_keeps_spool settings code g d sp :
  query_spool d code = Some sp ->
  exists sp',
    query_spool (pending (snd (update_spool_usage settings code g (begin d))))
                code = Some sp'.
Proof.
  intro Hs.
  destruct (Qeq_bool (Spool.total_weight_g sp) 0) eqn:E.
  - apply Qeq_bool_iff in E.
    rewrite (update_spool_usage_zero_total settings code g (begin d) sp Hs E).
    now exists sp.
  - apply Qeq_bool_false in E.
    destruct (update_spool_usage_effect settings code g (begin d) sp Hs E)
      as (_ & _ & _ & _ & _ & _ & Hsp).
    eexists. unfold query_spool. rewrite Hsp.
    rewrite find_update_first by (intro; apply is_spool_set_usage).
    unfold query_spool in Hs. simpl. rewrite Hs. reflexivity.
Qed.

Lemma app_one_neq {A : Type} (l : list A) (x : A) : l ++ [x] <> l.
Proof.
  intro H. apply (f_equal (@List.length A)) in H.
  rewrite length_app in H. simpl in H. lia.
Qed.

(** [detect_failure_from_image] on an existing job and a frame the detector
    flags. *)
Lemma detect_failure_from_image_flagged settings now code path sc d job m ty :
  query_job d code = Some job ->
  detect_failure settings (Some sc) = (true, m, ty) ->
  let r := request (detect_failure_from_image settings now code path (Some sc))
                   d in
  let ev := FailureEvent.mk (PrintJob.id job) ty m path false in
  fst (fst r) = Some ev
  /\ failure_events (snd r) = failure_events d ++ [ev]
  /\ query_job (snd r) code
     = Some (PrintJob.set_end_time (Some now) (PrintJob.set_status failed job))
  /\ (forall pr,
        query_printer d (PrintJob.printer_id job) = Some pr ->
        query_printer (snd r) (PrintJob.printer_id job)
        = Some (Printer.set_status error pr))
  /\ (forall c sp,
        PrintJob.spool_id job = Some c -> c <> "" ->
        query_spool d c = Some sp ->
        exists sp',
          query_spool (snd r) c = Some sp' /\ Spool.is_active sp' = false).
Proof.
  intros Hq Hd r ev. unfold r, request, detect_failure_from_image, _get_job.
  simpl db. simpl pending. rewrite Hq, Hd. cbv zeta.
  match goal with
  | |- context [write (with_failure_events _) ?x] => set (db1 := x)
  end.
  assert (Hk : kept d db1).
  { unfold db1.
    destruct (PrintJob.spool_id job) as [c|]; [|apply kept_begin].
    destruct (PrintJob.material_g job) as [mat|]; [|apply kept_begin].
    destruct (_ && _); [|apply kept_begin].
    destruct (Qltb 0 _); [|apply kept_begin].
    apply update_spool_usage_kept; apply kept_begin. }
  assert (Hsp : forall c sp,
             PrintJob.spool_id job = Some c -> query_spool d c = Some sp ->
             exists sp1, query_spool (pending db1) c = Some sp1).
  { intros c sp Hc Hs. unfold db1. rewrite Hc.
    destruct (PrintJob.material_g job) as [mat|]; [|now exists sp].
    destruct (_ && _); [|now exists sp].
    destruct (Qltb 0 _); [|now exists sp].
    now apply (update_spool_usage_keeps_spool settings c _ d sp). }
  destruct Hk as (Hkj & Hkp & Hke & _).
  clearbody db1.
  split; [reflexivity|].
  split; [destruct (PrintJob.spool_id job) as [c|];
          [destruct (negb _)|]; simpl; now rewrite Hke|].
  split.
  { unfold query_job.
    destruct (PrintJob.spool_id job) as [c|]; [destruct (negb _)|]; simpl;
      rewrite Hkj, find_update_first by reflexivity;
      unfold query_job in Hq; now rewrite Hq. }
  split.
  { intros pr Hpr. unfold query_printer in *.
    destruct (PrintJob.spool_id job) as [c|]; [destruct (negb _)|]; simpl;
      rewrite Hkp, find_update_first by reflexivity; now rewrite Hpr. }
  intros c sp Hc Hne Hs.
  destruct (Hsp c sp Hc Hs) as (sp1 & Hs1).
  rewrite Hc.
  replace (String.eqb c "") with false
    by (symmetry; now apply String.eqb_neq).
  simpl. exists (Spool.set_is_active false sp1). split; [|reflexivity].
  unfold query_spool in *. simpl.
  rewrite find_update_first by reflexivity. now rewrite Hs1.
Qed.

(** The same on a frame the detector does not flag, or that cannot be
    loaded: nothing is written. *)
Lemma detect_failure_from_image_clear settings now code path image d m ty :
  detect_failure settings image = (false, m, ty) ->
  request (detect_failure_from_image settings now code path image) d
  = (None, None, d).
Proof.
  intro Hd. unfold request, detect_failure_from_image, _get_job.
  simpl db. simpl pending.
  destruct (query_job d code); [|reflexivity].
  now rewrite Hd.
Qed.

(** C7. On an existing job and a frame whose four confidences are not
    negative, let [m] be the maximum confidence.  If [m] exceeds the
    threshold, [detect_failure_from_image] returns a failure event whose
    confidence is [m], appends it to the failure events (so the database
    changes), sets the job to failed with an end time, its printer to error
    and its spool to inactive.  Otherwise, and when the frame cannot be
    loaded, it returns nothing and leaves the database as it was. *)
Theorem failure_monitor_protocol (settings : Settings) (now : Z)
  (code path : string) (sc : Scores) (d : Store) (job : PrintJob.t) :
  query_job d code = Some job ->
  0 <= stringing sc -> 0 <= layer_separation sc ->
  0 <= warping sc -> 0 <= blob sc ->
  let r := request (detect_failure_from_image settings now code path (Some sc))
                   d in
  exists m,
    (forall n c, In (n, c) (results_of sc) -> c <= m)
    /\ (exists n c, In (n, c) (results_of sc) /\ c == m)
    /\ (failure_detection_threshold settings < m ->
        exists ev,
          fst (fst r) = Some ev
          /\ FailureEvent.confidence_score ev = m
          /\ FailureEvent.job_id ev = PrintJob.id job
          /\ failure_events (snd r) = failure_events d ++ [ev]
          /\ snd r <> d
          /\ (exists job',
                query_job (snd r) code = Some job'
                /\ PrintJob.status job' = failed
                /\ PrintJob.end_time job' = Some now)
          /\ (forall pr,
                query_printer d (PrintJob.printer_id job) = Some pr ->
                exists pr',
                  query_printer (snd r) (PrintJob.printer_id job) = Some pr'
                  /\ Printer.status pr' = error)
          /\ (forall c sp,
                PrintJob.spool_id job = Some c -> c <> "" ->
                query_spool d c = Some sp ->
                exists sp',
                  query_spool (snd r) c = Some sp'
                  /\ Spool.is_active sp' = false))
    /\ (m <= failure_detection_threshold settings ->
        fst (fst r) = None /\ snd r = d)
    /\ request (detect_failure_from_image settings now code path None) d
       = (None, None, d).
Proof.
  intros Hq H1 H2 H3 H4 r.
  destruct (detect_failure_max settings sc H1 H2 H3 H4)
    as (m & ty & Hd & Hub & Hat).
  exists m. split; [exact Hub|]. split; [exact Hat|]. split; [|split].
  - intro Hgt. apply Qltb_true in Hgt. rewrite Hgt in Hd.
    destruct (detect_failure_from_image_flagged settings now code path sc d
                job m ty Hq Hd) as (Hr & He & Hj & Hp & Hs).
    fold r in Hr, He, Hj, Hp, Hs.
    eexists. split; [exact Hr|]. split; [reflexivity|].
    split; [reflexivity|]. split; [exact He|]. split.
    { intro Heq. rewrite Heq in He. symmetry in He.
      now apply app_one_neq in He. }
    split; [eexists; split; [exact Hj|split; reflexivity]|].
    split; [|exact Hs].
    intros pr Hpr. eexists. split; [exact (Hp pr Hpr)|reflexivity].
  - intro Hle. apply Qltb_false in Hle. rewrite Hle in Hd.
    unfold r.
    rewrite (detect_failure_from_image_clear settings now code path (Some sc)
               d m ty Hd).
    split; reflexivity.
  - now apply (detect_failure_from_image_clear settings now code path None d
                 0 "image_load_error").
Qed.

Lemma failure_monitor_protocol_witness :
  exists ev,
    fst (fst (request (detect_failure_from_image default_settings 45000000
                         "JOB_0A1B2C3D" "frame.jpg" (Some frame_separated))
                      farm_printing)) = Some ev
    /\ 0.9 <= FailureEvent.confidence_score ev.
Proof.
  destruct (failure_monitor_protocol default_settings 45000000 "JOB_0A1B2C3D"
              "frame.jpg" frame_separated farm_printing
              (PrintJob.mk 1 "JOB_0A1B2C3D" 1 "bracket" job_printing
                 (Some 0%Z) None None None (Some 900) (Some "S") (Some 0)
                 (Some 0%Z) None))
    as (m & Hub & _ & Hpos & _).
  - reflexivity.
  - discriminate.
  - discriminate.
  - discriminate.
  - discriminate.
  - assert (Hm : 0.9 <= m).
    { apply (Hub "layer_separation"). right. left. reflexivity. }
    destruct Hpos as (ev & Hev & Hc & _).
    + eapply Qlt_le_trans; [|exact Hm]. reflexivity.
    + exists ev. split; [exact Hev|]. rewrite Hc. exact Hm.
Defined.

(** * Further properties *)

(** ** Tables, continued *)

Lemma find_app_none {A : Type} (p : A -> bool) (l : list A) (a : A) :
  find p l = None -> find p (l ++ [a]) = if p a then Some a else None.
Proof.
  induction l as [|x l IH]; simpl; [reflexivity|].
  destruct (p x); [discriminate|exact IH].
Qed.


Lemma existsb_find {A : Type} (p : A -> bool) (l : list A) :
  existsb p l = match find p l with Some _ => true | None => false end.
Proof.
  induction l as [|x l IH]; simpl; [reflexivity|].
  destruct (p x); [reflexivity|exact IH].
Qed.

Lemma unresolved_alert_self code ty t c :
  unresolved_alert code ty (InventoryAlert.mk code ty t c false) = true.
Proof.
  unfold unresolved_alert. simpl. rewrite String.eqb_refl.
  now destruct ty.
Qed.

(** ** The inventory service on a spool it cannot book *)

(** X1. [update_spool_usage] answers [True] exactly when the spool exists and
    its total weight is not zero; when it answers [False] (unknown code, or
    the division by a zero total raised) the database is as it was. *)
Theorem update_spool_usage_success_iff (settings : Settings) (code : string)
  (grams : Q) (d : Store) :
  let r := inventory_request (update_spool_usage settings code grams) d in
  (fst r = true <->
   exists spool,
     query_spool d code = Some spool /\ ~ Spool.total_weight_g spool == 0)
  /\ (fst r = false -> snd r = d).
Proof.
  unfold inventory_request.
  destruct (query_spool d code) as [spool|] eqn:Hq.
  - destruct (Qeq_bool (Spool.total_weight_g spool) 0) eqn:E.
    + apply Qeq_bool_iff in E.
      rewrite (update_spool_usage_zero_total settings code grams (begin d)
                 spool Hq E). simpl. split; [|reflexivity].
      split; [discriminate|].
      intros (sp & Hsp & Hnz). injection Hsp as <-. contradiction.
    + apply Qeq_bool_false in E.
      destruct (update_spool_usage_effect settings code grams (begin d) spool
                  Hq E) as (Hok & _).
      destruct (update_spool_usage settings code grams (begin d)) as [ok s'].
      simpl in *. split; [|congruence].
      split; [|intros _; exact Hok]. intros _. now exists spool.
  - rewrite (update_spool_usage_no_spool settings code grams (begin d) Hq).
    simpl. split; [|reflexivity].
    split; [discriminate|]. intros (sp & Hsp & _). discriminate.
Qed.

(** ** [ensure_alert] *)

Lemma ensure_alert_found code ty t c s :
  exists a,
    find (unresolved_alert code ty)
         (inventory_alerts (pending (ensure_alert code ty t c s))) = Some a.
Proof.
  unfold ensure_alert.
  destruct (find (unresolved_alert code ty) (inventory_alerts (pending s)))
    as [a|] eqn:E.
  - exists a. exact E.
  - simpl. rewrite (find_app_none _ _ _ E), unresolved_alert_self.
    eexists. reflexivity.
Qed.

Lemma ensure_alert_other_pairs code ty t c s code' ty' :
  code' <> code \/ ty' <> ty ->
  unresolved_count code' ty'
    (inventory_alerts (pending (ensure_alert code ty t c s)))
  = unresolved_count code' ty' (inventory_alerts (pending s)).
Proof.
  intro Hne. unfold ensure_alert.
  destruct (find (unresolved_alert code ty) (inventory_alerts (pending s)));
    [reflexivity|].
  simpl. rewrite unresolved_count_app.
  destruct (unresolved_alert code' ty' _) eqn:E; [|lia].
  apply unresolved_alert_new in E as [-> ->].
  destruct Hne; contradiction.
Qed.

(** X2. After [ensure_alert] an unresolved alert of the pair exists, a second
    call for the same pair (with any percentages) changes nothing, and the
    number of unresolved alerts of every other pair is as before. *)
Theorem ensure_alert_idempotent (code : string) (ty : AlertType)
  (t c t' c' : option Q) (s : Session) :
  let s1 := ensure_alert code ty t c s in
  (exists a,
      find (unresolved_alert code ty) (inventory_alerts (pending s1)) = Some a)
  /\ ensure_alert code ty t' c' s1 = s1
  /\ (forall code' ty',
        (code' <> code \/ ty' <> ty) ->
        unresolved_count code' ty' (inventory_alerts (pending s1))
        = unresolved_count code' ty' (inventory_alerts (pending s))).
Proof.
  cbv zeta. split; [apply ensure_alert_found|]. split.
  - destruct (ensure_alert_found code ty t c s) as (a & Ha).
    unfold ensure_alert at 1. now rewrite Ha.
  - intros code' ty'. apply ensure_alert_other_pairs.
Qed.

(** ** The alerts [update_spool_usage] raises *)





(** ** Booking in two steps *)

Lemma py_max_0_twice (r g1 g2 : Q) :
  0 <= g2 -> py_max 0 (py_max 0 (r - g1) - g2) == py_max 0 (r - (g1 + g2)).
Proof.
  intro H. unfold py_max.
  destruct (Qltb 0 (r - g1)) eqn:E1;
    destruct (Qltb 0 (r - (g1 + g2))) eqn:E2;
    match goal with
    | |- context [Qltb 0 (?x - g2)] => destruct (Qltb 0 (x - g2)) eqn:E3
    end; qcases; lra.
Qed.

(** X4. In exact arithmetic, two bookings on a spool of non-zero total
    weight, the second not negative, leave the remaining weight and the usage
    percentage that one booking of the sum leaves.  (On IEEE doubles the two
    can differ by rounding: the subtraction is rounded once per booking.) *)
Theorem update_spool_usage_additive (settings : Settings) (code : string)
  (g1 g2 : Q) (s : Session) (spool : Spool.t) :
  query_spool (pending s) code = Some spool ->
  ~ Spool.total_weight_g spool == 0 ->
  0 <= g2 ->
  let twice :=
    snd (update_spool_usage settings code g2
           (snd (update_spool_usage settings code g1 s))) in
  let once := snd (update_spool_usage settings code (g1 + g2) s) in
  exists sp2 sp1,
    query_spool (pending twice) code = Some sp2
    /\ query_spool (pending once) code = Some sp1
    /\ Spool.remaining_weight_g sp2 == Spool.remaining_weight_g sp1
    /\ Spool.usage_percentage sp2 == Spool.usage_percentage sp1
    /\ Spool.total_weight_g sp2 = Spool.total_weight_g sp1.
Proof.
  intros Hq Hnz Hg. cbv zeta.
  assert (Hstep : forall g s0 sp0,
             query_spool (pending s0) code = Some sp0 ->
             ~ Spool.total_weight_g sp0 == 0 ->
             query_spool (pending (snd (update_spool_usage settings code g s0)))
                         code
             = Some (Spool.set_usage
                       (py_max 0 (Spool.remaining_weight_g sp0 - g))
                       ((Spool.total_weight_g sp0
                         - py_max 0 (Spool.remaining_weight_g sp0 - g))
                        / Spool.total_weight_g sp0)
                       (Qle_bool
                          (py_max 0 (Spool.remaining_weight_g sp0 - g)
                           / Spool.total_weight_g sp0)
                          (alert_threshold settings)) sp0)).
  { intros g s0 sp0 H0 Hz.
    destruct (update_spool_usage_effect settings code g s0 sp0 H0 Hz)
      as (_ & _ & _ & _ & _ & _ & Hs).
    unfold query_spool. rewrite Hs.
    rewrite find_update_first by (intro; apply is_spool_set_usage).
    unfold query_spool in H0. now rewrite H0. }
  pose proof (Hstep g1 s spool Hq Hnz) as H1.
  pose proof (Hstep g2 _ _ H1 Hnz) as H2.
  pose proof (Hstep (g1 + g2) s spool Hq Hnz) as H3.
  eexists. eexists. split; [exact H2|]. split; [exact H3|].
  simpl. pose proof (py_max_0_twice (Spool.remaining_weight_g spool) g1 g2 Hg)
    as E.
  split; [exact E|]. split; [|reflexivity]. now rewrite E.
Qed.

Lemma update_spool_usage_additive_witness :
  exists sp2 sp1,
    query_spool
      (pending (snd (update_spool_usage default_settings "S" 300
                       (snd (update_spool_usage default_settings "S" 200
                               (begin farm0)))))) "S" = Some sp2
    /\ query_spool
         (pending (snd (update_spool_usage default_settings "S" (200 + 300)
                          (begin farm0)))) "S" = Some sp1
    /\ Spool.remaining_weight_g sp2 == Spool.remaining_weight_g sp1.
Proof.
  destruct (update_spool_usage_additive default_settings "S" 200 300
              (begin farm0) spool_S) as (sp2 & sp1 & H2 & H1 & Hr & _).
  - reflexivity.
  - discriminate.
  - discriminate.
  - exists sp2, sp1. split; [exact H2|]. split; [exact H1|exact Hr].
Defined.

(** ** Creating a spool *)

Lemma find_app_other {A : Type} (p : A -> bool) (l : list A) (a : A) :
  p a = false -> find p (l ++ [a]) = find p l.
Proof.
  intro Ha. induction l as [|x l IH]; simpl; [now rewrite Ha|].
  destruct (p x); [reflexivity|exact IH].
Qed.

Lemma find_none_not_in_keys (code : string) (l : list Spool.t) :
  find (is_spool code) l = None -> ~ In code (map Spool.spool_id l).
Proof.
  induction l as [|x l IH]; simpl; [tauto|].
  unfold is_spool at 1. destruct (String.eqb (Spool.spool_id x) code) eqn:E;
    [discriminate|].
  apply String.eqb_neq in E. intros H [Hx|Hin]; [contradiction|].
  now apply IH.
Qed.

(** X5. [create_spool] with a code that is free answers [True] and adds a
    full, active, unflagged spool that [get_spool_by_id] then returns; every
    other code looks up as before, the other tables are untouched and spool
    codes stay unique.  With a code that is taken it answers [False] and the
    database is as it was. *)
Theorem create_spool_round_trip (code material_type : string) (total : Q)
  (d : Store) :
  let r := inventory_request (create_spool code material_type total) d in
  let spool := Spool.mk code material_type total total 0 true false in
  (query_spool d code = None ->
   fst r = true
   /\ get_spool_by_id (begin (snd r)) code = Some spool
   /\ (forall code', code' <> code ->
         get_spool_by_id (begin (snd r)) code' = query_spool d code')
   /\ spools (snd r) = spools d ++ [spool]
   /\ printers (snd r) = printers d
   /\ print_jobs (snd r) = print_jobs d
   /\ inventory_alerts (snd r) = inventory_alerts d
   /\ (NoDup (map Spool.spool_id (spools d)) ->
       NoDup (map Spool.spool_id (spools (snd r)))))
  /\ (query_spool d code <> None -> r = (false, d)).
Proof.
  cbv zeta. unfold inventory_request, create_spool, get_spool_by_id.
  simpl pending. rewrite existsb_find. fold (query_spool d code).
  destruct (query_spool d code) as [sp|] eqn:Hq.
  - split; [discriminate|]. reflexivity.
  - split; [|congruence]. intros _. simpl.
    split; [reflexivity|]. unfold query_spool in *. simpl.
    split.
    { rewrite (find_app_none _ _ _ Hq). unfold is_spool. simpl.
      now rewrite String.eqb_refl. }
    split.
    { intros code' Hne. apply find_app_other. unfold is_spool. simpl.
      apply String.eqb_neq. congruence. }
    repeat (split; [reflexivity|]).
    intro Hnd. rewrite map_app. simpl.
    apply NoDup_app; [exact Hnd|repeat constructor; tauto|].
    intros x Hx [<-|[]]. now apply (find_none_not_in_keys code _ Hq).
Qed.

(** ** The insufficient-material alert of [update_spool_usage] *)






(** ** Creating, finding and deleting a job *)

(** What [create_job] asks for: the checks it makes itself, and what the
    database asks of the row at the INSERT. *)
Lemma create_job_cases hex8 printer_id part_name estimated_time_min
  material_g spool_id total_layers d :
  let r := request (create_job hex8 printer_id part_name estimated_time_min
                               material_g spool_id total_layers) d in
  let job :=
    PrintJob.mk (print_jobs_seq d + 1) (String.append "JOB_" hex8) printer_id
                part_name queued None None estimated_time_min None material_g
                spool_id (Some 0) (Some 0%Z) total_layers in
  let checked :=
    (exists p, query_printer d printer_id = Some p
               /\ Printer.status p = idle /\ Printer.is_active p = true)
    /\ (forall c, spool_id = Some c -> c <> "" -> query_spool d c <> None) in
  let insertable :=
    query_job d (String.append "JOB_" hex8) = None
    /\ fits_integer_opt estimated_time_min = true
    /\ fits_integer_opt total_layers = true in
  (checked /\ insertable
   /\ r = (Some job, None,
           bump_print_jobs_seq (with_print_jobs (fun l => l ++ [job]) d)))
  \/ (checked /\ ~ insertable /\ r = (None, None, bump_print_jobs_seq d))
  \/ (~ checked /\ fst (fst r) = None /\ snd (fst r) <> None /\ snd r = d).
Proof.
  cbv zeta.
  unfold request, create_job, _get_spool. simpl db. simpl pending.
  set (job_id := String.append "JOB_" hex8).
  destruct (query_printer d printer_id) as [p|] eqn:Hp.
  2:{ right. right. split; [|repeat split; discriminate].
      intros ((p & Hp' & _) & _). discriminate. }
  destruct (PrinterStatus_eqb (Printer.status p) idle) eqn:Hs.
  2:{ right. right. simpl. split; [|repeat split; discriminate].
      intros ((p' & Hp' & Hi & _) & _). injection Hp' as <-.
      rewrite Hi in Hs. discriminate. }
  destruct (Printer.is_active p) eqn:Ha.
  2:{ right. right. simpl. split; [|repeat split; discriminate].
      intros ((p' & Hp' & _ & Ha') & _). injection Hp' as <-. congruence. }
  simpl negb. simpl orb. cbv iota.
  assert (Hidle : Printer.status p = idle)
    by (destruct (Printer.status p); simpl in Hs; congruence).
  match goal with
  | |- context [if ?b then (None, _set_error Spool_not_found _) else _] =>
      destruct b eqn:Hmiss
  end.
  { right. right. simpl. split; [|repeat split; discriminate].
    intros (_ & Hsp).
    destruct spool_id as [c|]; [|discriminate].
    apply andb_true_iff in Hmiss as [Hne Hnone].
    apply negb_true_iff, String.eqb_neq in Hne.
    specialize (Hsp c eq_refl Hne).
    destruct (query_spool d c); [discriminate|contradiction]. }
  assert (Hchecked :
            (exists p0, Some p = Some p0
                        /\ Printer.status p0 = idle
                        /\ Printer.is_active p0 = true)
            /\ (forall c, spool_id = Some c -> c <> "" ->
                          query_spool d c <> None)).
  { split; [exists p; now repeat split|].
    intros c -> Hne Hnone. rewrite Hnone in Hmiss.
    apply String.eqb_neq in Hne. rewrite Hne in Hmiss. discriminate. }
  rewrite existsb_find. fold (query_job d job_id).
  destruct (query_job d job_id) as [j|] eqn:Hj.
  { right. left. simpl. split; [exact Hchecked|]. split; [|reflexivity].
    intros (Hj' & _). discriminate. }
  simpl orb.
  destruct (fits_integer_opt estimated_time_min) eqn:He.
  2:{ right. left. simpl. split; [exact Hchecked|]. split; [|reflexivity].
      intros (_ & He' & _). discriminate. }
  destruct (fits_integer_opt total_layers) eqn:Hl.
  2:{ right. left. simpl. split; [exact Hchecked|]. split; [|reflexivity].
      intros (_ & _ & Hl'). discriminate. }
  left. simpl. split; [exact Hchecked|]. now repeat split.
Qed.


(** X8. A job returned by [create_job] is found by [get_job_by_id] under its
    code, and is listed by [get_active_jobs] and by [get_jobs_by_printer]
    for its printer. *)
Theorem create_job_then_lookup (hex8 : string) (printer_id : Z)
  (part_name : string) (estimated_time_min : option Z) (material_g : option Q)
  (spool_id : option string) (total_layers : option Z) (d : Store)
  (job : PrintJob.t) :
  let r := request (create_job hex8 printer_id part_name estimated_time_min
                               material_g spool_id total_layers) d in
  fst (fst r) = Some job ->
  get_job_by_id (service_on (snd r)) (PrintJob.job_id job) = Some job
  /\ In job (get_active_jobs (service_on (snd r)))
  /\ In job (get_jobs_by_printer (service_on (snd r)) printer_id)
  /\ PrintJob.status job = queued
  /\ PrintJob.printer_id job = printer_id.
Proof.
  cbv zeta. intro Hsome.
  destruct (create_job_cases hex8 printer_id part_name estimated_time_min
              material_g spool_id total_layers d)
    as [(_ & Ha & Heq)|[(_ & _ & Heq)|(_ & Hn & _)]];
    [|rewrite Heq in Hsome; discriminate|congruence].
  rewrite Heq in *. simpl in Hsome. injection Hsome as <-.
  destruct Ha as (Hfree & _).
  unfold get_job_by_id, get_active_jobs, get_jobs_by_printer, service_on.
  simpl db. simpl pending. unfold query_job. simpl.
  split.
  { unfold query_job in Hfree. rewrite (find_app_none _ _ _ Hfree).
    unfold is_job. simpl. now rewrite String.eqb_refl. }
  split; [|split; [|split; reflexivity]];
    apply filter_In; (split; [apply in_or_app; right; now left|]).
  - reflexivity.
  - simpl. apply Z.eqb_refl.
Qed.

Lemma create_job_then_lookup_witness :
  exists job,
    get_job_by_id (service_on farm_queued) "JOB_0A1B2C3D" = Some job
    /\ In job (get_active_jobs (service_on farm_queued)).
Proof.
  eexists.
  destruct (create_job_then_lookup "0A1B2C3D" 1 "bracket" None (Some 900)
              (Some "S") None farm0
              (PrintJob.mk 1 "JOB_0A1B2C3D" 1 "bracket" queued None None None
                 None (Some 900) (Some "S") (Some 0) (Some 0%Z) None))
    as (H1 & H2 & _).
  - reflexivity.
  - split; [exact H1|exact H2].
Defined.

Lemma find_delete_first_unique (code : string) (l : list PrintJob.t) :
  NoDup (map PrintJob.job_id l) ->
  find (is_job code) (delete_first (is_job code) l) = None.
Proof.
  induction l as [|x l IH]; simpl; [reflexivity|].
  intro Hnd. inversion Hnd as [|? ? Hnotin Hnd']; subst.
  destruct (is_job code x) eqn:E.
  - unfold is_job in E. apply String.eqb_eq in E.
    destruct (find (is_job code) l) as [y|] eqn:F; [|reflexivity].
    apply find_some in F as [Hin Hy]. unfold is_job in Hy.
    apply String.eqb_eq in Hy. exfalso. apply Hnotin.
    rewrite E, <- Hy. now apply in_map.
  - simpl. rewrite E. now apply IH.
Qed.

(** X9. [delete_job] answers [True] only for a job that exists and is
    queued; then that row is removed, the other tables are untouched and,
    job codes being unique, [get_job_by_id] no longer finds the code.  On an
    unknown code it records "not found", on a job that is not queued "only
    queued jobs can be deleted"; whenever it answers [False] the database is
    as it was. *)
Theorem delete_job_outcome (code : string) (d : Store) :
  let r := request (delete_job code) d in
  (fst (fst r) = true ->
   exists job,
     query_job d code = Some job
     /\ PrintJob.status job = queued
     /\ print_jobs (snd r) = delete_first (is_job code) (print_jobs d)
     /\ printers (snd r) = printers d
     /\ spools (snd r) = spools d
     /\ inventory_alerts (snd r) = inventory_alerts d
     /\ failure_events (snd r) = failure_events d
     /\ (NoDup (map PrintJob.job_id (print_jobs d)) ->
         get_job_by_id (service_on (snd r)) code = None))
  /\ (fst (fst r) = false -> snd r = d)
  /\ (query_job d code = None -> r = (false, Some Job_not_found, d))
  /\ (forall job,
        query_job d code = Some job -> PrintJob.status job <> queued ->
        r = (false, Some Only_queued_deleted, d)).
Proof.
  cbv zeta. unfold request, delete_job. simpl db. simpl pending.
  destruct (query_job d code) as [job|] eqn:Hq.
  2:{ simpl. split; [discriminate|]. split; [reflexivity|].
      split; [reflexivity|]. intros ? [=]. }
  destruct (JobStatus_eqb (PrintJob.status job) queued) eqn:Hs; simpl negb;
    cbv iota.
  - assert (Hqueued : PrintJob.status job = queued)
      by (destruct (PrintJob.status job); simpl in Hs; congruence).
    destruct (existsb _ _); simpl.
    + split; [discriminate|]. split; [reflexivity|].
      split; [discriminate|]. intros j [= <-] Hne. contradiction.
    + split.
      * intros _. exists job. repeat (split; [reflexivity || assumption|]).
        intro Hnd. unfold get_job_by_id, service_on, query_job. simpl.
        now apply find_delete_first_unique.
      * split; [discriminate|]. split; [discriminate|].
        intros j [= <-] Hne. contradiction.
  - simpl. split; [discriminate|]. split; [reflexivity|].
    split; [discriminate|]. intros j _ _. reflexivity.
Qed.

(** ** Starting a job *)

Lemma ensure_alert_alerts code ty t c s :
  inventory_alerts (pending (ensure_alert code ty t c s))
  = inventory_alerts (pending s)
  \/ inventory_alerts (pending (ensure_alert code ty t c s))
     = inventory_alerts (pending s)
       ++ [InventoryAlert.mk code ty (or_zero t) (or_zero c) false].
Proof.
  unfold ensure_alert. destruct (find _ _); [now left|now right].
Qed.

Lemma JobStatus_eqb_eq a b : JobStatus_eqb a b = true <-> a = b.
Proof. destruct a, b; simpl; split; congruence. Qed.

Lemma PrinterStatus_eqb_eq a b : PrinterStatus_eqb a b = true <-> a = b.
Proof. destruct a, b; simpl; split; congruence. Qed.

Ltac alerts_only_cases :=
  repeat match goal with
         | |- alerts_only _ (match ?x with _ => _ end) => destruct x
         end;
  first [apply alerts_only_refl | apply ensure_alert_alerts_only].

Ltac alerts_cases :=
  repeat match goal with
         | |- _ (pending (match ?x with _ => _ end)) = _ \/ _ => destruct x
         end;
  first [ now left
        | match goal with
          | |- inventory_alerts (pending (ensure_alert ?c ?ty ?t ?u ?s)) = _
               \/ _ =>
              let H := fresh "H" in
              destruct (ensure_alert_alerts c ty t u s) as [H|H];
              [left; exact H|right; eexists; exact H]
          end ].

(** The end of a successful [start_job]: the session [fin] that is
    committed differs from the two row writes at most by an alert. *)
Ltac start_leaf now code job pr d :=
  exists job, pr;
  let fin := fresh "fin" in
  let Hao := fresh "Hao" in
  let Hal := fresh "Hal" in
  let Hpr := fresh "Hpr" in
  let Hsp := fresh "Hsp" in
  let Hj := fresh "Hj" in
  let He := fresh "He" in
  match goal with
  | |- context [commit ?x] => set (fin := x)
  end;
  assert (Hao : alerts_only (mkSession d (started now code job d)) fin)
    by (unfold fin; alerts_only_cases);
  assert (Hal : inventory_alerts (pending fin) = inventory_alerts d
                \/ exists a, inventory_alerts (pending fin)
                              = inventory_alerts d ++ [a])
    by (unfold fin; alerts_cases);
  clearbody fin;
  destruct Hao as (_ & Hpr & Hsp & Hj & He & _);
  repeat (split; [reflexivity || assumption|]);
  split;
  [|simpl; rewrite ?Hpr, ?Hsp, ?Hj, ?He;
    repeat split; (reflexivity || assumption)].

(** Every way [start_job] can end, as a request. *)
Lemma start_job_cases now code d :
  let r := request (start_job now code) d in
  (query_job d code = None /\ r = (false, Some Job_not_found, d))
  \/ (exists job,
        query_job d code = Some job /\ PrintJob.status job <> queued
        /\ r = (false, Some Job_not_queued, d))
  \/ (exists job,
        query_job d code = Some job /\ PrintJob.status job = queued
        /\ query_printer d (PrintJob.printer_id job) = None
        /\ r = (false, Some Printer_not_found, d))
  \/ (exists job pr,
        query_job d code = Some job /\ PrintJob.status job = queued
        /\ query_printer d (PrintJob.printer_id job) = Some pr
        /\ Printer.status pr = printing
        /\ r = (false, Some Printer_occupied, d))
  \/ (exists job pr c,
        query_job d code = Some job /\ PrintJob.status job = queued
        /\ query_printer d (PrintJob.printer_id job) = Some pr
        /\ Printer.status pr <> printing
        /\ PrintJob.spool_id job = Some c /\ c <> ""
        /\ find (fun s => is_spool c s && Spool.is_active s) (spools d) = None
        /\ r = (false, Some Spool_not_found_or_inactive, d))
  \/ (exists job pr c sp m,
        query_job d code = Some job /\ PrintJob.status job = queued
        /\ query_printer d (PrintJob.printer_id job) = Some pr
        /\ Printer.status pr <> printing
        /\ PrintJob.spool_id job = Some c /\ c <> ""
        /\ find (fun s => is_spool c s && Spool.is_active s) (spools d)
           = Some sp
        /\ PrintJob.material_g job = Some m
        /\ Spool.remaining_weight_g sp < m
        /\ r = (false, Some Spool_insufficient_material,
                pending (ensure_alert c insufficient_material None None
                                      (begin d))))
  \/ (exists job pr c sp other,
        query_job d code = Some job /\ PrintJob.status job = queued
        /\ query_printer d (PrintJob.printer_id job) = Some pr
        /\ Printer.status pr <> printing
        /\ PrintJob.spool_id job = Some c /\ c <> ""
        /\ find (fun s => is_spool c s && Spool.is_active s) (spools d)
           = Some sp
        /\ (forall m, PrintJob.material_g job = Some m ->
                      m <= Spool.remaining_weight_g sp)
        /\ find (printing_on_spool c) (print_jobs d) = Some other
        /\ r = (false, Some Spool_in_use, d))
  \/ (exists job pr,
        query_job d code = Some job /\ PrintJob.status job = queued
        /\ query_printer d (PrintJob.printer_id job) = Some pr
        /\ Printer.status pr <> printing
        /\ spool_clear d job
        /\ fst r = (true, None)
        /\ print_jobs (snd r) = print_jobs (started now code job d)
        /\ printers (snd r) = printers (started now code job d)
        /\ spools (snd r) = spools d
        /\ failure_events (snd r) = failure_events d
        /\ (inventory_alerts (snd r) = inventory_alerts d
            \/ exists a, inventory_alerts (snd r) = inventory_alerts d ++ [a])).
Proof.
  cbv zeta. unfold request, start_job, _get_job. simpl db. simpl pending.
  destruct (query_job d code) as [job|] eqn:Hq; [|left; now split].
  right.
  destruct (JobStatus_eqb (PrintJob.status job) queued) eqn:Hs; simpl negb;
    cbv iota.
  2:{ left. exists job. split; [reflexivity|]. split; [|reflexivity].
      intro H. apply JobStatus_eqb_eq in H. congruence. }
  apply JobStatus_eqb_eq in Hs. right.
  destruct (query_printer d (PrintJob.printer_id job)) as [pr|] eqn:Hp.
  2:{ left. exists job. now repeat split. }
  right.
  destruct (PrinterStatus_eqb (Printer.status pr) printing) eqn:Hps.
  { left. apply PrinterStatus_eqb_eq in Hps. exists job, pr.
    now repeat split. }
  assert (Hnp : Printer.status pr <> printing).
  { intro H. apply PrinterStatus_eqb_eq in H. congruence. }
  right.
  destruct (PrintJob.spool_id job) as [c|] eqn:Hsc.
  2:{ do 3 right. start_leaf now code job pr d. intros c Hc. congruence. }
  destruct (String.eqb c "") eqn:Hce; simpl negb; cbv iota.
  { do 3 right. apply String.eqb_eq in Hce. start_leaf now code job pr d.
    intros c' Hc' Hne. congruence. }
  apply String.eqb_neq in Hce.
  unfold validate_spool. simpl db. simpl pending.
  destruct (find (fun s => is_spool c s && Spool.is_active s) (spools d))
    as [sp|] eqn:Hsp.
  2:{ left. exists job, pr, c. now repeat split. }
  right.
  destruct (PrintJob.material_g job) as [m|] eqn:Hm.
  - destruct (Qltb (Spool.remaining_weight_g sp) m) eqn:Hlt.
    { left. apply Qltb_true in Hlt. exists job, pr, c, sp, m.
      now repeat split. }
    right. apply Qltb_false in Hlt.
    destruct (find (printing_on_spool c) (print_jobs d)) as [other|] eqn:Hu.
    { left. exists job, pr, c, sp, other.
      repeat (split; [reflexivity || assumption|]).
      split; [intros m' Hm'; assert (m' = m) by congruence; subst m';
              exact Hlt
             |now split]. }
    right. start_leaf now code job pr d.
    intros c' Hc' _. assert (c' = c) by congruence. subst c'.
    split; [|exact Hu].
    exists sp. split; [exact Hsp|]. intros m' Hm'.
    assert (m' = m) by congruence. subst m'. exact Hlt.
  - right.
    destruct (find (printing_on_spool c) (print_jobs d)) as [other|] eqn:Hu.
    { left. exists job, pr, c, sp, other.
      repeat (split; [reflexivity || assumption|]).
      split; [intros m' Hm'; congruence|now split]. }
    right. start_leaf now code job pr d.
    intros c' Hc' _. assert (c' = c) by congruence. subst c'.
    split; [|exact Hu].
    exists sp. split; [exact Hsp|]. intros m' Hm'. congruence.
Qed.

Lemma find_update_first_other {A : Type} (p q : A -> bool) (f : A -> A)
  (l : list A) :
  (forall x, q (f x) = q x) ->
  (forall x, p x = true -> q x = false) ->
  find q (update_first p f l) = find q l.
Proof.
  intros Hf Hpq. induction l as [|x l IH]; simpl; [reflexivity|].
  destruct (p x) eqn:E; simpl.
  - now rewrite Hf, (Hpq x E).
  - now rewrite IH.
Qed.

Lemma is_job_other a b x : a <> b -> is_job a x = true -> is_job b x = false.
Proof.
  unfold is_job. intros Hne Ha. apply String.eqb_eq in Ha.
  apply String.eqb_neq. congruence.
Qed.

Lemma is_printer_other a b x :
  a <> b -> is_printer a x = true -> is_printer b x = false.
Proof.
  unfold is_printer. intros Hne Ha. apply Z.eqb_eq in Ha.
  apply Z.eqb_neq. congruence.
Qed.

Ltac start_job_inversion now code d :=
  let C := fresh "C" in
  pose proof (start_job_cases now code d) as C; cbv zeta in C;
  destruct C as
    [(Hq & Hr)
    |[(job0 & Hq & Hs & Hr)
    |[(job0 & Hq & Hs & Hp & Hr)
    |[(job0 & pr0 & Hq & Hs & Hp & Hps & Hr)
    |[(job0 & pr0 & c0 & Hq & Hs & Hp & Hps & Hsc & Hne & Hsp & Hr)
    |[(job0 & pr0 & c0 & sp0 & m0 & Hq & Hs & Hp & Hps & Hsc & Hne & Hsp
       & Hm & Hlt & Hr)
    |[(job0 & pr0 & c0 & sp0 & other0 & Hq & Hs & Hp & Hps & Hsc & Hne & Hsp
       & Hle & Hu & Hr)
    |(job0 & pr0 & Hq & Hs & Hp & Hps & Hcl & Hr & Hj & Hpr & Hsp & He
      & Hal)]]]]]]].

(** X10. When [start_job] answers [False] it has recorded an error message,
    and jobs, printers, spools and failure events are as they were; the
    alerts are as they were too, except that the insufficient-material
    refusal may have added one insufficient-material alert. *)
Theorem start_job_failure_keeps_state (now : Z) (code : string) (d : Store) :
  let r := request (start_job now code) d in
  fst (fst r) = false ->
  (exists e, snd (fst r) = Some e)
  /\ print_jobs (snd r) = print_jobs d
  /\ printers (snd r) = printers d
  /\ spools (snd r) = spools d
  /\ failure_events (snd r) = failure_events d
  /\ (inventory_alerts (snd r) = inventory_alerts d
      \/ (snd (fst r) = Some Spool_insufficient_material
          /\ exists a,
               inventory_alerts (snd r) = inventory_alerts d ++ [a]
               /\ InventoryAlert.alert_type a = insufficient_material
               /\ InventoryAlert.is_resolved a = false)).
Proof.
  cbv zeta. intro Hfail.
  start_job_inversion now code d;
    try (rewrite Hr in *; simpl;
         split; [eexists; reflexivity|]; repeat split; now left).
  - rewrite Hr in *. simpl.
    destruct (ensure_alert_alerts_only c0 insufficient_material None None
                (begin d)) as (_ & Hpr & Hsp' & Hj & He & _).
    split; [eexists; reflexivity|].
    rewrite Hpr, Hsp', Hj, He. repeat (split; [reflexivity|]).
    destruct (ensure_alert_alerts c0 insufficient_material None None
                (begin d)) as [H|H]; [left; exact H|right].
    split; [reflexivity|]. eexists. split; [exact H|]. split; reflexivity.
  - rewrite Hr in Hfail. discriminate.
Qed.

Lemma start_job_failure_keeps_state_witness :
  request (start_job 0 "JOB_FFFFFFFF") farm_queued
  = (false, Some Job_not_found, farm_queued).
Proof.
  destruct (start_job_failure_keeps_state 0 "JOB_FFFFFFFF" farm_queued)
    as (_ & _ & _ & _ & _ & _).
  - reflexivity.
  - reflexivity.
Defined.

(** X11. [start_job] answers [True] exactly when the job exists and is
    queued, its printer exists with a status other than printing, and, when
    the job names a spool, an active spool of that code holds at least the
    declared material and no job is printing on that code. *)
Theorem start_job_succeeds_iff (now : Z) (code : string) (d : Store) :
  fst (fst (request (start_job now code) d)) = true <->
  exists job pr,
    query_job d code = Some job
    /\ PrintJob.status job = queued
    /\ query_printer d (PrintJob.printer_id job) = Some pr
    /\ Printer.status pr <> printing
    /\ spool_clear d job.
Proof.
  split.
  - intro Hok.
    start_job_inversion now code d;
      try (rewrite Hr in Hok; discriminate).
    exists job0, pr0. repeat (split; [assumption|]). assumption.
  - intros (job & pr & Hq' & Hs' & Hp' & Hps' & Hcl').
    start_job_inversion now code d;
      try (rewrite Hq' in Hq; try discriminate; injection Hq as <-);
      try (rewrite Hp' in Hp; try discriminate; injection Hp as <-);
      try contradiction.
    + destruct (Hcl' c0 Hsc Hne) as ((sp & Hf & _) & _). congruence.
    + destruct (Hcl' c0 Hsc Hne) as ((sp & Hf & Hle) & _).
      rewrite Hf in Hsp. injection Hsp as <-.
      specialize (Hle m0 Hm). lra.
    + destruct (Hcl' c0 Hsc Hne) as (_ & Hnone). congruence.
    + now rewrite Hr.
Qed.

(** X12. After a successful [start_job] no error is recorded, the job is
    printing with the start time given, its printer is printing, every other
    job code and printer id looks up as before, and spools and failure events
    are untouched. *)
Theorem start_job_effects (now : Z) (code : string) (d : Store)
  (job : PrintJob.t) :
  let r := request (start_job now code) d in
  fst (fst r) = true ->
  query_job d code = Some job ->
  snd (fst r) = None
  /\ query_job (snd r) code
     = Some (PrintJob.set_start_time (Some now)
               (PrintJob.set_status job_printing job))
  /\ (exists pr,
        query_printer d (PrintJob.printer_id job) = Some pr
        /\ query_printer (snd r) (PrintJob.printer_id job)
           = Some (Printer.set_status printing pr))
  /\ (forall b, b <> code -> query_job (snd r) b = query_job d b)
  /\ (forall p, p <> PrintJob.printer_id job ->
                query_printer (snd r) p = query_printer d p)
  /\ spools (snd r) = spools d
  /\ failure_events (snd r) = failure_events d.
Proof.
  cbv zeta. intros Hok Hq'.
  start_job_inversion now code d;
    try (rewrite Hr in Hok; discriminate).
  rewrite Hq' in Hq. injection Hq as <-.
  split; [now rewrite Hr|].
  unfold query_job, query_printer in *. rewrite Hj, Hpr. simpl.
  split; [rewrite find_update_first by reflexivity; now rewrite Hq'|].
  split.
  { exists pr0. split; [exact Hp|].
    rewrite find_update_first by reflexivity. now rewrite Hp. }
  split.
  { intros b Hb. apply find_update_first_other; [reflexivity|].
    intro x. apply is_job_other. congruence. }
  split.
  { intros p Hp'. apply find_update_first_other; [reflexivity|].
    intro x. apply is_printer_other. congruence. }
  split; assumption.
Qed.

Lemma start_job_effects_witness :
  query_job farm_printing "JOB_0A1B2C3D"
  = Some (PrintJob.mk 1 "JOB_0A1B2C3D" 1 "bracket" job_printing (Some 0%Z)
            None None None (Some 900) (Some "S") (Some 0) (Some 0%Z) None).
Proof.
  destruct (start_job_effects 0 "JOB_0A1B2C3D" farm_queued
              (PrintJob.mk 1 "JOB_0A1B2C3D" 1 "bracket" queued None None None
                 None (Some 900) (Some "S") (Some 0) (Some 0%Z) None))
    as (_ & H & _).
  - reflexivity.
  - reflexivity.
  - exact H.
Defined.

(** X13. Once [start_job] has succeeded for a job, [start_job] for any other
    queued job on the same printer answers [False] with "printer occupied"
    and leaves the database as it is. *)
Theorem start_job_second_on_printer_refused (now now' : Z) (a b : string)
  (d : Store) (ja jb : PrintJob.t) :
  let d1 := snd (request (start_job now a) d) in
  fst (fst (request (start_job now a) d)) = true ->
  query_job d a = Some ja ->
  query_job d b = Some jb ->
  a <> b ->
  PrintJob.status jb = queued ->
  PrintJob.printer_id jb = PrintJob.printer_id ja ->
  request (start_job now' b) d1 = (false, Some Printer_occupied, d1).
Proof.
  cbv zeta. intros Hok Ha Hb Hab Hsb Hpid.
  assert (Hd1 : query_job (snd (request (start_job now a) d)) b = Some jb
                /\ exists pr,
                     query_printer (snd (request (start_job now a) d))
                                   (PrintJob.printer_id jb)
                     = Some pr /\ Printer.status pr = printing).
  { start_job_inversion now a d; try (rewrite Hr in Hok; discriminate).
    rewrite Ha in Hq. injection Hq as <-.
    unfold query_job, query_printer in *. rewrite Hj, Hpr. simpl.
    split.
    - rewrite find_update_first_other; [exact Hb|reflexivity|].
      intro x. now apply is_job_other.
    - rewrite Hpid, find_update_first by reflexivity. rewrite Hp.
      eexists. split; reflexivity. }
  destruct Hd1 as (Hb1 & pr1 & Hp1 & Hs1).
  set (d1 := snd (request (start_job now a) d)) in *. clearbody d1.
  start_job_inversion now' b d1;
    try (rewrite Hb1 in Hq; try discriminate; injection Hq as <-);
    try (rewrite Hp1 in Hp; try discriminate; injection Hp as <-);
    try contradiction.
  exact Hr.
Qed.

(** Two queued jobs on the idle printer. *)
Lemma start_job_second_on_printer_refused_witness :
  let d := run default_settings
               [Create "0000000A" 1 None None; Create "0000000B" 1 None None]
               farm0 in
  request (start_job 5 "JOB_0000000B")
          (snd (request (start_job 0 "JOB_0000000A") d))
  = (false, Some Printer_occupied,
     snd (request (start_job 0 "JOB_0000000A") d)).
Proof.
  cbv zeta.
  apply (start_job_second_on_printer_refused 0 5 "JOB_0000000A"
           "JOB_0000000B" _
           (PrintJob.mk 1 "JOB_0000000A" 1 "part" queued None None None None
              None None (Some 0) (Some 0%Z) None)
           (PrintJob.mk 2 "JOB_0000000B" 1 "part" queued None None None None
              None None (Some 0) (Some 0%Z) None)).
  - reflexivity.
  - reflexivity.
  - reflexivity.
  - discriminate.
  - reflexivity.
  - reflexivity.
Defined.



(** ** Counting rows across a write *)

Lemma count_update_first {A : Type} (q p : A -> bool) (f : A -> A)
  (l : list A) (x : A) :
  find p l = Some x ->
  (List.length (filter q (update_first p f l)) + (if q x then 1 else 0)
   = List.length (filter q l) + (if q (f x) then 1 else 0))%nat.
Proof.
  induction l as [|y l IH]; simpl; [discriminate|].
  destruct (p y) eqn:E.
  - intros [= <-]. simpl. destruct (q y), (q (f y)); simpl; lia.
  - intro H. simpl. specialize (IH H). destruct (q y); simpl; lia.
Qed.

Lemma count_delete_first {A : Type} (q p : A -> bool) (l : list A) (x : A) :
  find p l = Some x ->
  (List.length (filter q (delete_first p l)) + (if q x then 1 else 0)
   = List.length (filter q l))%nat.
Proof.
  induction l as [|y l IH]; simpl; [discriminate|].
  destruct (p y) eqn:E.
  - intros [= <-]. destruct (q y); simpl; lia.
  - intro H. simpl. specialize (IH H). destruct (q y); simpl; lia.
Qed.

Lemma count_find_none {A : Type} (q : A -> bool) (l : list A) :
  find q l = None -> List.length (filter q l) = 0%nat.
Proof.
  induction l as [|y l IH]; simpl; [reflexivity|].
  destruct (q y); [discriminate|exact IH].
Qed.

(** ** Spool exclusivity *)

(** X15. [start_job] never puts a second printing job on a spool: if every
    non-empty spool code has at most one printing job before the request, it
    has at most one after it, whatever the answer. *)
Theorem start_job_keeps_spool_exclusive (now : Z) (code : string) (d : Store) :
  (forall c, c <> "" -> (printing_jobs_on_spool d c <= 1)%nat) ->
  forall c, c <> "" ->
    (printing_jobs_on_spool (snd (request (start_job now code) d)) c <= 1)%nat.
Proof.
  intros Hinv c Hc. specialize (Hinv c Hc). unfold printing_jobs_on_spool in *.
  start_job_inversion now code d;
    try (rewrite Hr; simpl; exact Hinv).
  - rewrite Hr. simpl.
    destruct (ensure_alert_alerts_only c0 insufficient_material None None
                (begin d)) as (_ & _ & _ & Hj & _).
    rewrite Hj. exact Hinv.
  - rewrite Hj. simpl.
    pose proof (count_update_first (printing_on_spool c) (is_job code)
                  (fun j => PrintJob.set_start_time (Some now)
                              (PrintJob.set_status job_printing j))
                  (print_jobs d) job0 Hq) as Hcount.
    assert (Hbefore : printing_on_spool c job0 = false).
    { unfold printing_on_spool. rewrite Hs.
      destruct (PrintJob.spool_id job0); [|reflexivity].
      now rewrite andb_false_r. }
    rewrite Hbefore in Hcount.
    destruct (printing_on_spool c _) eqn:Hafter in Hcount; [|lia].
    unfold printing_on_spool in Hafter. simpl in Hafter.
    destruct (PrintJob.spool_id job0) as [c'|] eqn:Hsc; [|discriminate].
    rewrite andb_true_r in Hafter. apply String.eqb_eq in Hafter.
    subst c'. destruct (Hcl c Hsc Hc) as (_ & Hnone).
    rewrite (count_find_none _ _ Hnone) in Hcount. lia.
Qed.

Lemma start_job_keeps_spool_exclusive_witness :
  (printing_jobs_on_spool farm_printing "S" <= 1)%nat.
Proof.
  apply (start_job_keeps_spool_exclusive 0 "JOB_0A1B2C3D" farm_queued).
  - intros c _. unfold printing_jobs_on_spool, printing_on_spool. simpl.
    rewrite andb_false_r. simpl. lia.
  - discriminate.
Defined.

(** ** Printer exclusivity under guarded operations *)

Lemma map_id_update_first pid f l :
  (forall x, Printer.id (f x) = Printer.id x) ->
  map Printer.id (update_first (is_printer pid) f l) = map Printer.id l.
Proof.
  intro Hf. induction l as [|x l IH]; simpl; [reflexivity|].
  destruct (is_printer pid x); simpl; [now rewrite Hf|now rewrite IH].
Qed.

Lemma in_update_first_printers pid f l y :
  NoDup (map Printer.id l) ->
  (forall x, Printer.id (f x) = Printer.id x) ->
  In y (update_first (is_printer pid) f l) ->
  (Printer.id y = pid
   /\ exists x, find (is_printer pid) l = Some x /\ In x l /\ y = f x)
  \/ (Printer.id y <> pid /\ In y l).
Proof.
  intros Hnd Hf. induction l as [|x l IH]; simpl; [tauto|].
  inversion Hnd as [|? ? Hnotin Hnd']; subst.
  unfold is_printer at 1 3. destruct (Z.eqb (Printer.id x) pid) eqn:E.
  - apply Z.eqb_eq in E. intros [<-|Hin].
    + left. split; [now rewrite Hf|]. exists x. auto.
    + right. split; [|now right]. intro Hy. apply Hnotin.
      rewrite E, <- Hy. now apply in_map.
  - apply Z.eqb_neq in E. intros [<-|Hin].
    + right. split; [exact E|now left].
    + destruct (IH Hnd' Hin) as [(Hy & x0 & Hx0 & Hin0 & ->)|(Hy & Hin')].
      * left. split; [exact Hy|]. exists x0. auto.
      * right. split; [exact Hy|now right].
Qed.

Lemma exclusive_strict_ext d d' :
  printers d' = printers d -> print_jobs d' = print_jobs d ->
  exclusive_strict d -> exclusive_strict d'.
Proof.
  unfold exclusive_strict, printing_jobs_on. intros -> ->. auto.
Qed.

(** A job row goes from not printing to printing, its printer from some
    other status to printing. *)
Lemma exclusive_strict_start now code job pr d :
  exclusive_strict d ->
  query_job d code = Some job ->
  PrintJob.status job = queued ->
  query_printer d (PrintJob.printer_id job) = Some pr ->
  Printer.status pr <> printing ->
  exclusive_strict (started now code job d).
Proof.
  intros (Hnd & Hinv) Hq Hs Hp Hnp.
  assert (Hcount : forall pid,
            printing_jobs_on (started now code job d) pid
            = (printing_jobs_on d pid
               + if Z.eqb (PrintJob.printer_id job) pid then 1 else 0)%nat).
  { intro pid. unfold printing_jobs_on, started. simpl.
    pose proof (count_update_first (prints_on pid) (is_job code)
                  (fun j => PrintJob.set_start_time (Some now)
                              (PrintJob.set_status job_printing j))
                  (print_jobs d) job Hq) as H.
    assert (Hb : prints_on pid job = false)
      by (unfold prints_on; rewrite Hs; apply andb_false_r).
    assert (Ha : prints_on pid
                   (PrintJob.set_start_time (Some now)
                      (PrintJob.set_status job_printing job))
                 = Z.eqb (PrintJob.printer_id job) pid)
      by (unfold prints_on; simpl; apply andb_true_r).
    rewrite Hb, Ha in H. unfold prints_on in H. lia. }
  split.
  - unfold started. simpl. now rewrite map_id_update_first.
  - intros y Hy. unfold started in Hy. simpl in Hy.
    apply in_update_first_printers in Hy; [|exact Hnd|reflexivity].
    destruct Hy as [(Hid & x & Hx & Hin & ->)|(Hid & Hin)].
    + simpl in Hid. unfold query_printer in Hp. rewrite Hp in Hx.
      injection Hx as <-. simpl.
      rewrite Hcount, Hid, Z.eqb_refl.
      destruct (Hinv pr Hin) as (_ & H0).
      rewrite Hid in H0. rewrite (H0 Hnp).
      split; [intros _; reflexivity|intro H; now contradiction H].
    + rewrite Hcount.
      replace (Z.eqb (PrintJob.printer_id job) (Printer.id y)) with false
        by (symmetry; apply Z.eqb_neq; congruence).
      rewrite Nat.add_0_r. now apply Hinv.
Qed.

(** A printing job row leaves the printing status, its printer goes to a
    status other than printing. *)
Lemma exclusive_strict_finish code job (g : PrintJob.t -> PrintJob.t)
  (st : PrinterStatus) d :
  exclusive_strict d ->
  query_job d code = Some job ->
  PrintJob.status job = job_printing ->
  PrintJob.status (g job) <> job_printing ->
  st <> printing ->
  exclusive_strict
    (with_printers
       (update_first (is_printer (PrintJob.printer_id job))
                     (Printer.set_status st))
       (with_print_jobs (update_first (is_job code) g) d)).
Proof.
  intros (Hnd & Hinv) Hq Hs Hg Hst.
  assert (Hcount : forall pid,
            (printing_jobs_on
               (with_printers
                  (update_first (is_printer (PrintJob.printer_id job))
                                (Printer.set_status st))
                  (with_print_jobs (update_first (is_job code) g) d)) pid
             + (if Z.eqb (PrintJob.printer_id job) pid then 1 else 0)
             = printing_jobs_on d pid)%nat).
  { intro pid. unfold printing_jobs_on. simpl.
    pose proof (count_update_first (prints_on pid) (is_job code) g
                  (print_jobs d) job Hq) as H.
    assert (Hafter : prints_on pid (g job) = false).
    { unfold prints_on. destruct (PrintJob.status (g job)); simpl;
        try apply andb_false_r. contradiction. }
    assert (Hb : prints_on pid job = Z.eqb (PrintJob.printer_id job) pid)
      by (unfold prints_on; rewrite Hs; apply andb_true_r).
    rewrite Hafter, Hb in H. unfold prints_on in H. lia. }
  split.
  - simpl. now rewrite map_id_update_first.
  - intros y Hy. simpl in Hy.
    apply in_update_first_printers in Hy; [|exact Hnd|reflexivity].
    destruct Hy as [(Hid & x & Hx & Hin & ->)|(Hid & Hin)].
    + simpl in Hid |- *. specialize (Hcount (Printer.id x)).
      rewrite Hid, Z.eqb_refl in Hcount. rewrite Hid.
      destruct (Hinv x Hin) as (H1 & H0).
      split; [intro; contradiction|]. intros _.
      rewrite Hid in H1, H0.
      destruct (PrinterStatus_eqb (Printer.status x) printing) eqn:E.
      * apply PrinterStatus_eqb_eq in E. specialize (H1 E). lia.
      * assert (Printer.status x <> printing)
          by (intro E'; apply PrinterStatus_eqb_eq in E'; congruence).
        specialize (H0 H). lia.
    + specialize (Hcount (Printer.id y)).
      replace (Z.eqb (PrintJob.printer_id job) (Printer.id y)) with false
        in Hcount by (symmetry; apply Z.eqb_neq; congruence).
      rewrite Nat.add_0_r in Hcount.
      destruct (Hinv y Hin) as (H1 & H0).
      split; intro H; [rewrite <- (H1 H)|rewrite <- (H0 H)]; exact Hcount.
Qed.

(** A write on the job rows that keeps printer and status of every row. *)
Lemma exclusive_strict_touch code (g : PrintJob.t -> PrintJob.t) d :
  (forall j, PrintJob.printer_id (g j) = PrintJob.printer_id j
             /\ PrintJob.status (g j) = PrintJob.status j) ->
  exclusive_strict d ->
  exclusive_strict (with_print_jobs (update_first (is_job code) g) d).
Proof.
  intros Hg (Hnd & Hinv). split; [exact Hnd|]. simpl.
  assert (Hcount : forall pid,
            printing_jobs_on
              (with_print_jobs (update_first (is_job code) g) d) pid
            = printing_jobs_on d pid).
  { intro pid. unfold printing_jobs_on. simpl.
    induction (print_jobs d) as [|x l IH]; simpl; [reflexivity|].
    destruct (is_job code x); simpl.
    - destruct (Hg x) as [-> ->]. destruct (_ && _); reflexivity.
    - destruct (_ && _); simpl; now rewrite IH. }
  intros p Hp. rewrite Hcount. now apply Hinv.
Qed.

(** A queued row is added or removed. *)
Lemma exclusive_strict_add job d :
  PrintJob.status job = queued ->
  exclusive_strict d ->
  exclusive_strict (with_print_jobs (fun l => l ++ [job]) d).
Proof.
  intros Hs (Hnd & Hinv). split; [exact Hnd|]. simpl.
  intros p Hp. unfold printing_jobs_on. simpl.
  rewrite filter_app, length_app. simpl. rewrite Hs, andb_false_r.
  simpl. rewrite Nat.add_0_r. now apply Hinv.
Qed.

Lemma exclusive_strict_delete code job d :
  query_job d code = Some job ->
  PrintJob.status job = queued ->
  exclusive_strict d ->
  exclusive_strict (with_print_jobs (delete_first (is_job code)) d).
Proof.
  intros Hq Hs (Hnd & Hinv). split; [exact Hnd|]. simpl.
  intros p Hp. unfold printing_jobs_on. simpl.
  pose proof (count_delete_first (prints_on (Printer.id p)) (is_job code)
                (print_jobs d) job Hq) as H.
  assert (Hb : prints_on (Printer.id p) job = false)
    by (unfold prints_on; rewrite Hs; apply andb_false_r).
  rewrite Hb in H. unfold prints_on in H. rewrite Nat.add_0_r in H.
  unfold printing_jobs_on in Hinv. rewrite H. now apply Hinv.
Qed.

Lemma exclusive_strict_exclusive d : exclusive_strict d -> exclusive d.
Proof.
  intros (_ & Hinv) p Hp. destruct (Hinv p Hp) as (H1 & H0).
  split; [exact H1|]. intro Hc.
  destruct (Printer.status p) eqn:E; try reflexivity;
    (rewrite H0 in Hc; [discriminate|discriminate]).
Qed.

(** The rows a flagged [detect_failure_from_image] writes. *)
Lemma detect_failure_from_image_rows settings now code path sc d job m ty :
  query_job d code = Some job ->
  detect_failure settings (Some sc) = (true, m, ty) ->
  let r := request (detect_failure_from_image settings now code path (Some sc))
                   d in
  print_jobs (snd r)
  = update_first (is_job code)
      (fun j => PrintJob.set_end_time (Some now) (PrintJob.set_status failed j))
      (print_jobs d)
  /\ printers (snd r)
     = update_first (is_printer (PrintJob.printer_id job))
                    (Printer.set_status error) (printers d).
Proof.
  intros Hq Hd r. unfold r, request, detect_failure_from_image, _get_job.
  simpl db. simpl pending. rewrite Hq, Hd. cbv zeta.
  match goal with
  | |- context [write (with_failure_events _) ?x] => set (db1 := x)
  end.
  assert (Hk : kept d db1).
  { unfold db1.
    destruct (PrintJob.spool_id job) as [c|]; [|apply kept_begin].
    destruct (PrintJob.material_g job) as [mat|]; [|apply kept_begin].
    destruct (_ && _); [|apply kept_begin].
    destruct (Qltb 0 _); [|apply kept_begin].
    apply update_spool_usage_kept; apply kept_begin. }
  destruct Hk as (Hkj & Hkp & _). clearbody db1.
  destruct (PrintJob.spool_id job) as [c|]; [destruct (negb _)|]; simpl;
    rewrite Hkj, Hkp; split; reflexivity.
Qed.

Lemma detect_unknown_job settings now code path image d :
  query_job d code = None ->
  request (detect_failure_from_image settings now code path image) d
  = (None, None, d).
Proof.
  intro Hq. unfold request, detect_failure_from_image, _get_job.
  simpl db. simpl pending. now rewrite Hq.
Qed.

Lemma complete_unknown_job settings now code success d :
  query_job d code = None ->
  request (complete_job settings now code success) d = (false, None, d).
Proof.
  intro Hq. unfold request, complete_job, _get_job.
  simpl db. simpl pending. now rewrite Hq.
Qed.

Lemma delete_job_cases code d :
  (exists job,
      query_job d code = Some job /\ PrintJob.status job = queued
      /\ request (delete_job code) d
         = (true, None, with_print_jobs (delete_first (is_job code)) d))
  \/ snd (request (delete_job code) d) = d.
Proof.
  unfold request, delete_job. simpl db. simpl pending.
  destruct (query_job d code) as [job|] eqn:Hq; [|now right].
  destruct (JobStatus_eqb (PrintJob.status job) queued) eqn:Hs; simpl negb;
    cbv iota; [|now right].
  apply JobStatus_eqb_eq in Hs.
  destruct (existsb _ _); [now right|].
  left. exists job. now repeat split.
Qed.

Lemma exclusive_strict_close_job now code success job d :
  exclusive_strict d ->
  query_job d code = Some job ->
  PrintJob.status job = job_printing ->
  exclusive_strict (close_job now code success job d).
Proof.
  intros Hinv Hq Hs.
  pose proof (exclusive_strict_finish code job
                (fun j => PrintJob.set_end_time (Some now)
                            (PrintJob.set_status
                               (if success then completed else failed) j))
                idle d Hinv Hq Hs) as H1.
  assert (H : exclusive_strict
                (with_printers
                   (update_first (is_printer (PrintJob.printer_id job))
                                 (Printer.set_status idle))
                   (with_print_jobs
                      (update_first (is_job code)
                         (fun j => PrintJob.set_end_time (Some now)
                                     (PrintJob.set_status
                                        (if success then completed else failed)
                                        j))) d))).
  { apply H1; [|discriminate]. simpl. destruct success; discriminate. }
  unfold close_job. destruct (PrintJob.start_time job) as [st|]; [|exact H].
  eapply exclusive_strict_ext;
    [| |apply (exclusive_strict_touch code
                 (PrintJob.set_actual_time_min (Some (minutes_of (now - st))))
                 _ (fun j => conj eq_refl eq_refl) H)];
    reflexivity.
Qed.

(** One guarded operation keeps exclusivity. *)
Lemma guarded_step_keeps_exclusive settings d o :
  exclusive_strict d -> guarded d o -> exclusive_strict (step settings d o).
Proof.
  intros Hinv Hg. destruct o as [hex8 pid mat sp|now code|now code success
                                 |now code image|code]; simpl.
  - destruct (create_job_cases hex8 pid "part" None mat sp None d)
      as [(_ & _ & Heq)|[(_ & _ & Heq)|(_ & _ & _ & Hd)]].
    + rewrite Heq. simpl.
      match goal with
      | |- exclusive_strict
             (bump_print_jobs_seq (with_print_jobs (fun l => l ++ [?j]) ?d0)) =>
          apply (exclusive_strict_ext
                   (with_print_jobs (fun l => l ++ [j]) d0));
          [reflexivity|reflexivity
          |apply exclusive_strict_add; [reflexivity|exact Hinv]]
      end.
    + rewrite Heq. simpl.
      apply (exclusive_strict_ext d); [reflexivity|reflexivity|exact Hinv].
    + now rewrite Hd.
  - start_job_inversion now code d;
      try (rewrite Hr; simpl; exact Hinv).
    + rewrite Hr. simpl.
      destruct (ensure_alert_alerts_only c0 insufficient_material None None
                  (begin d)) as (_ & Hpr & _ & Hj & _).
      eapply exclusive_strict_ext; [exact Hpr|exact Hj|exact Hinv].
    + eapply exclusive_strict_ext; [exact Hpr|exact Hj|].
      now apply (exclusive_strict_start now code job0 pr0).
  - destruct (query_job d code) as [job|] eqn:Hq.
    + simpl in Hg. specialize (Hg job Hq).
      pose proof (exclusive_strict_close_job now code success job d Hinv Hq Hg)
        as Hc.
      destruct (complete_job_request settings now code success d job Hq)
        as (_ & _ & H).
      destruct (settles job success) as [[sc g]|]; [|now rewrite H].
      destruct (query_spool d sc) as [spool|]; [|now rewrite H].
      destruct (Qeq_bool (Spool.total_weight_g spool) 0); [now rewrite H|].
      destruct H as (Hpr & Hj & _).
      eapply exclusive_strict_ext; [exact Hpr|exact Hj|exact Hc].
    + now rewrite (complete_unknown_job settings now code success d Hq).
  - destruct (query_job d code) as [job|] eqn:Hq.
    + simpl in Hg. specialize (Hg job Hq).
      destruct (detect_failure settings image) as [[flag m] ty] eqn:Hd.
      destruct flag.
      * destruct image as [sc|]; [|discriminate].
        destruct (detect_failure_from_image_rows settings now code "frame.jpg"
                    sc d job m ty Hq Hd) as (Hj & Hpr).
        apply (exclusive_strict_ext
                 (with_printers
                    (update_first (is_printer (PrintJob.printer_id job))
                                  (Printer.set_status error))
                    (with_print_jobs
                       (update_first (is_job code)
                          (fun j => PrintJob.set_end_time (Some now)
                                      (PrintJob.set_status failed j))) d)));
          [exact Hpr|exact Hj|].
        apply (exclusive_strict_finish code job _ error d Hinv Hq Hg);
          discriminate.
      * now rewrite (detect_failure_from_image_clear settings now code
                       "frame.jpg" image d m ty Hd).
    + now rewrite (detect_unknown_job settings now code "frame.jpg" image d Hq).
  - destruct (delete_job_cases code d) as [(job & Hq & Hs & Heq)|Heq].
    + rewrite Heq. simpl. now apply (exclusive_strict_delete code job).
    + now rewrite Heq.
Qed.

(** X16. Printer exclusivity is an invariant of the coordinator as long as
    [complete_job] and [detect_failure_from_image] are only asked for jobs
    that are printing: from a database with unique printer ids in which a
    printing printer has exactly one printing job and any other printer has
    none, every such sequence of create, start, complete, detect and delete
    requests ends in a database of the same kind, and so one in which a
    printer is printing iff exactly one printing job references it. *)
Theorem guarded_run_keeps_exclusive (settings : Settings) (ops : list Op)
  (d : Store) :
  exclusive_strict d ->
  guarded_run settings ops d ->
  exclusive_strict (run settings ops d) /\ exclusive (run settings ops d).
Proof.
  intros Hinv Hg.
  assert (H : exclusive_strict (run settings ops d)).
  { revert d Hinv Hg. unfold run.
    induction ops as [|o ops IH]; intros d Hinv Hg; simpl; [exact Hinv|].
    destruct Hg as (Hg & Hrest). apply IH; [|exact Hrest].
    now apply guarded_step_keeps_exclusive. }
  split; [exact H|now apply exclusive_strict_exclusive].
Qed.

Lemma guarded_run_keeps_exclusive_witness :
  exclusive
    (run default_settings
         [ Create "0000000A" 1 None None; Create "0000000B" 1 None None;
           Start 0 "JOB_0000000A"; Complete 60000000 "JOB_0000000A" true;
           Start 90000000 "JOB_0000000B" ] farm0).
Proof.
  apply (guarded_run_keeps_exclusive default_settings
           [ Create "0000000A" 1 None None; Create "0000000B" 1 None None;
             Start 0 "JOB_0000000A"; Complete 60000000 "JOB_0000000A" true;
             Start 90000000 "JOB_0000000B" ] farm0).
  - split.
    + repeat constructor. simpl. tauto.
    + intros p [<-|[]]. split; [discriminate|reflexivity].
  - simpl. repeat split. intros job Hj. vm_compute in Hj.
    injection Hj as <-. reflexivity.
Defined.

(** ** Completion that books nothing *)

(** X17. [complete_job] with [success=False] never touches the inventory:
    spools, alerts and failure events are as they were, while the job is set
    to failed with the end time given (its progress kept) and its printer is
    set to idle. *)
Theorem complete_job_failure_books_nothing (settings : Settings) (now : Z)
  (code : string) (d : Store) (job : PrintJob.t) :
  query_job d code = Some job ->
  let r := request (complete_job settings now code false) d in
  fst (fst r) = true
  /\ spools (snd r) = spools d
  /\ inventory_alerts (snd r) = inventory_alerts d
  /\ failure_events (snd r) = failure_events d
  /\ (exists job',
        query_job (snd r) code = Some job'
        /\ PrintJob.status job' = failed
        /\ PrintJob.end_time job' = Some now
        /\ PrintJob.progress_percentage job'
           = PrintJob.progress_percentage job)
  /\ (forall pr,
        query_printer d (PrintJob.printer_id job) = Some pr ->
        query_printer (snd r) (PrintJob.printer_id job)
        = Some (Printer.set_status idle pr)).
Proof.
  intros Hq r.
  destruct (complete_job_request settings now code false d job Hq)
    as (Hok & _ & H). fold r in Hok, H.
  assert (Hs : settles job false = None).
  { unfold settles. destruct (PrintJob.spool_id job); [|reflexivity].
    destruct (PrintJob.material_g job); reflexivity. }
  rewrite Hs in H. rewrite H.
  split; [exact Hok|].
  split; [unfold close_job; destruct (PrintJob.start_time job); reflexivity|].
  split; [unfold close_job; destruct (PrintJob.start_time job); reflexivity|].
  split; [unfold close_job; destruct (PrintJob.start_time job); reflexivity|].
  split.
  - eexists. split; [apply (query_job_close_job now code false job d Hq)|].
    destruct (PrintJob.start_time job); repeat split.
  - intros pr Hpr. unfold query_printer, close_job in *. cbv zeta.
    destruct (PrintJob.start_time job); simpl;
      rewrite find_update_first by reflexivity; now rewrite Hpr.
Qed.

Lemma complete_job_failure_books_nothing_witness :
  spools (snd (request (complete_job default_settings 60000000 "JOB_0A1B2C3D"
                                     false) farm_printing))
  = spools farm_printing.
Proof.
  destruct (complete_job_failure_books_nothing default_settings 60000000
              "JOB_0A1B2C3D" farm_printing
              (PrintJob.mk 1 "JOB_0A1B2C3D" 1 "bracket" job_printing
                 (Some 0%Z) None None None (Some 900) (Some "S") (Some 0)
                 (Some 0%Z) None)) as (_ & H & _).
  - reflexivity.
  - exact H.
Defined.

(** ** Repeating a progress report *)

Lemma update_first_fixed {A : Type} (p : A -> bool) (f : A -> A)
  (l : list A) (x : A) :
  find p l = Some x -> f x = x -> update_first p f l = l.
Proof.
  induction l as [|y l IH]; simpl; [reflexivity|].
  destruct (p y).
  - intros [= <-] ->. reflexivity.
  - intros H Hf. now rewrite IH.
Qed.

(** [update_job_progress] when it does not turn to the inventory. *)
Lemma update_job_progress_quiet settings code p layer d job :
  query_job d code = Some job ->
  fits_integer_opt layer = true ->
  consumes job (clamp_progress p) = false ->
  request (update_job_progress settings code p layer) d
  = (true, None,
     with_print_jobs
       (fun l =>
          match layer with
          | Some v =>
              update_first (is_job code) (PrintJob.set_current_layer (Some v))
                (update_first (is_job code)
                   (PrintJob.set_progress_percentage
                      (Some (clamp_progress p))) l)
          | None =>
              update_first (is_job code)
                (PrintJob.set_progress_percentage (Some (clamp_progress p))) l
          end) d).
Proof.
  intros Hq Hfit Hc.
  rewrite (update_job_progress_outcome settings code p layer d job Hq), Hfit.
  rewrite (progress_booking_idle settings job (clamp_progress p) (begin d) Hc).
  destruct layer; reflexivity.
Qed.

(** X18. Reporting the same progress (and layer, one that fits its 32-bit
    column) a second time changes nothing: the second request succeeds and
    leaves the database exactly as the first left it, so no material is
    booked twice. *)
Theorem update_job_progress_repeat (settings : Settings) (code : string)
  (p : Q) (layer : option Z) (d : Store) (job : PrintJob.t) :
  query_job d code = Some job ->
  fits_integer_opt layer = true ->
  let d1 := snd (request (update_job_progress settings code p layer) d) in
  request (update_job_progress settings code p layer) d1 = (true, None, d1).
Proof.
  intros Hq Hfit d1.
  destruct (update_job_progress_request settings code p layer d job Hq Hfit)
    as (db1 & (Hkj & _) & _ & _ & _ & _ & _ & _ & _ & _ & Hj).
  fold d1 in Hj. rewrite Hkj in Hj.
  set (j1 := match layer with
             | Some l =>
                 PrintJob.set_current_layer (Some l)
                   (PrintJob.set_progress_percentage
                      (Some (clamp_progress p)) job)
             | None =>
                 PrintJob.set_progress_percentage
                   (Some (clamp_progress p)) job
             end).
  assert (Hq1 : query_job d1 code = Some j1).
  { unfold query_job. rewrite Hj.
    apply query_job_after_progress. exact Hq. }
  assert (Hc : consumes j1 (clamp_progress p) = false).
  { unfold consumes.
    assert (Hd : Qltb 0 (clamp_progress p
                         - or_zero (PrintJob.progress_percentage j1)) = false).
    { apply Qltb_false.
      assert (E : PrintJob.progress_percentage j1 = Some (clamp_progress p))
        by (unfold j1; destruct layer; reflexivity).
      rewrite E. pose proof (or_zero_eq (clamp_progress p)). lra. }
    destruct (PrintJob.spool_id j1); [|reflexivity].
    destruct (PrintJob.material_g j1); [|reflexivity].
    now rewrite Hd. }
  rewrite (update_job_progress_quiet settings code p layer d1 j1 Hq1 Hfit Hc).
  f_equal.
  assert (Hfix : forall l,
             find (is_job code) l = Some j1 ->
             match layer with
             | Some v =>
                 update_first (is_job code)
                   (PrintJob.set_current_layer (Some v))
                   (update_first (is_job code)
                      (PrintJob.set_progress_percentage
                         (Some (clamp_progress p))) l)
             | None =>
                 update_first (is_job code)
                   (PrintJob.set_progress_percentage
                      (Some (clamp_progress p))) l
             end = l).
  { intros l Hl. unfold j1 in Hl. destruct layer.
    - rewrite (update_first_fixed _ _ l _ Hl) by reflexivity.
      now rewrite (update_first_fixed _ _ l _ Hl).
    - now rewrite (update_first_fixed _ _ l _ Hl). }
  unfold query_job in Hq1. specialize (Hfix _ Hq1).
  destruct d1. unfold with_print_jobs. simpl in *. now rewrite Hfix.
Qed.

Lemma update_job_progress_repeat_witness :
  let d1 := snd (request (update_job_progress default_settings "JOB_0A1B2C3D"
                            50 None) farm_printing) in
  request (update_job_progress default_settings "JOB_0A1B2C3D" 50 None) d1
  = (true, None, d1).
Proof.
  apply (update_job_progress_repeat default_settings "JOB_0A1B2C3D" 50 None
           farm_printing
           (PrintJob.mk 1 "JOB_0A1B2C3D" 1 "bracket" job_printing (Some 0%Z)
              None None None (Some 900) (Some "S") (Some 0) (Some 0%Z) None)).
  - reflexivity.
  - reflexivity.
Defined.

(** ** After a detected failure *)

Lemma map_code_update_first c f l :
  (forall x, Spool.spool_id (f x) = Spool.spool_id x) ->
  map Spool.spool_id (update_first (is_spool c) f l) = map Spool.spool_id l.
Proof.
  intro Hf. induction l as [|x l IH]; simpl; [reflexivity|].
  destruct (is_spool c x); simpl; [now rewrite Hf|now rewrite IH].
Qed.

Lemma update_spool_usage_keeps_codes settings code g d :
  map Spool.spool_id
      (spools (pending (snd (update_spool_usage settings code g (begin d)))))
  = map Spool.spool_id (spools d).
Proof.
  destruct (query_spool d code) as [sp|] eqn:Hs.
  - destruct (Qeq_bool (Spool.total_weight_g sp) 0) eqn:E.
    + apply Qeq_bool_iff in E.
      now rewrite (update_spool_usage_zero_total settings code g (begin d) sp
                     Hs E).
    + apply Qeq_bool_false in E.
      destruct (update_spool_usage_effect settings code g (begin d) sp Hs E)
        as (_ & _ & _ & _ & _ & _ & Hsp).
      rewrite Hsp. now apply map_code_update_first.
  - now rewrite (update_spool_usage_no_spool settings code g (begin d) Hs).
Qed.

Lemma locked_rows c l s :
  NoDup (map Spool.spool_id l) ->
  In s (update_first (is_spool c) (Spool.set_is_active false) l) ->
  Spool.spool_id s = c -> Spool.is_active s = false.
Proof.
  induction l as [|x l IH]; simpl; [tauto|].
  intro Hnd. inversion Hnd as [|? ? Hnotin Hnd']; subst.
  unfold is_spool at 1. destruct (String.eqb (Spool.spool_id x) c) eqn:E.
  - apply String.eqb_eq in E. intros [<-|Hin] Hc; [reflexivity|].
    exfalso. apply Hnotin. rewrite E, <- Hc. now apply in_map.
  - apply String.eqb_neq in E. intros [<-|Hin] Hc; [contradiction|].
    now apply IH.
Qed.

(** The spool rows a flagged [detect_failure_from_image] leaves, for a job
    that names a spool. *)
Lemma detect_failure_from_image_spools settings now code path sc d job m ty c :
  query_job d code = Some job ->
  detect_failure settings (Some sc) = (true, m, ty) ->
  PrintJob.spool_id job = Some c -> c <> "" ->
  exists l1,
    map Spool.spool_id l1 = map Spool.spool_id (spools d)
    /\ spools (snd (request (detect_failure_from_image settings now code path
                               (Some sc)) d))
       = update_first (is_spool c) (Spool.set_is_active false) l1.
Proof.
  intros Hq Hd Hc Hne. unfold request, detect_failure_from_image, _get_job.
  simpl db. simpl pending. rewrite Hq, Hd. cbv zeta.
  match goal with
  | |- context [write (with_failure_events _) ?x] => set (db1 := x)
  end.
  assert (Hcodes : map Spool.spool_id (spools (pending db1))
                   = map Spool.spool_id (spools d)).
  { unfold db1. rewrite Hc.
    destruct (PrintJob.material_g job) as [mat|]; [|reflexivity].
    destruct (_ && _); [|reflexivity].
    destruct (Qltb 0 _); [|reflexivity].
    apply update_spool_usage_keeps_codes. }
  clearbody db1. rewrite Hc.
  replace (String.eqb c "") with false
    by (symmetry; now apply String.eqb_neq).
  simpl. exists (spools (pending db1)). split; [exact Hcodes|reflexivity].
Qed.

(** X19. A detected failure locks the job's spool: with unique spool codes,
    after a flagged [detect_failure_from_image] no active spool carries the
    job's spool code, [get_all_spools] no longer lists that code, and
    [start_job] answers [False] for every job that names it. *)
Theorem failure_locks_spool (settings : Settings) (now now' : Z)
  (code path : string) (sc : Scores) (d : Store) (job : PrintJob.t)
  (m : Q) (ty c : string) :
  query_job d code = Some job ->
  detect_failure settings (Some sc) = (true, m, ty) ->
  PrintJob.spool_id job = Some c -> c <> "" ->
  NoDup (map Spool.spool_id (spools d)) ->
  let d1 := snd (request (detect_failure_from_image settings now code path
                            (Some sc)) d) in
  (forall s, In s (spools d1) -> Spool.spool_id s = c ->
             Spool.is_active s = false)
  /\ (forall s, In s (get_all_spools (begin d1)) -> Spool.spool_id s <> c)
  /\ (forall b jb,
        query_job d1 b = Some jb -> PrintJob.spool_id jb = Some c ->
        fst (fst (request (start_job now' b) d1)) = false).
Proof.
  intros Hjob Hflag Hjc Hcne Hnd d1.
  destruct (detect_failure_from_image_spools settings now code path sc d job
              m ty c Hjob Hflag Hjc Hcne) as (l1 & Hcodes & Hspools).
  fold d1 in Hspools.
  assert (Hlock : forall s, In s (spools d1) -> Spool.spool_id s = c ->
                            Spool.is_active s = false).
  { intros s Hin Hcode. rewrite Hspools in Hin.
    apply (locked_rows c l1 s); [now rewrite Hcodes|exact Hin|exact Hcode]. }
  clear Hspools.
  split; [exact Hlock|]. split.
  - intros s Hin Hcode. unfold get_all_spools in Hin. simpl in Hin.
    apply filter_In in Hin as [Hin Ha].
    rewrite (Hlock s Hin Hcode) in Ha. discriminate.
  - intros b jb Hb Hbc. clearbody d1.
    start_job_inversion now' b d1; try (now rewrite Hr).
    exfalso. rewrite Hb in Hq. injection Hq as <-.
    destruct (Hcl c Hbc Hcne) as ((sp & Hf & _) & _).
    apply find_some in Hf as [Hin Hboth].
    apply andb_true_iff in Hboth as [Hcode Ha].
    unfold is_spool in Hcode. apply String.eqb_eq in Hcode.
    rewrite (Hlock sp Hin Hcode) in Ha. discriminate.
Qed.

Lemma failure_locks_spool_witness :
  let d1 := snd (request (detect_failure_from_image default_settings 45000000
                            "JOB_0A1B2C3D" "frame.jpg" (Some frame_separated))
                   farm_printing) in
  get_all_spools (begin d1) = []
  /\ (forall s, In s (spools d1) -> Spool.spool_id s = "S" ->
                Spool.is_active s = false).
Proof.
  cbv zeta. split; [reflexivity|].
  apply (failure_locks_spool default_settings 45000000 0 "JOB_0A1B2C3D"
           "frame.jpg" frame_separated farm_printing
           (PrintJob.mk 1 "JOB_0A1B2C3D" 1 "bracket" job_printing (Some 0%Z)
              None None None (Some 900) (Some "S") (Some 0) (Some 0%Z) None)
           0.9 "layer_separation" "S").
  - reflexivity.
  - reflexivity.
  - reflexivity.
  - discriminate.
  - repeat constructor. simpl. tauto.
Defined.

(** ** Failure events *)

(** X20. [get_failure_events] without a job code, with an empty code, or
    with a code no job carries returns every failure event; with the code of
    an existing job it returns exactly the events that reference that job's
    primary key. *)
Theorem get_failure_events_filter (d : Store) :
  get_failure_events (service_on d) None = failure_events d
  /\ get_failure_events (service_on d) (Some "") = failure_events d
  /\ (forall code,
        query_job d code = None ->
        get_failure_events (service_on d) (Some code) = failure_events d)
  /\ (forall code job e,
        code <> "" -> query_job d code = Some job ->
        (In e (get_failure_events (service_on d) (Some code)) <->
         In e (failure_events d)
         /\ FailureEvent.job_id e = PrintJob.id job)).
Proof.
  unfold get_failure_events, service_on. simpl db. simpl pending.
  split; [reflexivity|]. split; [reflexivity|]. split.
  - intros code Hq. rewrite Hq. now destruct (negb _).
  - intros code job e Hne Hq. rewrite Hq.
    replace (String.eqb code "") with false
      by (symmetry; now apply String.eqb_neq).
    simpl. rewrite filter_In, Z.eqb_eq. reflexivity.
Qed.

(** X21. The event a flagged [detect_failure_from_image] returns is then
    listed by [get_failure_events] for that job's code. *)
Theorem detected_failure_is_listed (settings : Settings) (now : Z)
  (code path : string) (sc : Scores) (d : Store) (job : PrintJob.t)
  (ev : FailureEvent.t) :
  code <> "" ->
  query_job d code = Some job ->
  let r := request (detect_failure_from_image settings now code path (Some sc))
                   d in
  fst (fst r) = Some ev ->
  In ev (get_failure_events (service_on (snd r)) (Some code))
  /\ FailureEvent.job_id ev = PrintJob.id job
  /\ FailureEvent.image_path ev = path
  /\ FailureEvent.resolved ev = false.
Proof.
  intros Hne Hq r Hev.
  destruct (detect_failure settings (Some sc)) as [[flag m] ty] eqn:Hd.
  destruct flag.
  - destruct (detect_failure_from_image_flagged settings now code path sc d
                job m ty Hq Hd) as (Hr & He & Hj & _).
    fold r in Hr, He, Hj. rewrite Hr in Hev. injection Hev as <-.
    split; [|repeat split].
    unfold get_failure_events, service_on. simpl db. simpl pending.
    replace (String.eqb code "") with false
      by (symmetry; now apply String.eqb_neq).
    simpl. rewrite Hj, He. apply filter_In. split.
    + apply in_or_app. right. now left.
    + simpl. apply Z.eqb_refl.
  - unfold r in Hev.
    rewrite (detect_failure_from_image_clear settings now code path (Some sc)
               d m ty Hd) in Hev. discriminate.
Qed.

Lemma detected_failure_is_listed_witness :
  exists ev,
    In ev (get_failure_events
             (service_on
                (snd (request (detect_failure_from_image default_settings
                                 45000000 "JOB_0A1B2C3D" "frame.jpg"
                                 (Some frame_separated)) farm_printing)))
             (Some "JOB_0A1B2C3D"))
    /\ FailureEvent.job_id ev = 1%Z.
Proof.
  eexists.
  destruct (detected_failure_is_listed default_settings 45000000
              "JOB_0A1B2C3D" "frame.jpg" frame_separated farm_printing
              (PrintJob.mk 1 "JOB_0A1B2C3D" 1 "bracket" job_printing
                 (Some 0%Z) None None None (Some 900) (Some "S") (Some 0)
                 (Some 0%Z) None)
              (FailureEvent.mk 1 "layer_separation" 0.9 "frame.jpg" false))
    as (H1 & H2 & _).
  - discriminate.
  - reflexivity.
  - reflexivity.
  - split; [exact H1|exact H2].
Defined.

(** ** What the detector can answer *)

(** X22. With a threshold that is not negative, whenever [detect_failure]
    flags a failure the frame was readable, the failure type is the name of
    one of the four detectors together with that detector's own confidence,
    that confidence exceeds the threshold and no detector scored higher. *)
Theorem detect_failure_names_a_detector (settings : Settings)
  (image : option Scores) (m : Q) (ty : string) :
  0 <= failure_detection_threshold settings ->
  detect_failure settings image = (true, m, ty) ->
  exists sc,
    image = Some sc
    /\ In (ty, m) (results_of sc)
    /\ failure_detection_threshold settings < m
    /\ (forall n c, In (n, c) (results_of sc) -> c <= m).
Proof.
  intros Hthr Hd. destruct image as [sc|]; [|discriminate].
  exists sc. split; [reflexivity|]. unfold detect_failure in Hd.
  destruct (keep_highest_fold (results_of sc) (0, "none"))
    as (_ & Hub & Hin).
  set (best := fold_left keep_highest (results_of sc) (0, "none")) in *.
  injection Hd as Hflag Hm Hty. subst m ty.
  apply Qltb_true in Hflag. unfold threshold in Hflag.
  split; [|split; [exact Hflag|exact Hub]].
  destruct Hin as [Heq|Hin]; [|exact Hin].
  rewrite Heq in Hflag. simpl in Hflag. lra.
Qed.

Lemma detect_failure_names_a_detector_witness :
  exists sc,
    Some frame_separated = Some sc
    /\ In ("layer_separation", 0.9) (results_of sc).
Proof.
  destruct (detect_failure_names_a_detector default_settings
              (Some frame_separated) 0.9 "layer_separation")
    as (sc & H1 & H2 & _).
  - discriminate.
  - reflexivity.
  - exists sc. split; [exact H1|exact H2].
Defined.

(** ** Job utilities *)

Lemma clamp_progress_monotone (p q : Q) :
  p <= q -> clamp_progress p <= clamp_progress q.
Proof.
  intro H. unfold clamp_progress, py_max, py_min.
  destruct (Qltb p 100) eqn:E1; destruct (Qltb q 100) eqn:E2;
    repeat match goal with
           | |- context [Qltb 0 ?x] => destruct (Qltb 0 x) eqn:?
           end; qcases; lra.
Qed.

Lemma py_max_0_compat (x y : Q) : x == y -> py_max 0 x == py_max 0 y.
Proof.
  intro H. unfold py_max.
  destruct (Qltb 0 x) eqn:E1; destruct (Qltb 0 y) eqn:E2; qcases; lra.
Qed.

Lemma compute_material_delta_value total p1 p2 :
  0 <= or_zero total -> p1 <= p2 ->
  compute_material_delta total p1 p2
  == or_zero total * ((clamp_progress p2 - clamp_progress p1) / 100).
Proof.
  intros Ht Hp. unfold compute_material_delta.
  fold (clamp_progress p1). fold (clamp_progress p2).
  pose proof (clamp_progress_monotone p1 p2 Hp).
  apply py_max_0_id. apply Qmult_le_0_compat; [exact Ht|qlra].
Qed.

(** X24. [compute_material_delta] for a material requirement that is not
    negative: the result is never negative and never more than the
    requirement, it is zero when progress does not advance, and, in exact
    arithmetic, over successive advances it adds up: the delta from [p1] to
    [p2] plus the delta from [p2] to [p3] is the delta from [p1] to [p3].
    (On IEEE doubles the sum can differ from the single delta by
    rounding.) *)
Theorem compute_material_delta_additive (total : option Q) (p1 p2 p3 : Q) :
  0 <= or_zero total ->
  0 <= compute_material_delta total p1 p2
  /\ compute_material_delta total p1 p2 <= or_zero total
  /\ (p2 <= p1 -> compute_material_delta total p1 p2 == 0)
  /\ (p1 <= p2 -> p2 <= p3 ->
      compute_material_delta total p1 p2 + compute_material_delta total p2 p3
      == compute_material_delta total p1 p3).
Proof.
  intro Ht. split; [apply py_max_0_nonneg|]. split; [|split].
  - unfold compute_material_delta.
    fold (clamp_progress p1). fold (clamp_progress p2).
    pose proof (clamp_progress_bounds p1) as [A0 A1].
    pose proof (clamp_progress_bounds p2) as [B0 B1].
    apply py_max_0_le; [exact Ht|].
    assert (E : or_zero total
                * ((clamp_progress p2 - clamp_progress p1) / 100)
                == or_zero total
                   - or_zero total
                     * (1 - (clamp_progress p2 - clamp_progress p1) / 100))
      by field.
    rewrite E.
    assert (0 <= or_zero total
                 * (1 - (clamp_progress p2 - clamp_progress p1) / 100))
      by (apply Qmult_le_0_compat; [exact Ht|qlra]).
    lra.
  - intro Hp. unfold compute_material_delta.
    fold (clamp_progress p1). fold (clamp_progress p2).
    pose proof (clamp_progress_monotone p2 p1 Hp).
    assert (0 <= or_zero total
                 * ((clamp_progress p1 - clamp_progress p2) / 100))
      by (apply Qmult_le_0_compat; [exact Ht|qlra]).
    assert (E : or_zero total
                * ((clamp_progress p2 - clamp_progress p1) / 100)
                == - (or_zero total
                      * ((clamp_progress p1 - clamp_progress p2) / 100)))
      by field.
    unfold py_max. destruct (Qltb 0 _) eqn:E1; qcases; lra.
  - intros H12 H23.
    rewrite !compute_material_delta_value by (assumption || lra).
    field.
Qed.

Lemma compute_material_delta_additive_witness :
  compute_material_delta (Some 900) 0 50
  + compute_material_delta (Some 900) 50 100
  == compute_material_delta (Some 900) 0 100.
Proof.
  apply (compute_material_delta_additive (Some 900) 0 50 100).
  - discriminate.
  - discriminate.
  - discriminate.
Defined.

(** X25. For a material requirement that is not negative, what
    [compute_material_delta] gives from progress 0 to [p] and what
    [compute_remaining_needed] gives at [p] add up, in exact arithmetic, to
    the requirement (on IEEE doubles up to rounding), and the remaining need
    lies between 0 and the requirement. *)
Theorem delta_and_remaining_add_up (total : option Q) (p : Q) :
  0 <= or_zero total ->
  compute_material_delta total 0 p + compute_remaining_needed total p
  == or_zero total
  /\ 0 <= compute_remaining_needed total p
  /\ compute_remaining_needed total p <= or_zero total.
Proof.
  intro Ht. pose proof (clamp_progress_bounds p) as [A0 A1].
  assert (Hneed : compute_remaining_needed total p
                  == or_zero total * (1 - clamp_progress p / 100)).
  { unfold compute_remaining_needed. fold (clamp_progress p).
    apply py_max_0_id. apply Qmult_le_0_compat; [exact Ht|qlra]. }
  assert (Hdelta : compute_material_delta total 0 p
                   == or_zero total * (clamp_progress p / 100)).
  { unfold compute_material_delta. fold (clamp_progress p).
    fold (clamp_progress 0).
    assert (E0 : clamp_progress 0 == 0)
      by (apply clamp_progress_id; lra).
    rewrite py_max_0_id.
    - rewrite E0. field.
    - apply Qmult_le_0_compat; [exact Ht|]. rewrite E0. qlra. }
  split; [rewrite Hneed, Hdelta; field|].
  split; [apply py_max_0_nonneg|].
  rewrite Hneed.
  assert (0 <= or_zero total * (clamp_progress p / 100))
    by (apply Qmult_le_0_compat; [exact Ht|qlra]).
  assert (or_zero total * (1 - clamp_progress p / 100)
          == or_zero total - or_zero total * (clamp_progress p / 100))
    by field.
  lra.
Qed.

Lemma delta_and_remaining_add_up_witness :
  compute_material_delta (Some 900) 0 30
  + compute_remaining_needed (Some 900) 30
  == 900.
Proof.
  destruct (delta_and_remaining_add_up (Some 900) 30) as (H & _).
  - discriminate.
  - exact H.
Defined.

(** X26. What [update_job_progress] books on the spool is what
    [compute_material_delta] computes: for a job with a spool, a positive
    material requirement and a stored progress within [0, 100], a report
    that advances the progress leaves the spool (of non-zero total weight)
    with its remaining weight less
    [compute_material_delta material_g previous new], floored at zero. *)
Theorem update_job_progress_books_material_delta (settings : Settings)
  (code : string) (p : Q) (layer : option Z) (d : Store) (job : PrintJob.t)
  (sc : string) (m prev : Q) (spool : Spool.t) :
  query_job d code = Some job ->
  PrintJob.spool_id job = Some sc -> sc <> "" ->
  PrintJob.material_g job = Some m -> 0 < m ->
  PrintJob.progress_percentage job = Some prev -> 0 <= prev <= 100 ->
  prev < clamp_progress p ->
  query_spool d sc = Some spool ->
  ~ Spool.total_weight_g spool == 0 ->
  exists spool',
    query_spool (snd (request (update_job_progress settings code p layer) d))
                sc = Some spool'
    /\ Spool.remaining_weight_g spool'
       == py_max 0 (Spool.remaining_weight_g spool
                    - compute_material_delta (Some m) prev p).
Proof.
  intros Hq Hsc Hne Hm Hpos Hprev Hrange Hadv Hsp Hnz.
  pose proof (update_job_progress_spools settings code p layer d job Hq)
    as Hs.
  pose proof (or_zero_eq prev) as Hoz.
  assert (Hc : consumes job (clamp_progress p) = true).
  { unfold consumes. rewrite Hsc, Hm, Hprev.
    apply andb_true_iff. split; [apply andb_true_iff; split|].
    - apply Qltb_true. lra.
    - apply negb_true_iff. now apply String.eqb_neq.
    - apply negb_true_iff. apply Qeq_bool_false. lra. }
  pose proof (progress_booking_spools settings job (clamp_progress p) d sc m
                Hsc Hm Hc) as Hyes.
  cbv zeta in Hyes. rewrite Hsp in Hyes.
  apply Qeq_bool_false in Hnz. rewrite Hnz in Hyes.
  eexists. split.
  - unfold query_spool. rewrite Hs, Hyes.
    rewrite find_update_first by (intro; apply is_spool_set_usage).
    unfold query_spool in Hsp. rewrite Hsp. reflexivity.
  - simpl. apply py_max_0_compat. rewrite Hprev.
    assert (Hcp : clamp_progress prev == prev)
      by (apply clamp_progress_id; exact Hrange).
    assert (Hm' : 0 <= or_zero (Some m))
      by (pose proof (or_zero_eq m); lra).
    unfold compute_material_delta.
    fold (clamp_progress p). fold (clamp_progress prev).
    rewrite py_max_0_id.
    + rewrite Hcp, Hoz, (or_zero_eq m). reflexivity.
    + apply Qmult_le_0_compat; [exact Hm'|]. rewrite Hcp. qlra.
Qed.

Lemma update_job_progress_books_material_delta_witness :
  exists spool',
    query_spool
      (snd (request (update_job_progress default_settings "JOB_0A1B2C3D" 50
                       None) farm_printing)) "S" = Some spool'
    /\ Spool.remaining_weight_g spool'
       == py_max 0 (1000 - compute_material_delta (Some 900) 0 50).
Proof.
  apply (update_job_progress_books_material_delta default_settings
           "JOB_0A1B2C3D" 50 None farm_printing
           (PrintJob.mk 1 "JOB_0A1B2C3D" 1 "bracket" job_printing (Some 0%Z)
              None None None (Some 900) (Some "S") (Some 0) (Some 0%Z) None)
           "S" 900 0 spool_S).
  - reflexivity.
  - reflexivity.
  - discriminate.
  - reflexivity.
  - reflexivity.
  - reflexivity.
  - split; discriminate.
  - reflexivity.
  - reflexivity.
  - discriminate.
Defined.

(** ** Operator actions after a failure *)

(** X23. A detected failure takes the printer out of service until an
    operator acts: after a flagged [detect_failure_from_image] on a job
    whose printer exists, [create_job] for that printer is refused with
    "printer not available" and changes nothing; [activate_printer] then
    answers [True] and leaves the printer idle. *)
Theorem failed_printer_needs_activation (settings : Settings) (now : Z)
  (code path : string) (sc : Scores) (d : Store) (job : PrintJob.t)
  (pr : Printer.t) (m : Q) (ty : string)
  (hex8 part_name : string) (material_g : option Q)
  (spool_id : option string) :
  query_job d code = Some job ->
  query_printer d (PrintJob.printer_id job) = Some pr ->
  detect_failure settings (Some sc) = (true, m, ty) ->
  let d1 := snd (request (detect_failure_from_image settings now code path
                            (Some sc)) d) in
  let d2 := snd (inventory_request
                   (activate_printer (PrintJob.printer_id job)) d1) in
  request (create_job hex8 (PrintJob.printer_id job) part_name None
                      material_g spool_id None) d1
  = (None, Some Printer_not_available, d1)
  /\ fst (inventory_request (activate_printer (PrintJob.printer_id job)) d1)
     = true
  /\ query_printer d2 (PrintJob.printer_id job)
     = Some (Printer.set_status idle pr)
  /\ print_jobs d2 = print_jobs d1
  /\ spools d2 = spools d1.
Proof.
  intros Hjob Hprinter Hflag d1 d2.
  destruct (detect_failure_from_image_flagged settings now code path sc d job
              m ty Hjob Hflag) as (_ & _ & _ & Hp & _).
  specialize (Hp pr Hprinter). fold d1 in Hp.
  unfold d2. clearbody d1. split.
  - unfold request, create_job. simpl db. simpl pending. rewrite Hp.
    reflexivity.
  - unfold inventory_request, activate_printer. simpl pending. rewrite Hp.
    simpl. split; [reflexivity|]. split; [|split; reflexivity].
    unfold query_printer in *. simpl.
    rewrite find_update_first by reflexivity. now rewrite Hp.
Qed.

Lemma failed_printer_needs_activation_witness :
  let d1 := snd (request (detect_failure_from_image default_settings 45000000
                            "JOB_0A1B2C3D" "frame.jpg" (Some frame_separated))
                   farm_printing) in
  request (create_job "0000000F" 1 "clip" None None None None) d1
  = (None, Some Printer_not_available, d1).
Proof.
  cbv zeta.
  apply (failed_printer_needs_activation default_settings 45000000
           "JOB_0A1B2C3D" "frame.jpg" frame_separated farm_printing
           (PrintJob.mk 1 "JOB_0A1B2C3D" 1 "bracket" job_printing (Some 0%Z)
              None None None (Some 900) (Some "S") (Some 0) (Some 0%Z) None)
           (Printer.mk 1 printing true) 0.9 "layer_separation"
           "0000000F" "clip" None None).
  - reflexivity.
  - reflexivity.
  - reflexivity.
Defined.

Lemma update_first_undo {A : Type} (p : A -> bool) (f g : A -> A)
  (l : list A) (x : A) :
  find p l = Some x -> (forall y, p (g y) = p y) -> f (g x) = x ->
  update_first p f (update_first p g l) = l.
Proof.
  intros Hx Hp Hfg. induction l as [|y l IH]; simpl; [reflexivity|].
  simpl in Hx. destruct (p y) eqn:E; simpl.
  - injection Hx as ->. now rewrite Hp, E, Hfg.
  - rewrite E. now rewrite IH.
Qed.

(** X27. The spool switches of the API: on an unknown code both answer
    "not found" and change nothing, and deactivating then activating a
    spool that was active gives back every modelled column of the database
    as it was.  (The [updated_at] timestamp of the spool row, which is not
    modelled, is rewritten by both updates.) *)
Theorem spool_switch_round_trip (code : string) (d : Store) :
  (query_spool d code = None ->
   inventory_request (activate_spool code) d = (false, d)
   /\ inventory_request (deactivate_spool code) d = (false, d))
  /\ (forall sp,
        query_spool d code = Some sp -> Spool.is_active sp = true ->
        let d1 := snd (inventory_request (deactivate_spool code) d) in
        query_spool d1 code = Some (Spool.set_is_active false sp)
        /\ inventory_request (activate_spool code) d1 = (true, d)).
Proof.
  split.
  - intro Hq. unfold inventory_request, activate_spool, deactivate_spool,
      get_spool_by_id. simpl pending. rewrite Hq. split; reflexivity.
  - intros sp Hq Ha. cbv zeta.
    unfold inventory_request, deactivate_spool, get_spool_by_id.
    simpl pending. rewrite Hq. simpl.
    assert (Hq1 : find (is_spool code)
                    (update_first (is_spool code) (Spool.set_is_active false)
                       (spools d))
                  = Some (Spool.set_is_active false sp)).
    { rewrite find_update_first by reflexivity.
      unfold query_spool in Hq. now rewrite Hq. }
    split; [exact Hq1|].
    unfold activate_spool, get_spool_by_id, query_spool, begin.
    cbn [pending commit write with_spools spools]. rewrite Hq1.
    unfold query_spool in Hq. destruct d as [prs spl jbs als fes sq].
    unfold with_spools. simpl in *. do 2 f_equal.
    apply (update_first_undo _ _ _ _ sp Hq); [reflexivity|].
    destruct sp. simpl in *. now subst.
Qed.

(** ** The failure window *)

Lemma Z_max_spec (a b : Z) : (a <= Z_max a b /\ b <= Z_max a b)%Z
                             /\ (Z_max a b = a \/ Z_max a b = b).
Proof.
  unfold Z_max. destruct (Z.ltb a b) eqn:E.
  - apply Z.ltb_lt in E. lia.
  - apply Z.ltb_ge in E. lia.
Qed.

Lemma Z_min_spec (a b : Z) : (Z_min a b <= a /\ Z_min a b <= b)%Z
                             /\ (Z_min a b = a \/ Z_min a b = b).
Proof.
  unfold Z_min. destruct (Z.ltb b a) eqn:E.
  - apply Z.ltb_lt in E. lia.
  - apply Z.ltb_ge in E. lia.
Qed.

Lemma window_share_bounds (w window ts : Z) :
  (0 <= w <= window)%Z -> (1 <= ts)%Z ->
  0 <= inject_Z w / inject_Z ts
  /\ inject_Z w / inject_Z ts <= inject_Z window / inject_Z ts.
Proof.
  intros [Hw0 Hw1] Hts.
  assert (Hinv : 0 <= / inject_Z ts).
  { apply Qinv_le_0_compat. change 0 with (inject_Z 0).
    rewrite <- Zle_Qle. lia. }
  assert (H0 : 0 <= inject_Z w)
    by (change 0 with (inject_Z 0); rewrite <- Zle_Qle; lia).
  assert (H1 : inject_Z w <= inject_Z window)
    by (rewrite <- Zle_Qle; lia).
  unfold Qdiv. split.
  - now apply Qmult_le_0_compat.
  - now apply Qmult_le_compat_r.
Qed.

(** X28. [estimate_used_on_failure_window] for a material requirement and a
    window that are not negative: the estimate is never negative and never
    more than the share of the whole window,
    [total * window_seconds / total_seconds], where [total_seconds] (the
    estimated minutes, or 60 when unset or zero, times 60, at least 1) is
    positive; it is that whole share for a job that has no start time, and
    zero for a job whose start time is not yet past. *)
Theorem estimate_used_on_failure_window_bounds (now : Z) (total : option Q)
  (estimated_time_min start_time : option Z) (window_seconds : Z) :
  0 <= or_zero total -> (0 <= window_seconds)%Z ->
  let e := estimate_used_on_failure_window now total estimated_time_min
                                           start_time window_seconds in
  let total_seconds := Z_max (or_int estimated_time_min 60 * 60) 1 in
  (1 <= total_seconds)%Z
  /\ 0 <= e
  /\ e <= or_zero total
          * (inject_Z window_seconds / inject_Z total_seconds)
  /\ (start_time = None ->
      e == or_zero total
           * (inject_Z window_seconds / inject_Z total_seconds))
  /\ (forall st, start_time = Some st -> (now <= st)%Z -> e == 0).
Proof.
  intros Ht Hw. cbv zeta.
  set (ts := Z_max (or_int estimated_time_min 60 * 60) 1).
  assert (Hts : (1 <= ts)%Z)
    by (unfold ts; destruct (Z_max_spec (or_int estimated_time_min 60 * 60) 1);
        lia).
  assert (Hval : forall w,
            (0 <= w <= window_seconds)%Z ->
            let x := or_zero total * (inject_Z w / inject_Z ts) in
            py_max 0 x == x
            /\ x <= or_zero total * (inject_Z window_seconds / inject_Z ts)).
  { intros w Hwr. cbv zeta.
    destruct (window_share_bounds w window_seconds ts Hwr Hts) as [H0 H1].
    split.
    - apply py_max_0_id. now apply Qmult_le_0_compat.
    - rewrite (Qmult_comm _ (inject_Z w / inject_Z ts)),
        (Qmult_comm _ (inject_Z window_seconds / inject_Z ts)).
      now apply Qmult_le_compat_r. }
  assert (Hws : forall st,
            (0 <= Z_min window_seconds (Z_max (seconds_of (now - st)) 0)
             <= window_seconds)%Z).
  { intro st.
    destruct (Z_min_spec window_seconds (Z_max (seconds_of (now - st)) 0))
      as ((A & B) & C).
    destruct (Z_max_spec (seconds_of (now - st)) 0) as ((D & E) & F). lia. }
  split; [exact Hts|]. split; [apply py_max_0_nonneg|].
  unfold estimate_used_on_failure_window. fold ts.
  split; [|split].
  - destruct start_time as [st|].
    + destruct (Hval _ (Hws st)) as [E1 E2]. cbv zeta. rewrite E1. exact E2.
    + destruct (Hval window_seconds) as [E1 E2]; [lia|]. rewrite E1. exact E2.
  - intros ->. destruct (Hval window_seconds) as [E1 _]; [lia|]. exact E1.
  - intros st -> Hle. cbv zeta.
    assert (Hel : (seconds_of (now - st) <= 0)%Z).
    { unfold seconds_of.
      rewrite <- (Z.quot_0_l 1000000) by lia.
      apply Z.quot_le_mono; lia. }
    assert (Hz : Z_min window_seconds (Z_max (seconds_of (now - st)) 0) = 0%Z).
    { destruct (Z_min_spec window_seconds (Z_max (seconds_of (now - st)) 0))
        as ((A & B) & C).
      destruct (Z_max_spec (seconds_of (now - st)) 0) as ((D & E) & F).
      pose proof (Hws st). lia. }
    rewrite Hz. destruct (Hval 0%Z) as [E1 _]; [lia|]. rewrite E1.
    unfold Qdiv. change (inject_Z 0) with 0. ring.
Qed.

Lemma estimate_used_on_failure_window_bounds_witness :
  estimate_used_on_failure_window 45000000 (Some 900) (Some 90%Z) (Some 0%Z) 30
  <= 900 * (inject_Z 30 / inject_Z 5400).
Proof.
  destruct (estimate_used_on_failure_window_bounds 45000000 (Some 900)
              (Some 90%Z) (Some 0%Z) 30) as (_ & _ & H & _).
  - discriminate.
  - discriminate.
  - exact H.
Defined.

(** ** A frame without a score, a job code without a job *)

Lemma keep_highest_fold_below (l : list (string * Q)) (acc : Q * string) :
  (forall n c, In (n, c) l -> c <= fst acc) ->
  fold_left keep_highest l acc = acc.
Proof.
  revert acc. induction l as [|[n c] l IH]; intros acc H; simpl;
    [reflexivity|].
  assert (Hc : c <= fst acc) by (apply (H n); now left).
  unfold keep_highest at 2. simpl.
  replace (Qltb (fst acc) c) with false
    by (symmetry; now apply Qltb_false).
  apply IH. intros n' c' Hin. apply (H n'). now right.
Qed.

(** X29. On a readable frame on which no detector scores above zero,
    [detect_failure] answers confidence 0 and type "none", and flags a failure
    exactly when the configured threshold is negative; on an unreadable frame
    it never flags a failure. *)
Theorem detect_failure_without_score (settings : Settings) (sc : Scores) :
  stringing sc <= 0 -> layer_separation sc <= 0 ->
  warping sc <= 0 -> blob sc <= 0 ->
  detect_failure settings (Some sc)
  = (Qltb (failure_detection_threshold settings) 0, 0, "none")
  /\ (fst (fst (detect_failure settings (Some sc))) = true <->
      failure_detection_threshold settings < 0)
  /\ detect_failure settings None = (false, 0, "image_load_error").
Proof.
  intros H1 H2 H3 H4.
  assert (E : detect_failure settings (Some sc)
              = (Qltb (failure_detection_threshold settings) 0, 0, "none")).
  { unfold detect_failure.
    rewrite (keep_highest_fold_below (results_of sc) (0, "none"));
      [reflexivity|].
    intros n c [Hin|[Hin|[Hin|[Hin|[]]]]]; injection Hin as _ <-; assumption. }
  split; [exact E|]. split; [|reflexivity].
  rewrite E. simpl. apply Qltb_true.
Qed.

Lemma detect_failure_without_score_witness :
  detect_failure default_settings (Some (mkScores 0 0 0 0))
  = (false, 0, "none").
Proof.
  destruct (detect_failure_without_score default_settings (mkScores 0 0 0 0))
    as (H & _).
  - discriminate.
  - discriminate.
  - discriminate.
  - discriminate.
  - exact H.
Defined.

(** X30. A job code that no job carries is refused by every operation and
    nothing is written: [start_job] and [delete_job] answer [False] and
    record "job not found"; [update_job_progress] and [complete_job] answer
    [False] and [detect_failure_from_image] answers nothing, the three
    without recording a message. *)
Theorem unknown_job_is_refused (settings : Settings) (now : Z)
  (code path : string) (p : Q) (layer : option Z) (success : bool)
  (image : option Scores) (d : Store) :
  query_job d code = None ->
  request (start_job now code) d = (false, Some Job_not_found, d)
  /\ request (delete_job code) d = (false, Some Job_not_found, d)
  /\ request (update_job_progress settings code p layer) d = (false, None, d)
  /\ request (complete_job settings now code success) d = (false, None, d)
  /\ request (detect_failure_from_image settings now code path image) d
     = (None, None, d)
  /\ get_job_by_id (service_on d) code = None.
Proof.
  intro Hq.
  unfold request, start_job, delete_job, update_job_progress, complete_job,
    detect_failure_from_image, get_job_by_id, service_on, _get_job.
  simpl db. simpl pending. rewrite Hq. repeat split.
Qed.

Lemma unknown_job_is_refused_witness :
  request (complete_job default_settings 0 "JOB_FFFFFFFF" true) farm_queued
  = (false, None, farm_queued).
Proof.
  apply (unknown_job_is_refused default_settings 0 "JOB_FFFFFFFF" "frame.jpg"
           0 None true None farm_queued).
  reflexivity.
Defined.
